(** * prompt-protocol/app: the chart notebook [io.ipynb]

    A shallow embedding of the notebook script: the download of the CSV
    dataset, the label encoding of ['CategoriaPrompt'], the chart helpers and
    the main sequence of analysis steps, followed by the properties of the
    program that its specification states.

    Conventions.
    - A Python [str] is a [string] holding its UTF-8 bytes; comparing such
      strings byte by byte is comparing them code point by code point, which
      is Python's order on [str].
    - The program runs in a state-and-exception monad [M].  The state holds
      the DataFrame objects of the run (so that the dataset is one shared,
      mutable object), pyplot's open figures, and the trace of the effects
      on the outside world.
    - What third-party libraries compute from data that the program never
      inspects (the HTTP exchange, the CSV parser, correlation coefficients,
      whether a plotting call raises) is a field of [Libs]. *)

From Stdlib Require Import List String Ascii ZArith QArith Qcanon Bool Lia.
From Stdlib Require Import Strings.Byte.
From Stdlib Require Import Sorting.Sorted Sorting.Permutation.
From Stdlib Require Import Structures.OrdersEx.
Import ListNotations.

Local Open Scope string_scope.
Local Open Scope Z_scope.

(** ** Paths ([os.path]) *)

Module os_path.

(** [s] ends with the character ['/']. *)
Fixpoint ends_with_sep (s : string) : bool :=
  match s with
  | EmptyString => false
  | String c EmptyString => Ascii.eqb c "/"
  | String _ rest => ends_with_sep rest
  end.

Definition is_abs (s : string) : bool :=
  match s with
  | String c _ => Ascii.eqb c "/"
  | EmptyString => false
  end.

(** [posixpath.join] for two components. *)
Definition join (a b : string) : string :=
  if is_abs b then b
  else if (a =? "")%string || ends_with_sep a then a ++ b
  else a ++ "/" ++ b.

(** Position just after the last ['/'] of [s], if there is one. *)
Fixpoint rfind_sep (s : string) : option nat :=
  match s with
  | EmptyString => None
  | String c rest =>
      match rfind_sep rest with
      | Some i => Some (S i)
      | None => if Ascii.eqb c "/" then Some 1%nat else None
      end
  end.

Fixpoint all_sep (s : string) : bool :=
  match s with
  | EmptyString => true
  | String c rest => Ascii.eqb c "/" && all_sep rest
  end.

Fixpoint rstrip_sep (s : string) : string :=
  match s with
  | EmptyString => EmptyString
  | String c rest => if all_sep s then EmptyString else String c (rstrip_sep rest)
  end.

(** [posixpath.dirname]: the head up to the last slash, with its trailing
    slashes removed unless it consists of slashes only. *)
Definition dirname (p : string) : string :=
  match rfind_sep p with
  | None => ""
  | Some i =>
      let head := substring 0 i p in
      if all_sep head then head else rstrip_sep head
  end.

End os_path.

(** ** Constants and configuration *)

Definition DRIVE_MOUNT_PATH : string := "/content/drive".
Definition GRAPHPATH : string :=
  os_path.join (os_path.join DRIVE_MOUNT_PATH "MyDrive") "graficos".
Definition SUMMARYPATH : string :=
  os_path.join (os_path.join DRIVE_MOUNT_PATH "MyDrive") "sumarios".
Definition DEFAULT_PALETTE : string := "viridis".
Definition FIGSIZE : Q * Q := (10 # 1, 6 # 1).
Definition DATASET_URL : string :=
  "https://docs.google.com/spreadsheets/d/1_jKH6GX7N7Vutxn4dJ_fKeLDJraLaz9jXLUKTRIiu4c/export?format=csv".

(** ** Ordered cell values

    What [sorted] and [numpy.unique] need from the values of a column: a
    strict order.  Two values are the same when neither is below the other. *)

Class Ord (A : Type) := ltb : A -> A -> bool.

Definition same {A} `{Ord A} (x y : A) : bool :=
  negb (ltb x y) && negb (ltb y x).

#[export] Instance Ord_Z : Ord Z := Z.ltb.

#[export] Instance Ord_bool : Ord bool := fun a b => negb a && b.

#[export] Instance Ord_Qc : Ord Qc :=
  fun a b => match (a ?= b)%Qc with Lt => true | _ => false end.

(** [str] values: lexicographic on the bytes. *)
#[export] Instance Ord_string : Ord string :=
  fun a b => match String_as_OT.compare a b with Lt => true | _ => false end.

(** A missing value ([NaN], read from an empty CSV cell) comes after every
    present value; all missing values are one and the same class. *)
#[export] Instance Ord_option {A} `{Ord A} : Ord (option A) :=
  fun a b =>
    match a, b with
    | Some x, Some y => ltb x y
    | Some _, None => true
    | None, _ => false
    end.

(** What a cell of an object column is compared by: a number (Python
    compares [int], [float] and [bool] cells by value, so that [1], [1.0]
    and [True] are one and the same), a string, or the missing value.  The
    order between a number and a string is never consulted: a column that
    holds both is rejected before it is sorted. *)
Inductive Key :=
| KNum (q : Qc)
| KStr (s : string)
| KNaN.

#[export] Instance Ord_Key : Ord Key :=
  fun a b =>
    match a, b with
    | KNum x, KNum y => ltb x y
    | KStr x, KStr y => ltb x y
    | KNum _, KStr _ => true
    | KStr _, KNum _ => false
    | KNaN, _ => false
    | _, KNaN => true
    end.

(** ** scikit-learn's [LabelEncoder] *)

Module LabelEncoder.
Section Encoder.
Context {A : Type} `{Ord A}.

Fixpoint insert (x : A) (l : list A) : list A :=
  match l with
  | [] => [x]
  | y :: l' =>
      if ltb x y then x :: l
      else if ltb y x then y :: insert x l'
      else l
  end.

(** [classes_] after [fit]: the distinct values, ascending. *)
Definition classes (y : list A) : list A := fold_right insert [] y.

(** Position of [x] in the class list. *)
Fixpoint index (x : A) (cls : list A) : nat :=
  match cls with
  | [] => 0%nat
  | c :: cls' => if same x c then 0%nat else S (index x cls')
  end.

(** [transform]: each value is replaced by the position of its class. *)
Definition transform (cls : list A) (y : list A) : list Z :=
  map (fun v => Z.of_nat (index v cls)) y.

Definition fit_transform (y : list A) : list Z :=
  transform (classes y) y.
End Encoder.
End LabelEncoder.

(** ** The tabular dataset (pandas) *)

(** A cell of a column of dtype [object]: any Python object that
    [read_csv] leaves in such a column -- a [str], an [int] of any size, a
    [float], a [bool], or NaN for an empty cell. *)
Inductive PyValue :=
| PyStr (s : string)
| PyInt (z : Z)
| PyFloat (q : Qc)
| PyBool (b : bool)
| PyNaN.

(** A column, with the dtype that [read_csv] inferred for it.  The cells of
    an [int64] column are 64-bit integers (nothing below depends on the
    bound); a float cell is the rational it denotes, or [None] for NaN; the
    cells of an object column may be of different types. *)
Inductive Series :=
| Int64 (values : list Z)
| Float64 (values : list (option Qc))
| Boolean (values : list bool)
| Object (values : list PyValue).

Definition DataFrame := list (string * Series).

Definition columns (df : DataFrame) : list string := map fst df.

(** ['name' in df.columns] *)
Definition has_column (df : DataFrame) (name : string) : bool :=
  existsb (String.eqb name) (columns df).

(** [df[name]] *)
Fixpoint getitem (df : DataFrame) (name : string) : option Series :=
  match df with
  | [] => None
  | (n, s) :: df' => if (n =? name)%string then Some s else getitem df' name
  end.

(** [df[name] = s]: the column of that name is replaced where it stands; a
    new name is added as the last column. *)
Definition setitem (df : DataFrame) (name : string) (s : Series) : DataFrame :=
  if has_column df name
  then map (fun c => if (fst c =? name)%string then (name, s) else c) df
  else (df ++ [(name, s)])%list.

(** [np.number] covers the integer and floating dtypes, not [bool] and not
    [object]. *)
Definition is_numeric (s : Series) : bool :=
  match s with
  | Int64 _ | Float64 _ => true
  | Boolean _ | Object _ => false
  end.

(** [df.select_dtypes(include=np.number)]: a new frame. *)
Definition select_dtypes_number (df : DataFrame) : DataFrame :=
  filter (fun c => is_numeric (snd c)) df.

Definition key (v : PyValue) : Key :=
  match v with
  | PyStr s => KStr s
  | PyInt z => KNum (Q2Qc (inject_Z z))
  | PyFloat q => KNum q
  | PyBool b => KNum (Q2Qc (inject_Z (if b then 1 else 0)))
  | PyNaN => KNaN
  end.

(** [type(v).__qualname__] *)
Definition type_name (v : PyValue) : string :=
  match v with
  | PyStr _ => "str"
  | PyInt _ => "int"
  | PyFloat _ | PyNaN => "float"
  | PyBool _ => "bool"
  end.

Definition is_text (v : PyValue) : bool :=
  match v with
  | PyStr _ => true
  | _ => false
  end.

Definition is_number (v : PyValue) : bool :=
  match v with
  | PyInt _ | PyFloat _ | PyBool _ => true
  | _ => false
  end.

(** The cells to sort hold a string and a number: [sorted] cannot compare
    them. *)
Definition mixed (v : list PyValue) : bool :=
  existsb is_text v && existsb is_number v.

(** [LabelEncoder().fit_transform] on a column: the codes, as the column
    that the assignment of the array makes, or the type names of the
    [TypeError] that the encoder raises.  A numeric or boolean column goes
    through [numpy.unique], whose positions are integers.  An object column
    is sorted by Python, its missing values set aside and put last: a
    column with both strings and numbers is rejected; otherwise the codes
    are looked up cell by cell and collected into an array, which is an
    integer array unless there is no cell at all, when it is the empty float
    array. *)
Definition fit_transform (s : Series) : list string + Series :=
  match s with
  | Int64 v => inr (Int64 (LabelEncoder.fit_transform v))
  | Float64 v => inr (Int64 (LabelEncoder.fit_transform v))
  | Boolean v => inr (Int64 (LabelEncoder.fit_transform v))
  | Object [] => inr (Float64 [])
  | Object v =>
      if mixed v then inl (LabelEncoder.classes (map type_name v))
      else inr (Int64 (LabelEncoder.fit_transform (map key v)))
  end.

(** A correlation matrix: row and column labels, and one coefficient per
    pair of labels ([None] is NaN). *)
Record CorrMatrix := mkCorr {
  corr_index : list string;
  corr_columns : list string;
  corr_values : list (list (option Q))
}.


(** ** Plotting calls, figures and the trace of effects *)

(** A seaborn call with the keyword arguments the program passes. *)
Inductive PlotCall :=
| sns_boxplot (x y : string) (data : DataFrame) (palette : string)
    (hue : option string)
| sns_histplot (data : DataFrame) (x : string) (kde : bool) (bins : Z)
    (color : string)
| sns_scatterplot (x y : string) (data : DataFrame) (alpha : Q)
    (hue style : option string) (palette : string)
| sns_heatmap (data : CorrMatrix) (annot : bool) (cmap fmt : string)
    (linewidths : Q)
| sns_violinplot (x y : string) (data : DataFrame) (palette : string)
    (hue : option string) (split : bool).

Inductive Artist :=
| Plot (call : PlotCall)
| Title (text : string)
| Xticks (rotation : Z) (ha : string).

Record Figure := mkFigure {
  figsize : Q * Q;
  artists : list Artist
}.

(** Effects on the world outside the process, in the order they happen. *)
Inductive Event :=
| drive_mounted (path : string) (force_remount : bool)
| makedirs (path : string)
| http_get (url : string)
| printed (line : string)
| seaborn (call : PlotCall)
| savefig (filepath : string) (fig : Figure) (dpi : Z) (bbox_inches : string).

Inductive Exn :=
| SystemExit
| RequestException (msg : string)
| HTTPError (status : Z)
| UnicodeDecodeError
| ParserError (msg : string)
| TypeError (types : list string)
| PlotError (call : PlotCall).

(** [except Exception] catches everything but the exit request. *)
Definition is_Exception (e : Exn) : bool :=
  match e with
  | SystemExit => false
  | _ => true
  end.

Record Response := mkResponse {
  status_code : Z;
  content : list byte
}.

(** What the libraries answer. *)
Record Libs := mkLibs {
  (** [requests.get]: a response, or the message of a connection error *)
  lib_get : string -> string + Response;
  (** [pd.read_csv] on the decoded text: a frame, or the parser's message *)
  lib_read_csv : string -> string + DataFrame;
  (** Pearson's coefficient of two columns *)
  lib_pearson : Series -> Series -> option Q;
  (** whether seaborn raises on a call *)
  lib_raises : PlotCall -> bool;
  (** [str(e)] *)
  lib_str : Exn -> string
}.

(** ** The state and the monad *)

Definition Ref := nat.

Record State := mkState {
  heap : list DataFrame;      (* the DataFrame objects, by reference *)
  figures : list Figure;      (* pyplot's open figures, the current one first *)
  trace : list Event
}.

Definition initial : State := mkState [] [] [].

Inductive Result (A : Type) :=
| Ok (a : A)
| Raised (e : Exn).
Arguments Ok {A} a.
Arguments Raised {A} e.

Definition M (A : Type) : Type := State -> Result A * State.

Definition ret {A} (a : A) : M A := fun st => (Ok a, st).

Definition bind {A B} (m : M A) (k : A -> M B) : M B :=
  fun st =>
    match m st with
    | (Ok a, st') => k a st'
    | (Raised e, st') => (Raised e, st')
    end.

Declare Scope prog_scope.
Delimit Scope prog_scope with prog.
Notation "x <- m ;; k" := (bind m (fun x => k))
  (at level 100, m at next level, right associativity) : prog_scope.
Notation "m ;; k" := (bind m (fun _ => k))
  (at level 100, right associativity) : prog_scope.
Local Open Scope prog_scope.

Definition raise {A} (e : Exn) : M A := fun st => (Raised e, st).

(** [try: body  except Exception as e: handler e] *)
Definition try_except {A} (body : M A) (handler : Exn -> M A) : M A :=
  fun st =>
    match body st with
    | (Ok a, st') => (Ok a, st')
    | (Raised e, st') =>
        if is_Exception e then handler e st' else (Raised e, st')
    end.

(** [for x in xs: body x] *)
Fixpoint for_each {A} (xs : list A) (body : A -> M unit) : M unit :=
  match xs with
  | [] => ret tt
  | x :: xs' => body x ;; for_each xs' body
  end.

Definition emit (e : Event) : M unit :=
  fun st => (Ok tt, mkState (heap st) (figures st) (trace st ++ [e])).

Definition print (line : string) : M unit := emit (printed line).

(** [exit()] *)
Definition exit {A} : M A := raise SystemExit.

(** *** DataFrame objects *)

Definition alloc (df : DataFrame) : M Ref :=
  fun st =>
    (Ok (List.length (heap st)),
     mkState (heap st ++ [df]) (figures st) (trace st)).

(** The object a reference names. *)
Definition deref (r : Ref) : M DataFrame :=
  fun st => (Ok (nth r (heap st) []), st).

Fixpoint update {A} (l : list A) (i : nat) (f : A -> A) : list A :=
  match l, i with
  | [], _ => []
  | x :: l', O => f x :: l'
  | x :: l', S i' => x :: update l' i' f
  end.

(** ['name' in df.columns] *)
Definition contains (df : Ref) (name : string) : M bool :=
  d <- deref df ;; ret (has_column d name).

(** [df[name] = values], in place. *)
Definition assign (df : Ref) (name : string) (s : Series) : M unit :=
  fun st =>
    (Ok tt,
     mkState (update (heap st) df (fun d => setitem d name s))
       (figures st) (trace st)).

(** *** pyplot *)

(** [plt.figure(figsize=...)]: a new figure, which becomes the current one. *)
Definition plt_figure (size : Q * Q) : M unit :=
  fun st => (Ok tt, mkState (heap st) (mkFigure size [] :: figures st) (trace st)).

(** matplotlib's default figure size, used when a figure is made implicitly. *)
Definition rc_figsize : Q * Q := (64 # 10, 48 # 10).

(** Add to the current figure; pyplot makes one when none is open. *)
Definition draw (a : Artist) : M unit :=
  fun st =>
    let figs :=
      match figures st with
      | [] => [mkFigure rc_figsize [a]]
      | f :: fs => mkFigure (figsize f) (artists f ++ [a]) :: fs
      end in
    (Ok tt, mkState (heap st) figs (trace st)).

Definition plt_title (text : string) : M unit := draw (Title text).

Definition plt_xticks (rotation : Z) (ha : string) : M unit :=
  draw (Xticks rotation ha).

(** [plt.savefig(filepath, dpi=.., bbox_inches=..)]: writes the current
    figure to the file. *)
Definition plt_savefig (filepath : string) (dpi : Z) (bbox : string) : M unit :=
  fun st =>
    let figs :=
      match figures st with
      | [] => [mkFigure rc_figsize []]
      | _ => figures st
      end in
    (Ok tt,
     mkState (heap st) figs
       (trace st ++ [savefig filepath (hd (mkFigure rc_figsize []) figs) dpi bbox])).

(** [plt.close()]: closes the current figure. *)
Definition plt_close : M unit :=
  fun st => (Ok tt, mkState (heap st) (tl (figures st)) (trace st)).

Definition os_makedirs (path : string) : M unit := emit (makedirs path).

Definition drive_mount (path : string) (force_remount : bool) : M unit :=
  emit (drive_mounted path force_remount).

(** *** Decoding bytes as UTF-8 *)

Definition in_range (lo hi : N) (b : byte) : bool :=
  ((lo <=? Byte.to_N b) && (Byte.to_N b <=? hi))%N.

Definition continuation : byte -> bool := in_range 128 191.

(** Well-formed UTF-8: shortest forms only, no surrogates, nothing above
    U+10FFFF. *)
Fixpoint utf8_valid (bs : list byte) : bool :=
  match bs with
  | [] => true
  | b0 :: rest =>
      if in_range 0 127 b0 then utf8_valid rest
      else if in_range 194 223 b0 then
        match rest with
        | b1 :: rest' => continuation b1 && utf8_valid rest'
        | _ => false
        end
      else if in_range 224 239 b0 then
        match rest with
        | b1 :: b2 :: rest' =>
            (if in_range 224 224 b0 then in_range 160 191 b1
             else if in_range 237 237 b0 then in_range 128 159 b1
             else continuation b1)
            && continuation b2 && utf8_valid rest'
        | _ => false
        end
      else if in_range 240 244 b0 then
        match rest with
        | b1 :: b2 :: b3 :: rest' =>
            (if in_range 240 240 b0 then in_range 144 191 b1
             else if in_range 244 244 b0 then in_range 128 143 b1
             else continuation b1)
            && continuation b2 && continuation b3 && utf8_valid rest'
        | _ => false
        end
      else false
  end.

(** [bytes.decode('utf-8')] *)
Definition decode_utf8 (bs : list byte) : M string :=
  if utf8_valid bs then ret (string_of_list_byte bs)
  else raise UnicodeDecodeError.

(** [label_encoder.fit_transform(column)]: the array of codes, or the
    encoder's [TypeError]. *)
Definition label_encoder_fit_transform (column : Series) : M Series :=
  match fit_transform column with
  | inl types => raise (TypeError types)
  | inr codes => ret codes
  end.

(** ** The program *)

Section Program.

Variable L : Libs.

(** *** Library calls *)

Definition requests_get (url : string) : M Response :=
  emit (http_get url) ;;
  match lib_get L url with
  | inl msg => raise (RequestException msg)
  | inr response => ret response
  end.

(** [Response.raise_for_status]: raises on the client and server error
    statuses. *)
Definition raise_for_status (response : Response) : M unit :=
  if (400 <=? status_code response) && (status_code response <? 600)
  then raise (HTTPError (status_code response))
  else ret tt.

(** [pd.read_csv(io.StringIO(text))]: a new DataFrame object. *)
Definition pd_read_csv (text : string) : M Ref :=
  match lib_read_csv L text with
  | inl msg => raise (ParserError msg)
  | inr df => alloc df
  end.

(** A seaborn call draws on the current figure, unless it raises. *)
Definition sns (call : PlotCall) : M unit :=
  emit (seaborn call) ;;
  if lib_raises L call then raise (PlotError call)
  else draw (Plot call).

(** [DataFrame.corr]: one coefficient for each pair of columns. *)
Definition corr (df : DataFrame) : CorrMatrix :=
  mkCorr (columns df) (columns df)
    (map (fun a => map (fun b => lib_pearson L (snd a) (snd b)) df) df).

(** *** Helper functions *)

Definition save_fig (filename : string) : M unit :=
  let filepath := os_path.join GRAPHPATH filename in
  os_makedirs (os_path.dirname filepath) ;;
  plt_savefig filepath 300 "tight" ;;
  plt_close.

Definition create_figure : M unit := plt_figure FIGSIZE.

Definition load_data_from_url (url : string) : M (option Ref) :=
  try_except
    (response <- requests_get url ;;
     raise_for_status response ;;
     csv_content <- decode_utf8 (content response) ;;
     df <- pd_read_csv csv_content ;;
     ret (Some df))
    (fun e =>
       print ("Erro ao carregar dados da URL: " ++ lib_str L e) ;;
       ret None).

(** *** Chart functions *)

Definition generate_boxplot (df : Ref) (x y title filename : string)
    (hue : option string) : M unit :=
  create_figure ;;
  data <- deref df ;;
  match hue with
  | Some h => sns (sns_boxplot x y data DEFAULT_PALETTE (Some h))
  | None => sns (sns_boxplot x y data DEFAULT_PALETTE None)
  end ;;
  plt_title title ;;
  plt_xticks 45 "right" ;;
  save_fig filename.

Definition generate_histogram (df : Ref) (column title filename : string)
    (bins : Z) (kde : bool) : M unit :=
  create_figure ;;
  data <- deref df ;;
  sns (sns_histplot data column kde bins "skyblue") ;;
  plt_title title ;;
  save_fig filename.

Definition generate_scatterplot (df : Ref) (x y title filename : string)
    (hue style : option string) : M unit :=
  create_figure ;;
  data <- deref df ;;
  sns (sns_scatterplot x y data (7 # 10) hue style DEFAULT_PALETTE) ;;
  plt_title title ;;
  save_fig filename.

Definition generate_heatmap (df : Ref) (title filename : string)
    (annot : bool) : M unit :=
  create_figure ;;
  data <- deref df ;;
  let df_numeric := select_dtypes_number data in
  let corr := corr df_numeric in
  sns (sns_heatmap corr annot DEFAULT_PALETTE ".2f" (1 # 2)) ;;
  plt_title title ;;
  save_fig filename.

Definition generate_violinplot (df : Ref) (x y title filename : string)
    (hue : option string) (split : bool) : M unit :=
  create_figure ;;
  data <- deref df ;;
  sns (sns_violinplot x y data DEFAULT_PALETTE hue split) ;;
  plt_title title ;;
  plt_xticks 45 "right" ;;
  save_fig filename.

(** *** The main sequence *)

Definition human_columns : list string :=
  ["Coerencia (Humana)"; "Relevancia (Humana)"; "Profundidade (Humana)";
   "Consciencia (Humana)"].

(** Label encoding of ['CategoriaPrompt']. *)
Definition preprocess (df : Ref) : M unit :=
  present <- contains df "CategoriaPrompt" ;;
  if present then
    data <- deref df ;;
    match getitem data "CategoriaPrompt" with
    | Some column =>
        codes <- label_encoder_fit_transform column ;;
        assign df "CategoriaPrompt_encoded" codes
    | None => ret tt
    end
  else print "Coluna 'CategoriaPrompt' não encontrada para Label Encoding.".

(** ['CategoriaPrompt_encoded' if 'CategoriaPrompt_encoded' in df.columns
    else None] *)
Definition encoded_hue (df : Ref) : M (option string) :=
  present <- contains df "CategoriaPrompt_encoded" ;;
  ret (if present then Some "CategoriaPrompt_encoded" else None).

(** 1. Distribution of the human ratings (histograms) *)
Definition step1 (df : Ref) : M unit :=
  for_each human_columns (fun col =>
    present <- contains df col ;;
    if present then
      generate_histogram df col ("Distribuição de " ++ col)
        ("1_hist_" ++ col ++ ".png") 20 true
    else print ("A coluna '" ++ col ++ "' não foi encontrada no DataFrame.")).

(** 2. Boxplots of the human ratings by prompt category *)
Definition step2 (df : Ref) : M unit :=
  for_each human_columns (fun col =>
    a <- contains df "CategoriaPrompt" ;;
    b <- contains df col ;;
    if a && b then
      generate_boxplot df "CategoriaPrompt" col
        (col ++ " por Categoria de Prompt") ("2_boxplot_" ++ col ++ ".png") None
    else
      print ("Colunas necessárias ('CategoriaPrompt' ou '" ++ col
             ++ "') não encontradas.")).

(** 3. Scatterplot BLEU vs. ROUGE *)
Definition step3 (df : Ref) : M unit :=
  a <- contains df "BLEU" ;;
  b <- contains df "ROUGE" ;;
  if a && b then
    hue <- encoded_hue df ;;
    generate_scatterplot df "BLEU" "ROUGE" "BLEU vs. ROUGE"
      "3_scatter_bleu_rouge.png" hue None
  else print "Colunas 'BLEU' ou 'ROUGE' não encontradas.".

(** 4. Histogram of the perplexity *)
Definition step4 (df : Ref) : M unit :=
  a <- contains df "Perplexidade" ;;
  if a then
    generate_histogram df "Perplexidade" "Distribuição da Perplexidade"
      "4_hist_perplexidade.png" 20 true
  else print "Coluna 'Perplexidade' não encontrada.".

(** 5. Violin plot of the perplexity by category *)
Definition step5 (df : Ref) : M unit :=
  a <- contains df "Perplexidade" ;;
  b <- contains df "CategoriaPrompt" ;;
  if a && b then
    generate_violinplot df "CategoriaPrompt" "Perplexidade"
      "Perplexidade por Categoria de Prompt" "5_violin_perplexidade.png"
      None false
  else
    print "Colunas necessárias ('CategoriaPrompt' ou 'Perplexidade') não encontradas.".

(** 6. Scatterplot perplexity vs. coherence *)
Definition step6 (df : Ref) : M unit :=
  a <- contains df "Perplexidade" ;;
  b <- contains df "Coerencia (Humana)" ;;
  if a && b then
    hue <- encoded_hue df ;;
    generate_scatterplot df "Perplexidade" "Coerencia (Humana)"
      "Perplexidade vs. Coerência" "6_scatter_perplexidade_coerencia.png"
      hue None
  else print "Colunas 'Perplexidade' ou 'Coerencia (Humana)' não encontradas.".

(** 7. Correlation heatmap *)
Definition step7 (df : Ref) : M unit :=
  generate_heatmap df "Heatmap de Correlação" "7_heatmap.png" true.

(** 8. Scatterplot diversity vs. originality *)
Definition step8 (df : Ref) : M unit :=
  a <- contains df "Diversidade" ;;
  b <- contains df "Originalidade" ;;
  if a && b then
    hue <- encoded_hue df ;;
    generate_scatterplot df "Diversidade" "Originalidade"
      "Diversidade vs. Originalidade"
      "8_scatter_diversidade_originalidade.png" hue None
  else print "Colunas 'Diversidade' ou 'Originalidade' não encontradas.".

(** 9. Boxplot of the diversity by category *)
Definition step9 (df : Ref) : M unit :=
  a <- contains df "Diversidade" ;;
  b <- contains df "CategoriaPrompt" ;;
  if a && b then
    generate_boxplot df "CategoriaPrompt" "Diversidade"
      "Diversidade por Categoria de Prompt" "9_boxplot_diversidade.png" None
  else
    print "Colunas necessárias ('CategoriaPrompt' ou 'Diversidade') não encontradas.".

(** 10. Boxplot of the originality by category *)
Definition step10 (df : Ref) : M unit :=
  a <- contains df "Originalidade" ;;
  b <- contains df "CategoriaPrompt" ;;
  if a && b then
    generate_boxplot df "CategoriaPrompt" "Originalidade"
      "Originalidade por Categoria de Prompt" "10_boxplot_originalidade.png"
      None
  else
    print "Colunas necessárias ('CategoriaPrompt' ou 'Originalidade') não encontradas.".

(** 11. Scatterplot depth vs. awareness *)
Definition step11 (df : Ref) : M unit :=
  a <- contains df "Profundidade (Humana)" ;;
  b <- contains df "Consciencia (Humana)" ;;
  if a && b then
    hue <- encoded_hue df ;;
    generate_scatterplot df "Profundidade (Humana)" "Consciencia (Humana)"
      "Profundidade vs. Consciência"
      "11_scatter_profundidade_consciencia.png" hue None
  else
    print "Colunas 'Profundidade (Humana)' ou 'Consciencia (Humana)' não encontradas.".

Definition analyses (df : Ref) : M unit :=
  step1 df ;; step2 df ;; step3 df ;; step4 df ;; step5 df ;; step6 df ;;
  step7 df ;; step8 df ;; step9 df ;; step10 df ;; step11 df.

Definition main : M unit :=
  drive_mount DRIVE_MOUNT_PATH true ;;
  os_makedirs GRAPHPATH ;;
  os_makedirs SUMMARYPATH ;;
  loaded <- load_data_from_url DATASET_URL ;;
  match loaded with
  | None =>
      print "Não foi possível carregar os dados. Encerrando." ;;
      exit
  | Some df =>
      preprocess df ;;
      analyses df ;;
      print "Análise e gráficos gerados com sucesso!"
  end.

End Program.

(** * Vocabulary of the properties *)

(** The laws of a strict total order. *)
Class OrdLaws (A : Type) `{Ord A} := {
  ltb_irrefl : forall x : A, ltb x x = false;
  ltb_trans : forall x y z : A, ltb x y = true -> ltb y z = true -> ltb x z = true;
  ltb_total : forall x y : A, ltb x y = false -> ltb y x = false -> x = y
}.

(** The strict order of a column's values, as a relation. *)
Definition lt {A} `{Ord A} (x y : A) : Prop := ltb x y = true.

(** The distinct values of a list, and their number. *)
Fixpoint distinct {A} `{Ord A} (l : list A) : list A :=
  match l with
  | [] => []
  | x :: l' => if existsb (same x) l' then distinct l' else x :: distinct l'
  end.

(** Number of distinct cells of a column, a missing value counting as one
    more. *)
Definition nunique (s : Series) : nat :=
  match s with
  | Int64 v => List.length (distinct v)
  | Float64 v => List.length (distinct v)
  | Boolean v => List.length (distinct v)
  | Object v => List.length (distinct (map key v))
  end.

Definition is_prefix {A} (pre l : list A) : Prop := exists rest, l = (pre ++ rest)%list.

(** *** What a trace shows *)

(** The image files written, in order. *)
Fixpoint artifacts (tr : list Event) : list string :=
  match tr with
  | [] => []
  | savefig filepath _ _ _ :: tr' => filepath :: artifacts tr'
  | _ :: tr' => artifacts tr'
  end.

(** The lines printed. *)
Fixpoint diagnostics (tr : list Event) : list string :=
  match tr with
  | [] => []
  | printed line :: tr' => line :: diagnostics tr'
  | _ :: tr' => diagnostics tr'
  end.

(** The plotting calls issued by the chart functions. *)
Fixpoint calls (tr : list Event) : list PlotCall :=
  match tr with
  | [] => []
  | seaborn c :: tr' => c :: calls tr'
  | _ :: tr' => calls tr'
  end.

(** A file lies inside a directory. *)
Definition inside (dir filepath : string) : bool :=
  String.prefix (dir ++ "/") filepath.

(** *** The dataset of a run *)

(** What the libraries deliver for a URL: the parsed dataset, or the
    exception of the first stage that fails (connection, error status,
    decoding, parsing). *)
Definition acquire (L : Libs) (url : string) : Exn + DataFrame :=
  match lib_get L url with
  | inl msg => inl (RequestException msg)
  | inr response =>
      if (400 <=? status_code response) && (status_code response <? 600)
      then inl (HTTPError (status_code response))
      else if utf8_valid (content response) then
        match lib_read_csv L (string_of_list_byte (content response)) with
        | inl msg => inl (ParserError msg)
        | inr df => inr df
        end
      else inl UnicodeDecodeError
  end.

(** The exception with which the label encoding stage leaves the run on
    dataset [df], if it does. *)
Definition encoder_error (df : DataFrame) : option Exn :=
  match getitem df "CategoriaPrompt" with
  | Some column =>
      match fit_transform column with
      | inl types => Some (TypeError types)
      | inr _ => None
      end
  | None => None
  end.

(** The dataset after the label encoding stage: with the derived column
    assigned, or as it was when there is no ['CategoriaPrompt'] or the
    encoder rejects it. *)
Definition encoded (df : DataFrame) : DataFrame :=
  match getitem df "CategoriaPrompt" with
  | Some column =>
      match fit_transform column with
      | inl _ => df
      | inr codes => setitem df "CategoriaPrompt_encoded" codes
      end
  | None => df
  end.

(** The columns that the guards of the analysis steps name. *)
Definition expected_columns : list string :=
  (human_columns
   ++ ["CategoriaPrompt"; "BLEU"; "ROUGE"; "Perplexidade"; "Diversidade";
       "Originalidade"])%list.

Definition has_columns (df : DataFrame) (names : list string) : bool :=
  forallb (has_column df) names.

(** No plotting call raises. *)
Definition plots_succeed (L : Libs) : Prop := forall c, lib_raises L c = false.

(** *** The charts of the main sequence, as a table *)

Record Chart := mkChart {
  needs : list string;              (* the columns its guard tests *)
  call : DataFrame -> PlotCall;     (* the plotting call on the dataset *)
  decoration : list Artist;         (* title and tick labels *)
  file : string;                    (* its file name *)
  skip_message : string             (* the line printed when it is skipped *)
}.

Definition hue_of (d : DataFrame) : option string :=
  if has_column d "CategoriaPrompt_encoded" then Some "CategoriaPrompt_encoded"
  else None.

Definition histogram_chart (col : string) : Chart :=
  mkChart [col] (fun d => sns_histplot d col true 20 "skyblue")
    [Title ("Distribuição de " ++ col)]
    ("1_hist_" ++ col ++ ".png")
    ("A coluna '" ++ col ++ "' não foi encontrada no DataFrame.").

Definition boxplot_chart (col : string) : Chart :=
  mkChart ["CategoriaPrompt"; col]
    (fun d => sns_boxplot "CategoriaPrompt" col d DEFAULT_PALETTE None)
    [Title (col ++ " por Categoria de Prompt"); Xticks 45 "right"]
    ("2_boxplot_" ++ col ++ ".png")
    ("Colunas necessárias ('CategoriaPrompt' ou '" ++ col ++ "') não encontradas.").

Definition scatter_chart (x y title filename message : string) : Chart :=
  mkChart [x; y]
    (fun d => sns_scatterplot x y d (7 # 10) (hue_of d) None DEFAULT_PALETTE)
    [Title title] filename message.

Definition chart3 : Chart :=
  scatter_chart "BLEU" "ROUGE" "BLEU vs. ROUGE" "3_scatter_bleu_rouge.png"
    "Colunas 'BLEU' ou 'ROUGE' não encontradas.".

Definition chart4 : Chart :=
  mkChart ["Perplexidade"]
    (fun d => sns_histplot d "Perplexidade" true 20 "skyblue")
    [Title "Distribuição da Perplexidade"] "4_hist_perplexidade.png"
    "Coluna 'Perplexidade' não encontrada.".

Definition chart5 : Chart :=
  mkChart ["Perplexidade"; "CategoriaPrompt"]
    (fun d => sns_violinplot "CategoriaPrompt" "Perplexidade" d DEFAULT_PALETTE
                None false)
    [Title "Perplexidade por Categoria de Prompt"; Xticks 45 "right"]
    "5_violin_perplexidade.png"
    "Colunas necessárias ('CategoriaPrompt' ou 'Perplexidade') não encontradas.".

Definition chart6 : Chart :=
  scatter_chart "Perplexidade" "Coerencia (Humana)" "Perplexidade vs. Coerência"
    "6_scatter_perplexidade_coerencia.png"
    "Colunas 'Perplexidade' ou 'Coerencia (Humana)' não encontradas.".

(** The heatmap has no guard, hence no skip message. *)
Definition chart7 (L : Libs) : Chart :=
  mkChart []
    (fun d => sns_heatmap (corr L (select_dtypes_number d)) true DEFAULT_PALETTE
                ".2f" (1 # 2))
    [Title "Heatmap de Correlação"] "7_heatmap.png" "".

Definition chart8 : Chart :=
  scatter_chart "Diversidade" "Originalidade" "Diversidade vs. Originalidade"
    "8_scatter_diversidade_originalidade.png"
    "Colunas 'Diversidade' ou 'Originalidade' não encontradas.".

Definition chart9 : Chart :=
  mkChart ["Diversidade"; "CategoriaPrompt"]
    (fun d => sns_boxplot "CategoriaPrompt" "Diversidade" d DEFAULT_PALETTE None)
    [Title "Diversidade por Categoria de Prompt"; Xticks 45 "right"]
    "9_boxplot_diversidade.png"
    "Colunas necessárias ('CategoriaPrompt' ou 'Diversidade') não encontradas.".

Definition chart10 : Chart :=
  mkChart ["Originalidade"; "CategoriaPrompt"]
    (fun d => sns_boxplot "CategoriaPrompt" "Originalidade" d DEFAULT_PALETTE None)
    [Title "Originalidade por Categoria de Prompt"; Xticks 45 "right"]
    "10_boxplot_originalidade.png"
    "Colunas necessárias ('CategoriaPrompt' ou 'Originalidade') não encontradas.".

Definition chart11 : Chart :=
  scatter_chart "Profundidade (Humana)" "Consciencia (Humana)"
    "Profundidade vs. Consciência" "11_scatter_profundidade_consciencia.png"
    "Colunas 'Profundidade (Humana)' ou 'Consciencia (Humana)' não encontradas.".

(** The charts of each of the eleven analysis steps. *)
Definition steps (L : Libs) : list (list Chart) :=
  [ map histogram_chart human_columns; map boxplot_chart human_columns;
    [chart3]; [chart4]; [chart5]; [chart6]; [chart7 L]; [chart8]; [chart9];
    [chart10]; [chart11] ].

Definition charts (L : Libs) : list Chart := List.concat (steps L).

Definition chart_path (c : Chart) : string := os_path.join GRAPHPATH (file c).

Definition enabled (d : DataFrame) (c : Chart) : bool := has_columns d (needs c).

(** What one chart contributes to the trace on dataset [d]: the plotting
    call and the file when its columns are there, one printed line when not. *)
Definition chart_events (d : DataFrame) (c : Chart) : list Event :=
  if enabled d c then
    [ seaborn (call c d);
      makedirs (os_path.dirname (chart_path c));
      savefig (chart_path c) (mkFigure FIGSIZE (Plot (call c d) :: decoration c))
        300 "tight" ]
  else [printed (skip_message c)].

Definition plan (L : Libs) (d : DataFrame) : list Event :=
  flat_map (chart_events d) (charts L).

(** The plotting call at which a computation that is to perform the events
    [evs] stops: the first one that raises. *)
Fixpoint first_raising (L : Libs) (evs : list Event) : option PlotCall :=
  match evs with
  | [] => None
  | seaborn c :: evs' => if lib_raises L c then Some c else first_raising L evs'
  | _ :: evs' => first_raising L evs'
  end.

(** The events performed: those of [evs] up to and including the first
    plotting call that raises, all of them when none does. *)
Fixpoint until_raise (L : Libs) (evs : list Event) : list Event :=
  match evs with
  | [] => []
  | seaborn c :: evs' =>
      seaborn c :: (if lib_raises L c then [] else until_raise L evs')
  | e :: evs' => e :: until_raise L evs'
  end.

(** The result of a computation that is to perform [evs]. *)
Definition result_of (L : Libs) (evs : list Event) : Result unit :=
  match first_raising L evs with
  | None => Ok tt
  | Some c => Raised (PlotError c)
  end.

(** [emits L df d m evs]: run on a state in which the object [df] is the
    dataset [d], the computation [m] leaves every DataFrame object as it is
    and appends to the trace the events of [evs], in order, until a plotting
    call raises: it returns when none does, and otherwise stops right after
    the first call that raises, with the exception of that call. *)
Definition emits (L : Libs) (df : Ref) (d : DataFrame) (m : M unit)
    (evs : list Event) : Prop :=
  forall st, nth df (heap st) [] = d ->
    heap (snd (m st)) = heap st /\
    trace (snd (m st)) = (trace st ++ until_raise L evs)%list /\
    fst (m st) = result_of L evs.

(** *** The trace of a whole run *)

Definition startup : list Event :=
  [ drive_mounted DRIVE_MOUNT_PATH true; makedirs GRAPHPATH; makedirs SUMMARYPATH ].

Definition load_error_line (L : Libs) (e : Exn) : string :=
  "Erro ao carregar dados da URL: " ++ lib_str L e.

Definition abort_line : string := "Não foi possível carregar os dados. Encerrando.".

Definition encoder_skip_line : string :=
  "Coluna 'CategoriaPrompt' não encontrada para Label Encoding.".

Definition done_line : string := "Análise e gráficos gerados com sucesso!".

(** What the label encoding stage prints. *)
Definition encoding_events (df : DataFrame) : list Event :=
  if has_column df "CategoriaPrompt" then [] else [printed encoder_skip_line].

(** The events of a run up to the first analysis step, on dataset [df]. *)
Definition preamble (df : DataFrame) : list Event :=
  (startup ++ [http_get DATASET_URL] ++ encoding_events df)%list.

(** The run of the program from the initial state. *)
Definition run (L : Libs) : Result unit * State := main L initial.

(** Every chart tests expected columns only, and never the derived one. *)
Definition plain_needs (c : Chart) : bool :=
  forallb (fun n => existsb (String.eqb n) expected_columns
                    && negb (n =? "CategoriaPrompt_encoded")%string) (needs c).

(** *** Charts and steps, as seen in a trace *)

(** The file of chart [c] was written. *)
Definition produced (tr : list Event) (c : Chart) : bool :=
  existsb (String.eqb (chart_path c)) (artifacts tr).

(** A step is skipped when none of its charts is written. *)
Definition step_skipped (tr : list Event) (cs : list Chart) : bool :=
  negb (existsb (produced tr) cs).

(** Chart [c] tests column [name]. *)
Definition tests (c : Chart) (name : string) : bool :=
  existsb (String.eqb name) (needs c).

Definition step_list (L : Libs) : list (Ref -> M unit) :=
  [ step1 L; step2 L; step3 L; step4 L; step5 L; step6 L; step7 L; step8 L;
    step9 L; step10 L; step11 L ].

(** The events of step [k] (counted from 0) alone, on dataset [d]. *)
Definition step_events (L : Libs) (k : nat) (d : DataFrame) : list Event :=
  trace (snd (nth k (step_list L) (fun _ => ret tt) 0%nat (mkState [d] [] []))).

(** The columns that the guards of step [k] name. *)
Definition step_columns (L : Libs) (k : nat) : list string :=
  flat_map needs (nth k (steps L) []).

(** A step gated as a whole by a column-existence test: it has columns to
    test, its chart function runs only if they are all there, and if one is
    absent it prints a line and runs no chart function. *)
Definition gated (L : Libs) (k : nat) (d : DataFrame) : Prop :=
  step_columns L k <> [] /\
  (calls (step_events L k d) <> [] -> has_columns d (step_columns L k) = true) /\
  (has_columns d (step_columns L k) = false ->
   diagnostics (step_events L k d) <> [] /\ calls (step_events L k d) = []).

(** *** Ways for the acquisition to fail *)

Inductive acquisition_fails (L : Libs) (url : string) : Prop :=
| network_error msg :
    lib_get L url = inl msg -> acquisition_fails L url
| error_status response :
    lib_get L url = inr response ->
    400 <= status_code response < 600 ->
    acquisition_fails L url
| decode_failure response :
    lib_get L url = inr response ->
    utf8_valid (content response) = false ->
    acquisition_fails L url
| parse_failure response msg :
    lib_get L url = inr response ->
    lib_read_csv L (string_of_list_byte (content response)) = inl msg ->
    acquisition_fails L url.

(** A status outside the 2xx range. *)
Definition non_success (status : Z) : Prop := ~ (200 <= status < 300).

(** *** Codes that follow the ascending order of the values *)

(** [codes] numbers the values by their rank: there is a strictly ascending
    list of the distinct values, and the code of each row is the position of
    its value in that list. *)
Definition ranked {A} `{Ord A} (values : list A) (codes : list Z) : Prop :=
  exists classes,
    StronglySorted lt classes /\
    (forall v, In v classes <-> In v values) /\
    Forall2 (fun v c => 0 <= c /\ nth_error classes (Z.to_nat c) = Some v)
      values codes.

(** The integers of a column of codes. *)
Definition code_list (codes : Series) : list Z :=
  match codes with
  | Int64 zs => zs
  | _ => []
  end.

(** What the cells of a column are compared by: numbers by their value,
    text by the lexicographic order of its code points, a missing value
    last. *)
Definition cell_keys (s : Series) : list Key :=
  match s with
  | Int64 v => map (fun z => key (PyInt z)) v
  | Float64 v =>
      map (fun x => match x with Some q => key (PyFloat q) | None => KNaN end) v
  | Boolean v => map (fun b => key (PyBool b)) v
  | Object v => map key v
  end.

(** The codes rank the cells of the column. *)
Definition ranked_series (s : Series) (codes : Series) : Prop :=
  ranked (cell_keys s) (code_list codes).

(** The cells of the column can be sorted: they do not mix text and
    numbers. *)
Definition accepted (s : Series) : bool :=
  match s with
  | Object v => negb (mixed v)
  | _ => true
  end.

(** *** Sample data *)

Definition ratings : Series := Int64 [4; 5; 3].
Definition scores : Series := Float64 [Some (Q2Qc (1 # 2)); None; Some (Q2Qc (3 # 4))].

Definition sample : DataFrame :=
  [ ("CategoriaPrompt", Object [PyStr "tecnico"; PyStr "criativo"; PyStr "tecnico"]);
    ("Coerencia (Humana)", ratings); ("Relevancia (Humana)", ratings);
    ("Profundidade (Humana)", ratings); ("Consciencia (Humana)", ratings);
    ("BLEU", scores); ("ROUGE", scores); ("Perplexidade", scores);
    ("Diversidade", scores); ("Originalidade", scores) ].

Definition drop (name : string) (df : DataFrame) : DataFrame :=
  filter (fun c => negb (fst c =? name)%string) df.

(** A dataset that already has a column named like the derived one. *)
Definition sample_with_codes : DataFrame :=
  [ ("CategoriaPrompt", Object [PyStr "b"; PyStr "a"]);
    ("CategoriaPrompt_encoded", Int64 [7; 7]) ].

(** One string column and two numeric columns. *)
Definition small_table : DataFrame :=
  [ ("name", Object [PyStr "x"; PyStr "y"]); ("a", Int64 [1; 2]);
    ("b", Float64 [Some (Q2Qc (1 # 2)); None]) ].

(** The sample dataset with a category column that mixes text and
    numbers. *)
Definition mixed_categories : Series :=
  Object [PyStr "tecnico"; PyInt 7; PyStr "tecnico"].

Definition sample_mixed : DataFrame :=
  setitem sample "CategoriaPrompt" mixed_categories.

(** The sample dataset with numbers as categories. *)
Definition sample_numbered : DataFrame :=
  setitem sample "CategoriaPrompt" (Int64 [10; 9; 100]).

(** A dataset with the column names only, and no row. *)
Definition sample_rowless : DataFrame :=
  map (fun c => (fst c, Object [])) sample.

(** Libraries that answer every request with the given status and body,
    parse every text to [parsed], and never raise in a plotting call. *)
Definition serving (status : Z) (body : string) (parsed : string + DataFrame)
    : Libs :=
  mkLibs (fun _ => inr (mkResponse status (list_byte_of_string body)))
    (fun _ => parsed) (fun _ _ => None) (fun _ => false) (fun _ => "error").

Definition is_histplot (c : PlotCall) : bool :=
  match c with
  | sns_histplot _ _ _ _ _ => true
  | _ => false
  end.

(** Libraries that serve the dataset [parsed] and raise in the plotting
    calls selected by [raises]. *)
Definition raising (raises : PlotCall -> bool) (parsed : DataFrame) : Libs :=
  mkLibs (fun _ => inr (mkResponse 200 (list_byte_of_string "x")))
    (fun _ => inr parsed) (fun _ _ => None) raises (fun _ => "error").

(** Libraries for which every request fails to connect. *)
Definition offline : Libs :=
  mkLibs (fun _ => inl "connection refused") (fun _ => inl "no data")
    (fun _ _ => None) (fun _ => false) (fun _ => "error").

(** No string occurs twice. *)
Fixpoint all_different (l : list string) : bool :=
  match l with
  | [] => true
  | x :: l' => negb (existsb (String.eqb x) l') && all_different l'
  end.

(** *** Counting columns by dtype *)



(** A written file is in the graphics directory, hence not in the summaries
    directory. *)
Definition in_graphics_only (filepath : string) : bool :=
  (os_path.dirname filepath =? GRAPHPATH)%string
  && inside GRAPHPATH filepath
  && negb (inside SUMMARYPATH filepath).

(** The scatterplot charts (steps 3, 6, 8 and 11). *)
Definition scatter_charts : list Chart := [chart3; chart6; chart8; chart11].

(** *** Vocabulary of the further properties *)

(** The name has no ['/'] in it. *)
Fixpoint plain_name (s : string) : bool :=
  match s with
  | EmptyString => true
  | String c rest => negb (Ascii.eqb c "/") && plain_name rest
  end.

(** Number of rows of a column. *)
Definition series_length (s : Series) : nat :=
  match s with
  | Int64 v => List.length v
  | Float64 v => List.length v
  | Boolean v => List.length v
  | Object v => List.length v
  end.

(** Every column has [n] rows. *)
Definition rectangular (n : nat) (df : DataFrame) : Prop :=
  Forall (fun c => series_length (snd c) = n) df.

(** [l1] is [l2] with some elements left out, the order kept. *)
Inductive subsequence {A : Type} : list A -> list A -> Prop :=
| subsequence_nil l : subsequence [] l
| subsequence_skip x l1 l2 : subsequence l1 l2 -> subsequence l1 (x :: l2)
| subsequence_take x l1 l2 : subsequence l1 l2 -> subsequence (x :: l1) (x :: l2).

(** The URLs requested, in order. *)
Fixpoint requests (tr : list Event) : list string :=
  match tr with
  | [] => []
  | http_get url :: tr' => url :: requests tr'
  | _ :: tr' => requests tr'
  end.

(** The directories created, in order. *)
Fixpoint directories (tr : list Event) : list string :=
  match tr with
  | [] => []
  | makedirs path :: tr' => path :: directories tr'
  | _ :: tr' => directories tr'
  end.

(** Two datasets have the same expected columns. *)
Definition same_presence (df df' : DataFrame) : Prop :=
  forall n, In n expected_columns -> has_column df n = has_column df' n.

(** The chart functions, as functions of the dataset reference alone: each
    with the plotting call it issues on dataset [d], the decoration it adds
    and the file name it is given. *)
Inductive Generator :=
| histogram (column title filename : string) (bins : Z) (kde : bool)
| boxplot (x y title filename : string) (hue : option string)
| scatterplot (x y title filename : string) (hue style : option string)
| heatmap (title filename : string) (annot : bool)
| violinplot (x y title filename : string) (hue : option string) (split : bool).

Definition generate (L : Libs) (g : Generator) (df : Ref) : M unit :=
  match g with
  | histogram column title filename bins kde =>
      generate_histogram L df column title filename bins kde
  | boxplot x y title filename hue =>
      generate_boxplot L df x y title filename hue
  | scatterplot x y title filename hue style =>
      generate_scatterplot L df x y title filename hue style
  | heatmap title filename annot =>
      generate_heatmap L df title filename annot
  | violinplot x y title filename hue split =>
      generate_violinplot L df x y title filename hue split
  end.

Definition generator_call (L : Libs) (g : Generator) (d : DataFrame) : PlotCall :=
  match g with
  | histogram column _ _ bins kde => sns_histplot d column kde bins "skyblue"
  | boxplot x y _ _ hue => sns_boxplot x y d DEFAULT_PALETTE hue
  | scatterplot x y _ _ hue style =>
      sns_scatterplot x y d (7 # 10) hue style DEFAULT_PALETTE
  | heatmap _ _ annot =>
      sns_heatmap (corr L (select_dtypes_number d)) annot DEFAULT_PALETTE ".2f"
        (1 # 2)
  | violinplot x y _ _ hue split =>
      sns_violinplot x y d DEFAULT_PALETTE hue split
  end.

Definition generator_title (g : Generator) : string :=
  match g with
  | histogram _ title _ _ _ | boxplot _ _ title _ _
  | scatterplot _ _ title _ _ _ | heatmap title _ _
  | violinplot _ _ title _ _ _ => title
  end.

Definition generator_filename (g : Generator) : string :=
  match g with
  | histogram _ _ filename _ _ | boxplot _ _ _ filename _
  | scatterplot _ _ _ filename _ _ | heatmap _ filename _
  | violinplot _ _ _ filename _ _ => filename
  end.

(** Boxplots and violin plots rotate their tick labels. *)
Definition generator_decoration (g : Generator) : list Artist :=
  match g with
  | boxplot _ _ title _ _ | violinplot _ _ title _ _ _ =>
      [Title title; Xticks 45 "right"]
  | histogram _ title _ _ _ | scatterplot _ _ title _ _ _ | heatmap title _ _ =>
      [Title title]
  end.

(** Libraries that serve the sample dataset and raise in every plotting
    call. *)
Definition failing : Libs :=
  mkLibs (fun _ => inr (mkResponse 200 (list_byte_of_string "x")))
    (fun _ => inr sample) (fun _ _ => None) (fun _ => true) (fun _ => "error").

(** The file and the tested columns of each chart of the table; the
    libraries play no part in them. *)
Definition chart_guards : list (string * list string) :=
  map (fun c => (chart_path c, needs c)) (charts offline).

(** The sample dataset with one more column. *)
Definition sample_extended : DataFrame :=
  (sample ++ [("Notas", Object [PyStr "ok"; PyNaN; PyStr "rever"])])%list.
(** * Properties *)

(** ** Paths and constants *)

Example GRAPHPATH_value : GRAPHPATH = "/content/drive/MyDrive/graficos".
Proof. reflexivity. Qed.

Example SUMMARYPATH_value : SUMMARYPATH = "/content/drive/MyDrive/sumarios".
Proof. reflexivity. Qed.

Example dirname_of_chart_file :
  os_path.dirname (os_path.join GRAPHPATH "7_heatmap.png") = GRAPHPATH.
Proof. reflexivity. Qed.

Example join_absolute : os_path.join GRAPHPATH "/tmp/x.png" = "/tmp/x.png".
Proof. reflexivity. Qed.

Example decode_accepts_accent :
  utf8_valid (list_byte_of_string "Coerência") = true.
Proof. reflexivity. Qed.

Example decode_rejects_lone_continuation : utf8_valid [x80] = false.
Proof. reflexivity. Qed.

(** ** The orders on cell values *)

#[export] Instance OrdLaws_Z : OrdLaws Z.
Proof.
  split; unfold ltb, Ord_Z; intros.
  - apply Z.ltb_irrefl.
  - rewrite Z.ltb_lt in *. lia.
  - rewrite Z.ltb_ge in *. lia.
Qed.

#[export] Instance OrdLaws_bool : OrdLaws bool.
Proof.
  split; unfold ltb, Ord_bool.
  - now intros [].
  - now intros [] [] [].
  - now intros [] [].
Qed.

#[export] Instance OrdLaws_Qc : OrdLaws Qc.
Proof.
  split; unfold ltb, Ord_Qc.
  - intros x. destruct (x ?= x)%Qc eqn:E; trivial.
    apply Qclt_alt in E. now apply Qclt_not_eq in E.
  - intros x y z Hxy Hyz.
    destruct (x ?= y)%Qc eqn:E1; try discriminate.
    destruct (y ?= z)%Qc eqn:E2; try discriminate.
    apply Qclt_alt in E1, E2.
    assert (E3 : (x < z)%Qc) by (eapply Qclt_trans; eassumption).
    apply -> Qclt_alt in E3. now rewrite E3.
  - intros x y Hxy Hyx. apply Qcle_antisym; apply Qcnot_lt_le; intros E;
      apply -> Qclt_alt in E; rewrite E in *; discriminate.
Qed.

#[export] Instance OrdLaws_string : OrdLaws string.
Proof.
  split; unfold ltb, Ord_string.
  - intros x. destruct (String_as_OT.compare_spec x x) as [_|E|E]; trivial;
      now apply (StrictOrder_Irreflexive (R := String_as_OT.lt)) in E.
  - intros x y z Hxy Hyz.
    destruct (String_as_OT.compare_spec x y) as [|E1|]; try discriminate.
    destruct (String_as_OT.compare_spec y z) as [|E2|]; try discriminate.
    assert (E3 : String_as_OT.lt x z)
      by (eapply (StrictOrder_Transitive (R := String_as_OT.lt)); eassumption).
    unfold String_as_OT.lt in E3. now rewrite E3.
  - intros x y Hxy Hyx.
    destruct (String_as_OT.compare_spec x y) as [E|E|E]; trivial; try discriminate.
    unfold String_as_OT.lt in E. now rewrite E in Hyx.
Qed.

#[export] Instance OrdLaws_option {A} `{OrdLaws A} : OrdLaws (option A).
Proof.
  split; unfold ltb at 1, Ord_option.
  - intros [x|]; trivial. apply ltb_irrefl.
  - intros [x|] [y|] [z|]; cbn; trivial; try discriminate. apply ltb_trans.
  - intros [x|] [y|]; cbn; trivial; try discriminate.
    intros. f_equal. now apply ltb_total.
Qed.

#[export] Instance OrdLaws_Key : OrdLaws Key.
Proof.
  split; unfold ltb at 1, Ord_Key.
  - intros [x|x|]; trivial; apply ltb_irrefl.
  - intros [x|x|] [y|y|] [z|z|]; cbn; trivial; try discriminate; apply ltb_trans.
  - intros [x|x|] [y|y|]; cbn; trivial; try discriminate;
      intros; f_equal; now apply ltb_total.
Qed.

(** ** The label encoder *)

Section EncoderFacts.
Context {A : Type} `{OrdLaws A}.
Import LabelEncoder.

Lemma same_iff (x y : A) : same x y = true <-> x = y.
Proof.
  unfold same. split.
  - intros E. apply andb_prop in E as [E1 E2].
    apply ltb_total; now apply negb_true_iff.
  - intros ->. now rewrite ltb_irrefl.
Qed.

Lemma insert_In (x z : A) (l : list A) :
  In z (insert x l) <-> z = x \/ In z l.
Proof.
  induction l as [|y l IH]; cbn.
  - intuition.
  - destruct (ltb x y) eqn:Exy; cbn; [intuition|].
    destruct (ltb y x) eqn:Eyx; cbn.
    + rewrite IH. intuition.
    + assert (x = y) by now apply ltb_total. subst. intuition.
Qed.

Lemma insert_sorted (x : A) (l : list A) :
  StronglySorted lt l -> StronglySorted lt (insert x l).
Proof.
  induction 1 as [|y l Hl IH Hy]; cbn.
  - repeat constructor.
  - destruct (ltb x y) eqn:Exy.
    + constructor; [now constructor|].
      constructor; [exact Exy|].
      eapply Forall_impl; [|exact Hy]. intros a Ha. eapply ltb_trans; eassumption.
    + destruct (ltb y x) eqn:Eyx; [|now constructor].
      constructor; [exact IH|].
      apply Forall_forall. intros z Hz. apply insert_In in Hz as [->|Hz]; trivial.
      rewrite Forall_forall in Hy. now apply Hy.
Qed.

Lemma classes_In (y : list A) (z : A) : In z (classes y) <-> In z y.
Proof.
  induction y as [|a y IH]; cbn; [tauto|].
  rewrite insert_In, IH. intuition.
Qed.

Lemma classes_sorted (y : list A) : StronglySorted lt (classes y).
Proof.
  induction y as [|a y IH]; cbn; [constructor|]. now apply insert_sorted.
Qed.

Lemma sorted_NoDup (l : list A) : StronglySorted lt l -> NoDup l.
Proof.
  induction 1 as [|y l Hl IH Hy]; constructor; trivial.
  intros Hin. rewrite Forall_forall in Hy. apply Hy in Hin.
  unfold lt in Hin. now rewrite ltb_irrefl in Hin.
Qed.

Lemma index_nth (x : A) (cls : list A) :
  In x cls -> nth_error cls (index x cls) = Some x.
Proof.
  induction cls as [|c cls IH]; cbn; [tauto|].
  destruct (same x c) eqn:E.
  - apply same_iff in E. now subst.
  - intros [->|Hin]; [|now apply IH].
    assert (E' : same x x = true) by now apply same_iff.
    congruence.
Qed.

(** The classes depend on the set of values only, not on their order or
    multiplicity. *)
Lemma sorted_ext (l1 l2 : list A) :
  StronglySorted lt l1 -> StronglySorted lt l2 ->
  (forall z, In z l1 <-> In z l2) -> l1 = l2.
Proof.
  intros H1. revert l2.
  induction H1 as [|a l1 Hl1 IH Ha]; intros l2 H2 Hext.
  - destruct l2 as [|b l2]; trivial.
    destruct (proj2 (Hext b)). now left.
  - destruct H2 as [|b l2 Hl2 Hb].
    + destruct (proj1 (Hext a)). now left.
    + rewrite Forall_forall in Ha, Hb.
      assert (a = b) as <-.
      { destruct (proj1 (Hext a) (or_introl eq_refl)) as [->|Hab]; trivial.
        destruct (proj2 (Hext b) (or_introl eq_refl)) as [->|Hba]; trivial.
        apply Hb in Hab. apply Ha in Hba. unfold lt in *.
        pose proof (ltb_trans _ _ _ Hab Hba) as C.
        now rewrite ltb_irrefl in C. }
      f_equal. apply IH; trivial.
      intros z. split; intros Hz.
      * destruct (proj1 (Hext z) (or_intror Hz)) as [<-|]; trivial.
        apply Ha in Hz. unfold lt in Hz. now rewrite ltb_irrefl in Hz.
      * destruct (proj2 (Hext z) (or_intror Hz)) as [<-|]; trivial.
        apply Hb in Hz. unfold lt in Hz. now rewrite ltb_irrefl in Hz.
Qed.

Lemma classes_ext (y1 y2 : list A) :
  (forall z, In z y1 <-> In z y2) -> classes y1 = classes y2.
Proof.
  intros Hext. apply sorted_ext; try apply classes_sorted.
  intros z. now rewrite !classes_In.
Qed.

Lemma index_inj (cls : list A) (x y : A) :
  In x cls -> In y cls -> index x cls = index y cls -> x = y.
Proof.
  intros Hx Hy E. apply index_nth in Hx, Hy. congruence.
Qed.
Lemma existsb_same_In (x : A) (l : list A) :
  existsb (same x) l = true <-> In x l.
Proof.
  rewrite existsb_exists. split.
  - intros (y & Hy & E). apply same_iff in E. now subst.
  - intros Hin. exists x. split; trivial. now apply same_iff.
Qed.

End EncoderFacts.

Section EncoderCodes.
Context {A : Type} `{OrdLaws A}.
Import LabelEncoder.

(** Renumbering the values one to one keeps the number of distinct ones. *)
Lemma distinct_map_inj {B} `{OrdLaws B} (f : A -> B) (l : list A) :
  (forall x y, In x l -> In y l -> f x = f y -> x = y) ->
  List.length (distinct (map f l)) = List.length (distinct l).
Proof.
  induction l as [|a l IH]; cbn; intros Hinj; [reflexivity|].
  assert (E : existsb (same (f a)) (map f l) = existsb (same a) l).
  { apply eq_true_iff_eq. rewrite (existsb_same_In a).
    rewrite (existsb_same_In (f a)), in_map_iff. split.
    - intros (y & Ey & Hy). rewrite (Hinj a y); auto.
    - intros Ha. eauto. }
  rewrite E. destruct (existsb (same a) l); cbn; rewrite IH; auto.
Qed.

Lemma fit_transform_distinct (y : list A) :
  List.length (distinct (fit_transform y)) = List.length (distinct y).
Proof.
  unfold fit_transform, transform. apply distinct_map_inj.
  intros a b Ha Hb E. apply Nat2Z.inj in E.
  apply (index_inj (classes y)); trivial; now apply classes_In.
Qed.

Lemma fit_transform_ranked (y : list A) : ranked y (fit_transform y).
Proof.
  exists (classes y). split; [apply classes_sorted|].
  split; [apply classes_In|].
  unfold fit_transform, transform.
  assert (Hy : forall v, In v y -> In v (classes y))
    by (intros v; apply classes_In).
  revert Hy. generalize (classes y) as cls.
  induction y as [|a y IH]; cbn; intros cls Hy; constructor; auto.
  split; [lia|]. rewrite Nat2Z.id. apply index_nth. auto.
Qed.

(** What the codes of a value are depends on the set of values only. *)
Lemma ranked_deterministic (v v' : list A) (c c' : list Z) :
  ranked v c -> ranked v' c' -> (forall z, In z v <-> In z v') ->
  forall i j x,
    nth_error v i = Some x -> nth_error v' j = Some x ->
    exists z, nth_error c i = Some z /\ nth_error c' j = Some z.
Proof.
  intros (cl & Hs & Hin & Hc) (cl' & Hs' & Hin' & Hc') Hext i j x Hi Hj.
  assert (cl' = cl) as ->.
  { apply sorted_ext; trivial. intros z. now rewrite Hin, Hin', Hext. }
  assert (Hnth : forall (l : list A) (k : list Z) n,
            Forall2 (fun v c => 0 <= c /\ nth_error cl (Z.to_nat c) = Some v) l k ->
            nth_error l n = Some x ->
            exists z, nth_error k n = Some z /\ 0 <= z /\
                      nth_error cl (Z.to_nat z) = Some x).
  { intros l k n F. revert n. induction F as [|a z l k [Hz Ha] F IH];
      intros [|n]; cbn; try discriminate.
    - intros [= ->]. eauto.
    - apply IH. }
  destruct (Hnth _ _ _ Hc Hi) as (z & Ez & Hz & Hx).
  destruct (Hnth _ _ _ Hc' Hj) as (z' & Ez' & Hz' & Hx').
  exists z. split; trivial. rewrite Ez'. f_equal.
  assert (Z.to_nat z' = Z.to_nat z).
  { apply (proj1 (NoDup_nth_error cl) (sorted_NoDup cl Hs)).
    - apply nth_error_Some. congruence.
    - congruence. }
  lia.
Qed.
End EncoderCodes.

(** Encoding the images of the values under a map that keeps their order
    gives the same codes. *)
Section EncoderMap.
Context {A B : Type} `{Ord A} `{Ord B} (f : A -> B).
Hypothesis f_mono : forall x y, ltb (f x) (f y) = ltb x y.
Import LabelEncoder.

Lemma insert_map x l : insert (f x) (map f l) = map f (insert x l).
Proof.
  induction l as [|y l IH]; cbn [insert map]; [reflexivity|].
  rewrite !f_mono. destruct (ltb x y); [reflexivity|].
  destruct (ltb y x); [|reflexivity]. cbn [map]. now rewrite IH.
Qed.

Lemma classes_map y : classes (map f y) = map f (classes y).
Proof.
  induction y as [|a y IH]; cbn [classes fold_right map]; [reflexivity|].
  fold (classes (map f y)). fold (classes y). now rewrite IH, insert_map.
Qed.

Lemma index_map x cls : index (f x) (map f cls) = index x cls.
Proof.
  induction cls as [|c cls IH]; cbn [index map]; [reflexivity|].
  unfold same. rewrite !f_mono. fold (same x c). now rewrite IH.
Qed.

Lemma fit_transform_map y : fit_transform (map f y) = fit_transform y.
Proof.
  unfold fit_transform, transform. rewrite classes_map, map_map.
  apply map_ext. intros a. now rewrite index_map.
Qed.
End EncoderMap.

(** The keys of the cells of a numeric or boolean column are in the order of
    the cells. *)
Lemma key_int_mono x y : ltb (key (PyInt x)) (key (PyInt y)) = ltb x y.
Proof.
  unfold ltb at 1, Ord_Key, key. unfold ltb, Ord_Qc, Ord_Z, Qccompare, Z.ltb.
  cbn [this Q2Qc]. rewrite <- Qred_compare. unfold Qcompare, inject_Z.
  cbn [Qnum Qden]. now rewrite !Z.mul_1_r.
Qed.

Lemma key_float_mono (x y : option Qc) :
  ltb (match x with Some q => key (PyFloat q) | None => KNaN end)
      (match y with Some q => key (PyFloat q) | None => KNaN end)
  = ltb x y.
Proof. now destruct x, y. Qed.

Lemma key_bool_mono x y : ltb (key (PyBool x)) (key (PyBool y)) = ltb x y.
Proof. now destruct x, y. Qed.

(** ** Running the chart functions and the analysis steps *)

Lemma is_prefix_app_r {A} (pre l l' : list A) :
  is_prefix pre l -> is_prefix pre (l ++ l').
Proof. intros [rest ->]. exists (rest ++ l')%list. now rewrite app_assoc. Qed.

Lemma is_prefix_app_l {A} (pre l l' : list A) :
  is_prefix pre l' -> is_prefix (l ++ pre) (l ++ l').
Proof. intros [rest ->]. exists rest. now rewrite app_assoc. Qed.

Section Runs.

Variable L : Libs.

Lemma first_raising_app a b :
  first_raising L (a ++ b)
  = match first_raising L a with
    | Some c => Some c
    | None => first_raising L b
    end.
Proof.
  induction a as [|e a IH]; [reflexivity|].
  destruct e as [? ?|?|?|?|k|? ? ? ?]; cbn; trivial. now destruct (lib_raises L k).
Qed.

Lemma until_raise_app a b :
  until_raise L (a ++ b)
  = match first_raising L a with
    | Some _ => until_raise L a
    | None => (until_raise L a ++ until_raise L b)%list
    end.
Proof.
  induction a as [|e a IH]; [reflexivity|].
  destruct e as [? ?|?|?|?|k|? ? ? ?]; cbn; rewrite ?IH; try (now destruct (first_raising L a)).
  destruct (lib_raises L k); trivial. now destruct (first_raising L a).
Qed.

Lemma result_of_app a b :
  result_of L (a ++ b)
  = match first_raising L a with
    | Some c => Raised (PlotError c)
    | None => result_of L b
    end.
Proof. unfold result_of. rewrite first_raising_app. now destruct (first_raising L a). Qed.

(** When no call raises, all the events are performed. *)
Lemma first_raising_None evs :
  first_raising L evs = None <-> (forall c, In c (calls evs) -> lib_raises L c = false).
Proof.
  induction evs as [|e evs IH]; cbn; [tauto|].
  destruct e as [? ?|?|?|?|k|? ? ? ?]; trivial. cbn. destruct (lib_raises L k) eqn:E.
  - split; [discriminate|]. intros H. rewrite H in E by auto. discriminate.
  - rewrite IH. split; [intros H c [<-|Hc]; auto|auto].
Qed.

Lemma until_raise_all evs : first_raising L evs = None -> until_raise L evs = evs.
Proof.
  induction evs as [|e evs IH]; cbn; [reflexivity|].
  destruct e as [? ?|?|?|?|k|? ? ? ?]; intros H; try (now rewrite IH).
  destruct (lib_raises L k); [discriminate|]. now rewrite IH.
Qed.

(** The call that raises first is the last event performed, and no call
    before it raises. *)
Lemma first_raising_Some evs c :
  first_raising L evs = Some c ->
  lib_raises L c = true /\
  exists pre,
    until_raise L evs = (pre ++ [seaborn c])%list /\
    is_prefix (pre ++ [seaborn c]) evs /\
    first_raising L pre = None.
Proof.
  induction evs as [|e evs IH]; cbn; [discriminate|].
  destruct e as [? ?|?|?|?|k|? ? ? ?]; cbn;
    try (intros H; destruct (IH H) as (Hc & pre & Hu & [rest Hp] & Hn);
         split; [exact Hc|];
         eexists (_ :: pre)%list; cbn; rewrite Hu; split; [reflexivity|];
         split; [exists rest; now rewrite Hp | exact Hn]).
  destruct (lib_raises L k) eqn:E.
  - intros [= <-]. split; [exact E|]. exists []. cbn.
    split; [reflexivity|]. split; [now exists evs | reflexivity].
  - intros H. destruct (IH H) as (Hc & pre & Hu & [rest Hp] & Hn).
    split; [exact Hc|]. exists (seaborn k :: pre)%list. cbn. rewrite E, Hu.
    split; [reflexivity|]. split; [exists rest; now rewrite Hp | exact Hn].
Qed.

Lemma emits_seq df d m1 m2 evs1 evs2 :
  emits L df d m1 evs1 -> emits L df d m2 evs2 ->
  emits L df d (m1 ;; m2)%prog (evs1 ++ evs2).
Proof.
  intros H1 H2 st Hd. unfold bind.
  destruct (H1 st Hd) as (Hh & Ht & Hr).
  rewrite until_raise_app, result_of_app.
  destruct (m1 st) as [r st1]; cbn [fst snd] in *. subst r.
  unfold result_of. destruct (first_raising L evs1) as [c|]; [auto|].
  assert (Hd1 : nth df (heap st1) [] = d) by now rewrite Hh.
  destruct (H2 st1 Hd1) as (Hh2 & Ht2 & Hr2).
  destruct (m2 st1) as [r2 st2]; cbn [fst snd] in *.
  split; [congruence|]. split; [|exact Hr2].
  now rewrite Ht2, Ht, app_assoc.
Qed.

Lemma emits_for_each {A} df d (xs : list A) (body : A -> M unit) f :
  (forall x, emits L df d (body x) (f x)) ->
  emits L df d (for_each xs body) (flat_map f xs).
Proof.
  intros Hb. induction xs as [|x xs IH]; cbn.
  - intros st _. cbn. now rewrite app_nil_r.
  - now apply emits_seq.
Qed.

Lemma emits_print df d line : emits L df d (print line) [printed line].
Proof. intros st _. now cbn. Qed.

Local Arguments has_column : simpl never.
Local Arguments os_path.join : simpl never.
Local Arguments os_path.dirname : simpl never.
Local Arguments String.append : simpl never.

(** One guarded chart: both branches of the guard, and both outcomes of the
    plotting call. *)
Ltac run_chart :=
  let st := fresh "st" in
  let Hd := fresh "Hd" in
  intros st Hd; subst;
  cbv [step3 step4 step5 step6 step7 step8 step9 step10 step11 encoded_hue
       generate_boxplot generate_histogram generate_scatterplot
       generate_heatmap generate_violinplot create_figure save_fig sns
       contains deref bind ret raise emit print plt_figure plt_title
       plt_xticks plt_savefig plt_close draw os_makedirs
       chart_events enabled has_columns forallb needs call decoration file
       skip_message chart_path hue_of scatter_chart histogram_chart
       boxplot_chart chart3 chart4 chart5 chart6 chart7 chart8 chart9 chart10
       chart11];
  unfold result_of;
  repeat (cbn [heap figures trace fst snd hd tl artists figsize app andb
               until_raise first_raising];
          match goal with
          | |- context [has_column ?d ?n] => destruct (has_column d n)
          | |- context [lib_raises L ?c] => destruct (lib_raises L c)
          end);
  cbn [heap figures trace fst snd hd tl artists figsize app andb
       until_raise first_raising];
  rewrite <- ?app_assoc; repeat split.

Lemma flat_map_map {A B C} (f : B -> list C) (g : A -> B) (l : list A) :
  flat_map f (map g l) = flat_map (fun x => f (g x)) l.
Proof. induction l as [|x l IH]; cbn; [reflexivity|]. now rewrite IH. Qed.

Lemma flat_map_concat {A B} (f : A -> list B) (ls : list (list A)) :
  flat_map f (List.concat ls) = flat_map (flat_map f) ls.
Proof.
  induction ls as [|l ls IH]; cbn; [reflexivity|].
  now rewrite flat_map_app, IH.
Qed.

Lemma step1_emits df d :
  emits L df d (step1 L df) (flat_map (chart_events d) (map histogram_chart human_columns)).
Proof.
  rewrite flat_map_map. unfold step1. apply emits_for_each. intros col. run_chart.
Qed.

Lemma step2_emits df d :
  emits L df d (step2 L df) (flat_map (chart_events d) (map boxplot_chart human_columns)).
Proof.
  rewrite flat_map_map. unfold step2. apply emits_for_each. intros col. run_chart.
Qed.

Lemma step3_emits df d : emits L df d (step3 L df) (chart_events d chart3).
Proof. run_chart. Qed.

Lemma step4_emits df d : emits L df d (step4 L df) (chart_events d chart4).
Proof. run_chart. Qed.

Lemma step5_emits df d : emits L df d (step5 L df) (chart_events d chart5).
Proof. run_chart. Qed.

Lemma step6_emits df d : emits L df d (step6 L df) (chart_events d chart6).
Proof. run_chart. Qed.

Lemma step7_emits df d : emits L df d (step7 L df) (chart_events d (chart7 L)).
Proof. run_chart. Qed.

Lemma step8_emits df d : emits L df d (step8 L df) (chart_events d chart8).
Proof. run_chart. Qed.

Lemma step9_emits df d : emits L df d (step9 L df) (chart_events d chart9).
Proof. run_chart. Qed.

Lemma step10_emits df d : emits L df d (step10 L df) (chart_events d chart10).
Proof. run_chart. Qed.

Lemma step11_emits df d : emits L df d (step11 L df) (chart_events d chart11).
Proof. run_chart. Qed.

(** The eleven steps in sequence follow the table of charts. *)
Lemma analyses_emits df d : emits L df d (analyses L df) (plan L d).
Proof.
  unfold plan, charts. rewrite flat_map_concat.
  cbn [steps flat_map]. rewrite !app_nil_r.
  unfold analyses.
  repeat (apply emits_seq;
          [first [apply step1_emits | apply step2_emits | apply step3_emits
                 | apply step4_emits | apply step5_emits | apply step6_emits
                 | apply step7_emits | apply step8_emits | apply step9_emits
                 | apply step10_emits]|]).
  apply step11_emits.
Qed.

(** *** The loader *)

Lemma load_data_from_url_run url st :
  load_data_from_url L url st =
  match acquire L url with
  | inr df =>
      (Ok (Some (List.length (heap st))),
       mkState (heap st ++ [df]) (figures st) (trace st ++ [http_get url]))
  | inl e =>
      (Ok None,
       mkState (heap st) (figures st)
         (trace st ++ [http_get url; printed (load_error_line L e)]))
  end.
Proof.
  unfold load_data_from_url, acquire, try_except, requests_get, bind, emit,
    raise_for_status, decode_utf8, pd_read_csv, print, load_error_line.
  cbn [heap figures trace].
  destruct (lib_get L url) as [msg|response]; cbn.
  - now rewrite <- app_assoc.
  - destruct ((400 <=? status_code response) && (status_code response <? 600));
      cbn; [now rewrite <- app_assoc|].
    destruct (utf8_valid (content response)); cbn; [|now rewrite <- app_assoc].
    destruct (lib_read_csv L _) as [msg|df]; cbn; [now rewrite <- app_assoc|].
    reflexivity.
Qed.

(** *** The label encoding stage *)

Lemma has_column_getitem d name :
  has_column d name = true -> exists s, getitem d name = Some s.
Proof.
  unfold has_column, columns.
  induction d as [|[n s] d IH]; cbn; [discriminate|].
  rewrite (String.eqb_sym name n).
  destruct (n =? name)%string; cbn; eauto.
Qed.

Lemma getitem_has_column d name :
  has_column d name = false -> getitem d name = None.
Proof.
  unfold has_column, columns.
  induction d as [|[n s] d IH]; cbn; [reflexivity|].
  rewrite (String.eqb_sym name n).
  destruct (n =? name)%string; cbn; [discriminate|exact IH].
Qed.

Lemma update_nth {A} (l : list A) i f (dflt : A) :
  (i < List.length l)%nat -> nth i (update l i f) dflt = f (nth i l dflt).
Proof.
  revert i. induction l as [|x l IH]; intros [|i]; cbn; intros Hi;
    try lia; trivial.
  apply IH. lia.
Qed.

Lemma update_congr {A} (l : list A) i f g (dflt : A) :
  f (nth i l dflt) = g (nth i l dflt) -> update l i f = update l i g.
Proof.
  revert i. induction l as [|x l IH]; intros [|i]; cbn; intros E; trivial.
  - now rewrite E.
  - f_equal. now apply IH.
Qed.

Lemma update_id {A} (l : list A) i : update l i (fun x => x) = l.
Proof.
  revert i. induction l as [|x l IH]; intros [|i]; cbn; trivial.
  now rewrite IH.
Qed.

Lemma getitem_Some_has_column d name s :
  getitem d name = Some s -> has_column d name = true.
Proof.
  intros E. destruct (has_column d name) eqn:H; trivial.
  rewrite (getitem_has_column _ _ H) in E. discriminate.
Qed.

(** The stage either stops at the encoder's exception, before anything is
    assigned or printed, or leaves the dataset encoded. *)
Lemma preprocess_run df st :
  preprocess df st =
  match encoder_error (nth df (heap st) []) with
  | Some e => (Raised e, st)
  | None =>
      (Ok tt,
       mkState (update (heap st) df encoded) (figures st)
         (trace st ++ encoding_events (nth df (heap st) [])))
  end.
Proof.
  cbv [preprocess bind contains deref ret assign print emit encoding_events
       encoder_error label_encoder_fit_transform raise].
  cbn [heap figures trace].
  destruct (has_column _ "CategoriaPrompt") eqn:E.
  - apply has_column_getitem in E as [s E]. fold DataFrame in *. rewrite E.
    destruct (fit_transform s) as [types|codes] eqn:F; [reflexivity|].
    rewrite app_nil_r. do 2 f_equal.
    apply (@update_congr DataFrame _ _ _ _ ([] : DataFrame)). unfold encoded.
    now rewrite E, F.
  - fold DataFrame in *. rewrite (getitem_has_column _ _ E). do 2 f_equal.
    rewrite <- (update_id (heap st) df) at 1.
    apply (@update_congr DataFrame _ _ _ _ ([] : DataFrame)). unfold encoded.
    now rewrite (getitem_has_column _ _ E).
Qed.

Lemma encoder_error_encoded d e : encoder_error d = Some e -> encoded d = d.
Proof.
  unfold encoder_error, encoded. destruct (getitem d "CategoriaPrompt"); trivial.
  now destruct (fit_transform s).
Qed.

Lemma encoder_error_column d e :
  encoder_error d = Some e -> has_column d "CategoriaPrompt" = true.
Proof.
  unfold encoder_error.
  destruct (getitem d "CategoriaPrompt") eqn:E; [|discriminate].
  intros _. eapply getitem_Some_has_column, E.
Qed.

(** *** The whole run *)

Lemma run_failed e :
  acquire L DATASET_URL = inl e ->
  run L =
  (Raised SystemExit,
   mkState [] []
     (startup ++ [http_get DATASET_URL; printed (load_error_line L e);
                  printed abort_line])).
Proof.
  intros E. unfold run, main, bind at 1 2 3.
  cbn. unfold bind at 1. rewrite load_data_from_url_run, E. reflexivity.
Qed.

(** The encoder rejects the category column: the run stops there. *)
Lemma run_rejected df e :
  acquire L DATASET_URL = inr df -> encoder_error df = Some e ->
  run L = (Raised e, mkState [df] [] (preamble df)).
Proof.
  intros E He. unfold run, main, drive_mount, os_makedirs, emit, initial.
  cbv [bind]. cbn [heap figures trace app].
  rewrite load_data_from_url_run, E. cbn [heap figures trace List.length app].
  rewrite preprocess_run. cbn [heap figures trace nth update app]. rewrite He.
  unfold preamble, startup, encoding_events.
  now rewrite (encoder_error_column df e He).
Qed.

Lemma run_unfold df :
  acquire L DATASET_URL = inr df -> encoder_error df = None ->
  run L =
  (analyses L 0%nat ;; print done_line)%prog
    (mkState [encoded df] [] (preamble df)).
Proof.
  intros E He. unfold run, main, drive_mount, os_makedirs, emit, initial.
  cbv [bind]. cbn [heap figures trace app].
  rewrite load_data_from_url_run, E. cbn [heap figures trace List.length app].
  rewrite preprocess_run. cbn [heap figures trace nth update app]. rewrite He.
  unfold preamble, startup. cbn [app]. reflexivity.
Qed.

(** The run of the analysis steps, exactly. *)
Lemma run_exact df :
  acquire L DATASET_URL = inr df -> encoder_error df = None ->
  heap (snd (run L)) = [encoded df] /\
  trace (snd (run L))
  = (preamble df ++ until_raise L (plan L (encoded df) ++ [printed done_line]))%list /\
  fst (run L) = result_of L (plan L (encoded df)).
Proof.
  intros E He. rewrite (run_unfold df E He).
  set (st1 := mkState _ _ _).
  destruct (emits_seq 0%nat (encoded df) _ _ _ _
              (analyses_emits 0%nat (encoded df))
              (emits_print 0%nat (encoded df) done_line) st1 eq_refl)
    as (Hh & Ht & Hr).
  split; [exact Hh|]. split; [exact Ht|].
  rewrite Hr, result_of_app. unfold result_of.
  now destruct (first_raising L (plan L (encoded df))).
Qed.

(** The result of a run. *)
Lemma run_result :
  fst (run L)
  = match acquire L DATASET_URL with
    | inl _ => Raised SystemExit
    | inr df =>
        match encoder_error df with
        | Some e => Raised e
        | None => result_of L (plan L (encoded df))
        end
    end.
Proof.
  destruct (acquire L DATASET_URL) as [e|df] eqn:E.
  - now rewrite (run_failed e E).
  - destruct (encoder_error df) as [e|] eqn:He.
    + now rewrite (run_rejected df e E He).
    + apply (run_exact df E He).
Qed.

(** The three ways a run that loaded a dataset ends. *)
Lemma run_loaded df :
  acquire L DATASET_URL = inr df ->
  heap (snd (run L)) = [encoded df] /\
  match fst (run L) with
  | Ok _ =>
      encoder_error df = None /\
      first_raising L (plan L (encoded df)) = None /\
      trace (snd (run L)) = (preamble df ++ plan L (encoded df) ++ [printed done_line])%list
  | Raised e =>
      (encoder_error df = Some e /\ trace (snd (run L)) = preamble df) \/
      (encoder_error df = None /\
       exists c pre,
         e = PlotError c /\ lib_raises L c = true /\
         first_raising L (plan L (encoded df)) = Some c /\
         first_raising L pre = None /\
         is_prefix (pre ++ [seaborn c]) (plan L (encoded df)) /\
         trace (snd (run L)) = (preamble df ++ pre ++ [seaborn c])%list)
  end.
Proof.
  intros E. destruct (encoder_error df) as [e|] eqn:He.
  - rewrite (run_rejected df e E He). cbn [fst snd heap trace].
    rewrite (encoder_error_encoded df e He). auto.
  - destruct (run_exact df E He) as (Hh & Ht & Hr).
    split; [exact Hh|]. rewrite Hr, Ht, until_raise_app. unfold result_of.
    destruct (first_raising L (plan L (encoded df))) as [c|] eqn:F.
    + right. split; trivial.
      destruct (first_raising_Some _ c F) as (Hc & pre & Hu & Hp & Hn).
      exists c, pre. rewrite Hu. auto 7.
    + rewrite (until_raise_all _ F). auto.
Qed.

End Runs.

(** ** Reading traces *)

Lemma artifacts_app a b : artifacts (a ++ b) = (artifacts a ++ artifacts b)%list.
Proof. induction a as [|[] a IH]; cbn; congruence. Qed.

Lemma diagnostics_app a b :
  diagnostics (a ++ b) = (diagnostics a ++ diagnostics b)%list.
Proof. induction a as [|[] a IH]; cbn; congruence. Qed.

Lemma calls_app a b : calls (a ++ b) = (calls a ++ calls b)%list.
Proof. induction a as [|[] a IH]; cbn; congruence. Qed.

Lemma artifacts_plan d cs :
  artifacts (flat_map (chart_events d) cs) = map chart_path (filter (enabled d) cs).
Proof.
  induction cs as [|c cs IH]; cbn; [reflexivity|].
  rewrite artifacts_app, IH. unfold chart_events.
  now destruct (enabled d c).
Qed.

Lemma calls_plan d cs :
  calls (flat_map (chart_events d) cs)
  = map (fun c => call c d) (filter (enabled d) cs).
Proof.
  induction cs as [|c cs IH]; cbn; [reflexivity|].
  rewrite calls_app, IH. unfold chart_events.
  now destruct (enabled d c).
Qed.

Lemma diagnostics_plan d cs :
  diagnostics (flat_map (chart_events d) cs)
  = map skip_message (filter (fun c => negb (enabled d c)) cs).
Proof.
  induction cs as [|c cs IH]; cbn; [reflexivity|].
  rewrite diagnostics_app, IH. unfold chart_events.
  now destruct (enabled d c).
Qed.

Lemma artifacts_preamble df : artifacts (preamble df) = [].
Proof. unfold preamble, encoding_events. now destruct (has_column df _). Qed.

Lemma calls_preamble df : calls (preamble df) = [].
Proof. unfold preamble, encoding_events. now destruct (has_column df _). Qed.

(** A run that reaches its end has gone through the whole table. *)
Lemma run_completed L df :
  acquire L DATASET_URL = inr df -> fst (run L) = Ok tt ->
  encoder_error df = None /\
  first_raising L (plan L (encoded df)) = None /\
  heap (snd (run L)) = [encoded df] /\
  trace (snd (run L)) = (preamble df ++ plan L (encoded df) ++ [printed done_line])%list.
Proof.
  intros E Hok. destruct (run_loaded L df E) as [Hh Ht].
  rewrite Hok in Ht. tauto.
Qed.

(** A run reaches its end exactly when a dataset is loaded, the encoder
    accepts its category column and none of the plotting calls of the charts
    to draw raises. *)
Lemma run_completes_iff L :
  fst (run L) = Ok tt <->
  exists df,
    acquire L DATASET_URL = inr df /\ encoder_error df = None /\
    first_raising L (plan L (encoded df)) = None.
Proof.
  rewrite run_result. split.
  - destruct (acquire L DATASET_URL) as [e|df]; [discriminate|].
    destruct (encoder_error df) as [e|] eqn:He; [discriminate|].
    unfold result_of. destruct (first_raising L _) eqn:F; [discriminate|].
    intros _. eauto.
  - intros (df & -> & -> & F). unfold result_of. now rewrite F.
Qed.

(** When no plotting call ever raises, a run that gets past the label
    encoder reaches its end. *)
Lemma run_completes L df :
  acquire L DATASET_URL = inr df -> encoder_error df = None ->
  plots_succeed L -> fst (run L) = Ok tt.
Proof.
  intros E He Hok. apply run_completes_iff. exists df. repeat split; trivial.
  apply first_raising_None. intros c _. apply Hok.
Qed.

(** ** Columns of the encoded dataset *)

Lemma columns_replace d name s :
  columns (map (fun c : string * Series =>
                  if (fst c =? name)%string then (name, s) else c) d)
  = columns d.
Proof.
  unfold columns. induction d as [|[n x] d IH]; cbn; [reflexivity|].
  rewrite IH. destruct (String.eqb_spec n name); cbn; congruence.
Qed.

Lemma has_column_setitem d name s c :
  has_column (setitem d name s) c = has_column d c || (c =? name)%string.
Proof.
  unfold setitem. destruct (has_column d name) eqn:E.
  - unfold has_column at 1. rewrite columns_replace. fold (has_column d c).
    destruct (String.eqb_spec c name) as [->|]; [|now rewrite orb_false_r].
    now rewrite E.
  - unfold has_column, columns. rewrite map_app, existsb_app. cbn.
    now rewrite orb_false_r.
Qed.

Lemma has_column_encoded df c :
  (c =? "CategoriaPrompt_encoded")%string = false ->
  has_column (encoded df) c = has_column df c.
Proof.
  intros E. unfold encoded. destruct (getitem df "CategoriaPrompt"); trivial.
  destruct (fit_transform s); trivial.
  now rewrite has_column_setitem, E, orb_false_r.
Qed.

Lemma getitem_setitem d name s : getitem (setitem d name s) name = Some s.
Proof.
  unfold setitem. destruct (has_column d name) eqn:E;
    unfold has_column, columns in E;
    induction d as [|[n x] d IH]; cbn in *; try discriminate;
    rewrite ?String.eqb_refl; trivial;
    rewrite (String.eqb_sym name n) in E;
    destruct (n =? name)%string eqn:En; cbn in *;
    rewrite ?String.eqb_refl, ?En; try discriminate; auto.
Qed.

Lemma getitem_setitem_other d name s other :
  (other =? name)%string = false ->
  getitem (setitem d name s) other = getitem d other.
Proof.
  intros E. unfold setitem. destruct (has_column d name).
  - induction d as [|[n x] d IH]; cbn; [reflexivity|].
    destruct (String.eqb_spec n name) as [->|]; cbn.
    + rewrite (String.eqb_sym name other), E. exact IH.
    + now rewrite IH.
  - induction d as [|[n x] d IH]; cbn.
    + now rewrite (String.eqb_sym name other), E.
    + now rewrite IH.
Qed.

(** ** Facts about the table of charts *)

Lemma charts_plain L : forallb plain_needs (charts L) = true.
Proof. reflexivity. Qed.

Lemma chart_plain L c : In c (charts L) -> plain_needs c = true.
Proof. intros Hin. pose proof (charts_plain L) as H. rewrite forallb_forall in H. auto. Qed.

Lemma enabled_encoded L df c :
  In c (charts L) -> enabled (encoded df) c = enabled df c.
Proof.
  intros Hin. apply chart_plain in Hin. unfold plain_needs in Hin.
  unfold enabled, has_columns.
  induction (needs c) as [|n ns IH]; cbn in *; [reflexivity|].
  apply andb_prop in Hin as [Hn Hns]. apply andb_prop in Hn as [_ Hn].
  apply negb_true_iff in Hn. now rewrite IH, has_column_encoded.
Qed.

Lemma filter_enabled_encoded L df :
  filter (enabled (encoded df)) (charts L) = filter (enabled df) (charts L).
Proof. apply filter_ext_in. intros c Hc. now apply enabled_encoded with (L := L). Qed.

Lemma has_columns_In df names n :
  has_columns df names = true -> existsb (String.eqb n) names = true ->
  has_column df n = true.
Proof.
  unfold has_columns. rewrite forallb_forall, existsb_exists.
  intros H (m & Hm & E). apply String.eqb_eq in E. subst. auto.
Qed.

Lemma enabled_full L df c :
  has_columns df expected_columns = true -> In c (charts L) -> enabled df c = true.
Proof.
  intros Hall Hin. apply chart_plain in Hin. unfold plain_needs in Hin.
  unfold enabled, has_columns. rewrite forallb_forall in *.
  intros n Hn. specialize (Hin n Hn). apply andb_prop in Hin as [Hin _].
  eapply has_columns_In; eassumption.
Qed.

Lemma filter_all {A} (f : A -> bool) (l : list A) :
  (forall x, In x l -> f x = true) -> filter f l = l.
Proof.
  induction l as [|x l IH]; cbn; intros H; [reflexivity|].
  rewrite H by now left. f_equal. apply IH. intros. apply H. now right.
Qed.

(** The artifacts of a run that reaches its end. *)
Lemma run_artifacts L df :
  acquire L DATASET_URL = inr df -> fst (run L) = Ok tt ->
  artifacts (trace (snd (run L))) = map chart_path (filter (enabled df) (charts L)).
Proof.
  intros E Hok. destruct (run_completed L df E Hok) as (_ & _ & _ & ->).
  rewrite !artifacts_app, artifacts_preamble. unfold plan.
  rewrite artifacts_plan, filter_enabled_encoded.
  change (artifacts [printed done_line]) with (@nil string).
  now rewrite app_nil_r.
Qed.

(** ** C1: the artifacts of a run on a complete dataset *)

(** The file names of the charts, in the order of the main sequence. *)
Lemma chart_files L :
  map file (charts L) =
  [ "1_hist_Coerencia (Humana).png"; "1_hist_Relevancia (Humana).png";
    "1_hist_Profundidade (Humana).png"; "1_hist_Consciencia (Humana).png";
    "2_boxplot_Coerencia (Humana).png"; "2_boxplot_Relevancia (Humana).png";
    "2_boxplot_Profundidade (Humana).png"; "2_boxplot_Consciencia (Humana).png";
    "3_scatter_bleu_rouge.png"; "4_hist_perplexidade.png";
    "5_violin_perplexidade.png"; "6_scatter_perplexidade_coerencia.png";
    "7_heatmap.png"; "8_scatter_diversidade_originalidade.png";
    "9_boxplot_diversidade.png"; "10_boxplot_originalidade.png";
    "11_scatter_profundidade_consciencia.png" ].
Proof. reflexivity. Qed.

(** C1, as stated, fails: on the sample dataset, which has every expected
    column, the run goes through the whole main sequence and writes
    seventeen image files, not eleven.  (That the run is a full one matters:
    with a category column that mixes text and numbers the dataset still has
    every expected column, and the run, stopped by the label encoder, writes
    no file.) *)
Lemma C1_eleven_artifacts_counterexample :
  acquire (serving 200 "x" (inr sample)) DATASET_URL = inr sample /\
  has_columns sample expected_columns = true /\
  fst (run (serving 200 "x" (inr sample))) = Ok tt /\
  List.length (artifacts (trace (snd (run (serving 200 "x" (inr sample))))))
  <> 11%nat /\
  has_columns sample_mixed expected_columns = true /\
  fst (run (serving 200 "x" (inr sample_mixed)))
  = Raised (TypeError ["int"; "str"]) /\
  artifacts (trace (snd (run (serving 200 "x" (inr sample_mixed))))) = [].
Proof. vm_compute. repeat split; discriminate. Qed.

(** C1 (amended): for a dataset containing every expected column, one full
    run of the main sequence -- a run that reaches the end of the sequence --
    produces exactly seventeen image artifacts: four histograms in step 1,
    four boxplots in step 2 and one chart in each of steps 3 to 11, each
    written under its fixed file name in the graphics directory. *)
Theorem C1_full_dataset_seventeen_artifacts (L : Libs) (df : DataFrame) :
  acquire L DATASET_URL = inr df ->
  has_columns df expected_columns = true ->
  fst (run L) = Ok tt ->
  artifacts (trace (snd (run L))) =
  map (os_path.join GRAPHPATH)
    [ "1_hist_Coerencia (Humana).png"; "1_hist_Relevancia (Humana).png";
      "1_hist_Profundidade (Humana).png"; "1_hist_Consciencia (Humana).png";
      "2_boxplot_Coerencia (Humana).png"; "2_boxplot_Relevancia (Humana).png";
      "2_boxplot_Profundidade (Humana).png"; "2_boxplot_Consciencia (Humana).png";
      "3_scatter_bleu_rouge.png"; "4_hist_perplexidade.png";
      "5_violin_perplexidade.png"; "6_scatter_perplexidade_coerencia.png";
      "7_heatmap.png"; "8_scatter_diversidade_originalidade.png";
      "9_boxplot_diversidade.png"; "10_boxplot_originalidade.png";
      "11_scatter_profundidade_consciencia.png" ] /\
  List.length (artifacts (trace (snd (run L)))) = 17%nat.
Proof.
  intros E Hall Hok.
  assert (Ha : artifacts (trace (snd (run L))) = map chart_path (charts L)).
  { rewrite (run_artifacts L df E Hok). f_equal.
    apply filter_all. intros c Hc. now apply enabled_full with (L := L). }
  rewrite Ha. split.
  - unfold chart_path. rewrite <- (chart_files L), map_map. reflexivity.
  - reflexivity.
Qed.

Lemma C1_full_dataset_seventeen_artifacts_witness :
  List.length (artifacts (trace (snd (run (serving 200 "x" (inr sample))))))
  = 17%nat.
Proof.
  refine (proj2 (C1_full_dataset_seventeen_artifacts
                   (serving 200 "x" (inr sample)) sample _ _ _)).
  - reflexivity.
  - reflexivity.
  - vm_compute. reflexivity.
Defined.

(** ** Which charts a run produces *)

Lemma existsb_eqb_In x l : existsb (String.eqb x) l = true <-> In x l.
Proof.
  rewrite existsb_exists. split.
  - intros (y & Hy & E). apply String.eqb_eq in E. now subst.
  - intros H. exists x. now rewrite String.eqb_refl.
Qed.

Lemma all_different_NoDup l : all_different l = true -> NoDup l.
Proof.
  induction l as [|x l IH]; cbn; intros H; constructor;
    apply andb_prop in H as [H1 H2]; auto.
  intros Hin. apply existsb_eqb_In in Hin. now rewrite Hin in H1.
Qed.

Lemma chart_paths_NoDup L : NoDup (map chart_path (charts L)).
Proof. apply all_different_NoDup. reflexivity. Qed.

Lemma NoDup_map_inj {A B} (f : A -> B) (l : list A) x y :
  NoDup (map f l) -> In x l -> In y l -> f x = f y -> x = y.
Proof.
  induction l as [|a l IH]; cbn; [tauto|].
  intros Hnd Hx Hy E. inversion Hnd as [|? ? Hnot Hnd']; subst.
  destruct Hx as [->|Hx], Hy as [->|Hy]; auto.
  - exfalso. apply Hnot. rewrite E. now apply in_map.
  - exfalso. apply Hnot. rewrite <- E. now apply in_map.
Qed.

(** In a trace whose artifacts are those of the enabled charts, a chart is
    produced exactly when it is enabled. *)
Lemma produced_enabled L d tr c :
  artifacts tr = map chart_path (filter (enabled d) (charts L)) ->
  In c (charts L) -> produced tr c = enabled d c.
Proof.
  intros Ha Hc. unfold produced. rewrite Ha.
  destruct (enabled d c) eqn:E.
  - apply existsb_eqb_In, in_map, filter_In. auto.
  - apply not_true_is_false. intros H.
    apply existsb_eqb_In, in_map_iff in H as (c' & Ep & Hin).
    apply filter_In in Hin as [Hin E'].
    assert (c' = c)
      by (eapply NoDup_map_inj; eauto using chart_paths_NoDup).
    congruence.
Qed.

Lemma calls_prefix pre tr :
  is_prefix pre tr -> incl (calls pre) (calls tr).
Proof. intros [rest ->]. rewrite calls_app. now apply incl_appl. Qed.

(** In every run that loads a dataset, every plotting call is the call of an
    enabled chart of the table. *)
Lemma run_calls L df k :
  acquire L DATASET_URL = inr df ->
  In k (calls (trace (snd (run L)))) ->
  exists c, In c (charts L) /\ enabled df c = true /\ k = call c (encoded df).
Proof.
  intros E Hk.
  assert (Hin : In k (calls (plan L (encoded df)))).
  { destruct (run_loaded L df E) as [_ Ht].
    destruct (fst (run L)) as [[]|e].
    - destruct Ht as (_ & _ & Ht).
      rewrite Ht, !calls_app, calls_preamble in Hk. cbn in Hk.
      now rewrite app_nil_r in Hk.
    - destruct Ht as [[_ Ht]|(_ & c & pre & _ & _ & _ & _ & Hp & Ht)].
      + rewrite Ht, calls_preamble in Hk. destruct Hk.
      + rewrite Ht, calls_app, calls_preamble in Hk.
        eapply calls_prefix; eassumption. }
  unfold plan in Hin. rewrite calls_plan in Hin.
  apply in_map_iff in Hin as (c & <- & Hc). apply filter_In in Hc as [Hc He].
  exists c. rewrite (enabled_encoded L) in He by trivial. auto.
Qed.

Lemma artifacts_prefix pre tr :
  is_prefix pre tr -> incl (artifacts pre) (artifacts tr).
Proof. intros [rest ->]. rewrite artifacts_app. now apply incl_appl. Qed.

(** Every file written by a run that loads a dataset, complete or not, is
    the file of an enabled chart. *)
Lemma run_artifacts_enabled L df :
  acquire L DATASET_URL = inr df ->
  incl (artifacts (trace (snd (run L))))
    (map chart_path (filter (enabled df) (charts L))).
Proof.
  intros E.
  assert (Hp : artifacts (plan L (encoded df))
               = map chart_path (filter (enabled df) (charts L))).
  { unfold plan. now rewrite artifacts_plan, filter_enabled_encoded. }
  rewrite <- Hp.
  destruct (run_loaded L df E) as [_ Ht].
  destruct (fst (run L)) as [[]|e].
  - destruct Ht as (_ & _ & Ht).
    rewrite Ht, !artifacts_app, artifacts_preamble.
    change (artifacts [printed done_line]) with (@nil string).
    rewrite app_nil_r. apply incl_refl.
  - destruct Ht as [[_ Ht]|(_ & c & pre & _ & _ & _ & _ & Hpre & Ht)].
    + rewrite Ht, artifacts_preamble. apply incl_nil_l.
    + rewrite Ht, artifacts_app, artifacts_preamble. cbn [app].
      now apply artifacts_prefix.
Qed.

(** No run writes the file of a chart one of whose columns is absent. *)
Lemma chart_not_produced L df c :
  acquire L DATASET_URL = inr df -> In c (charts L) ->
  enabled df c = false -> produced (trace (snd (run L))) c = false.
Proof.
  intros E Hc He. apply not_true_is_false. intros H.
  apply existsb_eqb_In, (run_artifacts_enabled L df E), in_map_iff in H
    as (c' & Ep & Hin).
  apply filter_In in Hin as [Hin E'].
  assert (c' = c) by (eapply NoDup_map_inj; eauto using chart_paths_NoDup).
  congruence.
Qed.

(** In a run that reaches its end, each chart of the table is either drawn
    and written, or replaced by its diagnostic line. *)
Lemma chart_outcome L df c :
  acquire L DATASET_URL = inr df -> fst (run L) = Ok tt -> In c (charts L) ->
  (enabled df c = true ->
   In (call c (encoded df)) (calls (trace (snd (run L)))) /\
   produced (trace (snd (run L))) c = true) /\
  (enabled df c = false ->
   In (skip_message c) (diagnostics (trace (snd (run L)))) /\
   produced (trace (snd (run L))) c = false).
Proof.
  intros E Hok Hc.
  pose proof (produced_enabled L df _ c (run_artifacts L df E Hok) Hc) as Hp.
  destruct (run_completed L df E Hok) as (_ & _ & _ & Ht).
  split; intros He; rewrite Hp, He; (split; [|reflexivity]); rewrite Ht.
  - rewrite !calls_app. apply in_or_app. right. apply in_or_app. left.
    unfold plan. rewrite calls_plan.
    apply (in_map (fun c => call c (encoded df))), filter_In.
    now rewrite (enabled_encoded L).
  - rewrite !diagnostics_app. apply in_or_app. right. apply in_or_app. left.
    unfold plan. rewrite diagnostics_plan.
    apply in_map, filter_In.
    now rewrite (enabled_encoded L), He.
Qed.

(** A run stopped by the encoder has reached no analysis step. *)
Lemma run_rejected_quiet L df e :
  acquire L DATASET_URL = inr df -> encoder_error df = Some e ->
  fst (run L) = Raised e /\
  calls (trace (snd (run L))) = [] /\
  diagnostics (trace (snd (run L))) = [] /\
  artifacts (trace (snd (run L))) = [].
Proof.
  intros E He. rewrite (run_rejected L df e E He). cbn [fst snd trace].
  unfold preamble, encoding_events. rewrite (encoder_error_column df e He).
  repeat split.
Qed.

(** ** C2: how the analysis steps are gated *)

(** C2, as stated, fails three times.  Step 7 has no column to test: on a
    dataset with no column at all it still calls the heatmap function and
    prints nothing.  Step 1 tests its four columns one by one: with only
    ['Coerencia (Humana)'] present it calls the histogram function although
    three of its columns are absent.  And not every run reaches the steps:
    on the sample dataset without ['BLEU'] and with a category column that
    mixes text and numbers, the run is stopped by the label encoder, so
    step 3 prints no diagnostic although its column is absent. *)
Lemma C2_ungated_steps_counterexample :
  ~ gated offline 6 [] /\
  calls (step_events offline 6 []) <> [] /\
  diagnostics (step_events offline 6 []) = [] /\
  ~ gated offline 0 [("Coerencia (Humana)", ratings)] /\
  has_column (drop "BLEU" sample_mixed) "BLEU" = false /\
  run (serving 200 "x" (inr (drop "BLEU" sample_mixed)))
  = (Raised (TypeError ["int"; "str"]),
     mkState [drop "BLEU" sample_mixed] []
       (startup ++ [http_get DATASET_URL])) /\
  diagnostics (trace (snd (run (serving 200 "x" (inr (drop "BLEU" sample_mixed))))))
  = [].
Proof.
  repeat split.
  - intros [H _]. now apply H.
  - discriminate.
  - intros (_ & H & _). discriminate H. discriminate.
Qed.

(** C2 (amended): the gate is per chart, not per step, and it is reached
    only by a run that loads a dataset and gets past the label encoder.  In
    every run that loads a dataset, a plotting call is only ever issued for
    a chart whose tested columns are all present, and the file of a chart
    with a tested column absent is never written.  In a run that reaches the
    end of the sequence, each of the seventeen charts is either drawn and
    written (its columns are present) or replaced by its diagnostic line
    (one is absent); steps 1 and 2 decide this for each of their four
    columns separately, and the heatmap of step 7, which tests no column, is
    drawn whatever the dataset.  A run in which the label encoder rejects
    the category column stops before the first step: no chart function is
    called and no diagnostic is printed. *)
Theorem C2_charts_gated_heatmap_always (L : Libs) (df : DataFrame) :
  acquire L DATASET_URL = inr df ->
  (forall k, In k (calls (trace (snd (run L)))) ->
     exists c, In c (charts L) /\ enabled df c = true /\ k = call c (encoded df)) /\
  (forall c, In c (charts L) -> enabled df c = false ->
     produced (trace (snd (run L))) c = false) /\
  (fst (run L) = Ok tt ->
   forall c, In c (charts L) ->
     (enabled df c = true ->
      In (call c (encoded df)) (calls (trace (snd (run L)))) /\
      produced (trace (snd (run L))) c = true) /\
     (enabled df c = false ->
      In (skip_message c) (diagnostics (trace (snd (run L)))) /\
      produced (trace (snd (run L))) c = false)) /\
  (In (chart7 L) (charts L) /\ needs (chart7 L) = [] /\
   forall d, enabled d (chart7 L) = true) /\
  (forall e, encoder_error df = Some e ->
     fst (run L) = Raised e /\
     calls (trace (snd (run L))) = [] /\
     diagnostics (trace (snd (run L))) = [] /\
     artifacts (trace (snd (run L))) = []).
Proof.
  intros E. split; [|split; [|split; [|split]]].
  - intros k. now apply run_calls.
  - intros c. now apply chart_not_produced.
  - intros Hok c Hc. now apply chart_outcome.
  - repeat split. cbn. tauto.
  - intros e. now apply run_rejected_quiet.
Qed.

Lemma C2_charts_gated_heatmap_always_witness :
  produced (trace (snd (run (serving 200 "x" (inr sample)))))
    (chart7 (serving 200 "x" (inr sample))) = true.
Proof.
  refine (proj2 (proj1 (proj1 (proj2 (proj2 (C2_charts_gated_heatmap_always
                                 (serving 200 "x" (inr sample)) sample _)))
                          _ (chart7 (serving 200 "x" (inr sample))) _) _)).
  - reflexivity.
  - vm_compute. reflexivity.
  - now apply (nth_error_In _ 12).
  - reflexivity.
Defined.

(** ** C3: a dataset with one expected column missing *)

(** C3, as stated, fails twice.  Columns and steps do not correspond one to
    one: on the sample dataset without ['CategoriaPrompt'], and only that
    column missing, four steps (2, 5, 9 and 10) write nothing.  And the
    steps are not independent of one another: on the sample dataset without
    ['BLEU'], when the histogram calls raise, the run stops in step 1 and no
    step writes a file, although only step 3 tests ['BLEU']. *)
Lemma C3_single_step_counterexample :
  filter (fun n => negb (has_column (drop "CategoriaPrompt" sample) n))
    expected_columns = ["CategoriaPrompt"] /\
  map (step_skipped
         (trace (snd (run (serving 200 "x" (inr (drop "CategoriaPrompt" sample)))))))
    (steps (serving 200 "x" (inr (drop "CategoriaPrompt" sample))))
  = [false; true; false; false; true; false; false; false; true; true; false] /\
  filter (fun n => negb (has_column (drop "BLEU" sample) n)) expected_columns
  = ["BLEU"] /\
  map (step_skipped
         (trace (snd (run (raising is_histplot (drop "BLEU" sample))))))
    (steps (raising is_histplot (drop "BLEU" sample)))
  = [true; true; true; true; true; true; true; true; true; true; true].
Proof. vm_compute. repeat split; reflexivity. Qed.

Lemma enabled_missing L df col c :
  In c (charts L) ->
  has_column df col = false ->
  (forall n, In n expected_columns -> n <> col -> has_column df n = true) ->
  enabled df c = negb (tests c col).
Proof.
  intros Hc Hmiss Hrest. apply chart_plain in Hc. unfold plain_needs in Hc.
  rewrite forallb_forall in Hc.
  unfold enabled, has_columns. destruct (tests c col) eqn:T; unfold tests in T; cbn.
  - apply existsb_eqb_In in T.
    destruct (forallb (has_column df) (needs c)) eqn:F; trivial.
    rewrite forallb_forall in F. rewrite (F col T) in Hmiss. discriminate.
  - apply forallb_forall. intros n Hn.
    specialize (Hc n Hn). apply andb_prop in Hc as [Hexp _].
    apply existsb_eqb_In in Hexp. apply Hrest; trivial.
    intros ->. apply existsb_eqb_In in Hn. congruence.
Qed.

(** C3 (amended): for every dataset missing exactly one expected column, a
    run that reaches the end of the main sequence skips exactly the charts
    whose guard tests that column and writes the file of every other chart.
    (One column may be tested by the charts of several steps, and steps 1
    and 2 lose only the chart of the missing column.)  In every run, also
    one that is stopped on its way, no chart whose guard tests the missing
    column is written. *)
Theorem C3_single_missing_column (L : Libs) (df : DataFrame) (col : string) :
  acquire L DATASET_URL = inr df ->
  In col expected_columns ->
  has_column df col = false ->
  (forall n, In n expected_columns -> n <> col -> has_column df n = true) ->
  (fst (run L) = Ok tt ->
   forall c, In c (charts L) ->
     produced (trace (snd (run L))) c = negb (tests c col)) /\
  (forall c, In c (charts L) -> tests c col = true ->
     produced (trace (snd (run L))) c = false).
Proof.
  intros E Hcol Hmiss Hrest. split.
  - intros Hok c Hc.
    rewrite (produced_enabled L df _ c (run_artifacts L df E Hok) Hc).
    now apply enabled_missing with (L := L).
  - intros c Hc Ht. apply (chart_not_produced L df c E Hc).
    rewrite (enabled_missing L df col c Hc Hmiss Hrest). now rewrite Ht.
Qed.

Lemma C3_single_missing_column_witness :
  produced
    (trace (snd (run (serving 200 "x" (inr (drop "Perplexidade" sample))))))
    chart3 = negb (tests chart3 "Perplexidade").
Proof.
  refine (proj1 (C3_single_missing_column
                   (serving 200 "x" (inr (drop "Perplexidade" sample)))
                   (drop "Perplexidade" sample) "Perplexidade" _ _ _ _)
            _ chart3 _).
  - reflexivity.
  - do 7 right. now left.
  - reflexivity.
  - intros n Hn Hne.
    repeat (destruct Hn as [<-|Hn]; [first [reflexivity | now elim Hne]|]).
    destruct Hn.
  - vm_compute. reflexivity.
  - now apply (nth_error_In _ 8).
Defined.

(** ** C4: acquisition failures *)

Lemma acquisition_fails_acquire L url :
  acquisition_fails L url -> exists e, acquire L url = inl e.
Proof.
  unfold acquire.
  intros [msg E|response E Hs|response E Hv|response msg E Hp]; rewrite E; eauto.
  - assert ((400 <=? status_code response) && (status_code response <? 600) = true)
      as -> by (apply andb_true_intro; split; [apply Z.leb_le|apply Z.ltb_lt]; lia).
    eauto.
  - destruct (_ && _); eauto. rewrite Hv. eauto.
  - destruct (_ && _); eauto. destruct (utf8_valid _); eauto. rewrite Hp. eauto.
Qed.

(** C4, as stated, fails for a status that is neither a success nor an
    error: [raise_for_status] raises on 4xx and 5xx only, so a final response
    with status 300 is decoded and parsed, the loader returns a dataset and
    the run goes on to draw charts. *)
Lemma C4_non_success_status_counterexample :
  non_success 300 /\
  lib_get (serving 300 "a" (inr small_table)) DATASET_URL
  = inr (mkResponse 300 (list_byte_of_string "a")) /\
  fst (load_data_from_url (serving 300 "a" (inr small_table)) DATASET_URL initial)
  = Ok (Some 0%nat) /\
  artifacts (trace (snd (run (serving 300 "a" (inr small_table)))))
  = [os_path.join GRAPHPATH "7_heatmap.png"].
Proof.
  split; [unfold non_success; lia|]. vm_compute. repeat split.
Qed.

(** C4 (amended): on any acquisition failure -- a network error, an HTTP
    error status (4xx or 5xx, the statuses on which [raise_for_status]
    raises), a UTF-8 decode failure or a CSV parse failure --
    [load_data_from_url] prints a diagnostic and returns the no-dataset
    signal instead of propagating the exception; the run then prints its
    own diagnostic and exits before any analysis step, with no plotting call
    and no image artifact. *)
Theorem C4_acquisition_failure_aborts (L : Libs) :
  acquisition_fails L DATASET_URL ->
  (forall st,
     fst (load_data_from_url L DATASET_URL st) = Ok None /\
     heap (snd (load_data_from_url L DATASET_URL st)) = heap st /\
     exists e,
       trace (snd (load_data_from_url L DATASET_URL st))
       = (trace st ++ [http_get DATASET_URL; printed (load_error_line L e)])%list) /\
  fst (run L) = Raised SystemExit /\
  (exists e,
     trace (snd (run L))
     = (startup ++ [http_get DATASET_URL; printed (load_error_line L e);
                    printed abort_line])%list) /\
  heap (snd (run L)) = [] /\
  calls (trace (snd (run L))) = [] /\
  artifacts (trace (snd (run L))) = [].
Proof.
  intros Hf. apply acquisition_fails_acquire in Hf as [e E]. split.
  - intros st. rewrite load_data_from_url_run, E. cbn. eauto.
  - rewrite (run_failed L e E). cbn. eauto 6.
Qed.

Lemma C4_acquisition_failure_aborts_witness :
  artifacts (trace (snd (run offline))) = [].
Proof.
  refine (proj2 (proj2 (proj2 (proj2 (proj2
            (C4_acquisition_failure_aborts offline _)))))).
  apply (network_error offline DATASET_URL "connection refused"). reflexivity.
Defined.

(** ** The label encoder on the columns of a dataset *)

Lemma fit_transform_nunique s codes :
  fit_transform s = inr codes -> nunique codes = nunique s.
Proof.
  destruct s as [v|v|v|[|a v]]; cbn [fit_transform]; try destruct (mixed _);
    intros [= <-]; cbn [nunique]; trivial; apply fit_transform_distinct.
Qed.

(** The encoder rejects a column exactly when its cells cannot be sorted. *)
Lemma fit_transform_accepted s :
  accepted s = true -> exists codes, fit_transform s = inr codes.
Proof.
  destruct s as [v|v|v|[|a v]]; cbn [fit_transform accepted]; eauto.
  intros H. apply negb_true_iff in H. rewrite H. eauto.
Qed.

Lemma fit_transform_rejected s :
  accepted s = false ->
  exists cells,
    s = Object cells /\ mixed cells = true /\
    fit_transform s = inl (LabelEncoder.classes (map type_name cells)).
Proof.
  destruct s as [v|v|v|[|a v]]; cbn [fit_transform accepted]; try discriminate.
  intros H. apply negb_false_iff in H. rewrite H. eauto.
Qed.

Lemma length_transform {A} `{Ord A} (v : list A) :
  List.length (LabelEncoder.fit_transform v) = List.length v.
Proof. unfold LabelEncoder.fit_transform, LabelEncoder.transform. apply length_map. Qed.

(** The codes are integers, one for each row, unless the column has no cell
    to derive an integer from. *)
Lemma fit_transform_dtype s codes :
  fit_transform s = inr codes ->
  (s = Object [] -> codes = Float64 []) /\
  (s <> Object [] ->
   exists zs, codes = Int64 zs /\ List.length zs = series_length s).
Proof.
  destruct s as [v|v|v|[|a v]]; cbn [fit_transform]; try destruct (mixed _);
    intros [= <-]; (split; [try discriminate; trivial|]); intros Hs;
    try (now elim Hs);
    eexists; (split; [reflexivity|]); cbn [series_length];
    rewrite length_transform; cbn [List.length]; rewrite ?length_map; reflexivity.
Qed.

Lemma fit_transform_ranked_series s codes :
  fit_transform s = inr codes -> ranked_series s codes.
Proof.
  unfold ranked_series.
  destruct s as [v|v|v|[|a v]]; cbn [fit_transform]; try destruct (mixed _);
    intros [= <-]; cbn [cell_keys code_list].
  - rewrite <- (fit_transform_map (fun z => key (PyInt z)) key_int_mono).
    apply fit_transform_ranked.
  - rewrite <- (fit_transform_map _ key_float_mono).
    apply fit_transform_ranked.
  - rewrite <- (fit_transform_map (fun b => key (PyBool b)) key_bool_mono).
    apply fit_transform_ranked.
  - apply (fit_transform_ranked (@nil Key)).
  - apply fit_transform_ranked.
Qed.

Lemma encoder_error_accepted d column :
  getitem d "CategoriaPrompt" = Some column ->
  encoder_error d = (if accepted column then None
                     else Some (TypeError
                                  (match fit_transform column with
                                   | inl types => types
                                   | inr _ => []
                                   end))).
Proof.
  intros E. unfold encoder_error. rewrite E.
  destruct (accepted column) eqn:Ha.
  - destruct (fit_transform_accepted column Ha) as [codes ->]. reflexivity.
  - destruct (fit_transform_rejected column Ha) as (cells & _ & _ & ->).
    reflexivity.
Qed.

Lemma encoded_accepted d column codes :
  getitem d "CategoriaPrompt" = Some column ->
  fit_transform column = inr codes ->
  encoded d = setitem d "CategoriaPrompt_encoded" codes.
Proof. intros E F. unfold encoded. now rewrite E, F. Qed.

(** ** C5: the categorical encoder *)

(** C5, as stated, fails in three ways.  When the dataset already has a
    column named ['CategoriaPrompt_encoded'], the encoder overwrites that
    column where it stands and appends nothing.  When the cells of
    ['CategoriaPrompt'] mix text and numbers, the label encoder raises
    [TypeError] and nothing is assigned.  When the dataset has no row, the
    derived column is an empty column of floats, not of integers. *)
Lemma C5_existing_column_counterexample :
  has_column sample_with_codes "CategoriaPrompt" = true /\
  heap (snd (preprocess 0%nat (mkState [sample_with_codes] [] [])))
  = [ [ ("CategoriaPrompt", Object [PyStr "b"; PyStr "a"]);
        ("CategoriaPrompt_encoded", Int64 [1; 0]) ] ] /\
  List.length (columns (encoded sample_with_codes))
  = List.length (columns sample_with_codes) /\
  getitem sample_mixed "CategoriaPrompt"
  = Some (Object [PyStr "tecnico"; PyInt 7; PyStr "tecnico"]) /\
  preprocess 0%nat (mkState [sample_mixed] [] [])
  = (Raised (TypeError ["int"; "str"]), mkState [sample_mixed] [] []) /\
  getitem sample_rowless "CategoriaPrompt" = Some (Object []) /\
  getitem
    (nth 0 (heap (snd (preprocess 0%nat (mkState [sample_rowless] [] [])))) [])
    "CategoriaPrompt_encoded"
  = Some (Float64 []).
Proof. vm_compute. repeat split. Qed.

(** C5 (amended): the categorical encoder, when the dataset has the column
    ['CategoriaPrompt'] and the cells of that column can be sorted (they do
    not mix text and numbers), assigns to ['CategoriaPrompt_encoded'] the
    codes computed from that column alone, leaving every other column as it
    is: the derived column is appended as the last column when the dataset
    has no column of that name, and replaces the column of that name
    otherwise.  The codes are integers, one for each row -- except for a
    column without rows, whose derived column is an empty column of floats --
    and the number of distinct codes equals the number of distinct source
    values.  When the cells mix text and numbers the label encoder raises
    [TypeError], which the stage propagates, and the dataset is left
    unchanged.  When ['CategoriaPrompt'] is absent the encoder prints a
    diagnostic and leaves the dataset unchanged. *)
Theorem C5_encoder_assigns_codes (df : Ref) (st : State) :
  (df < List.length (heap st))%nat ->
  (has_column (nth df (heap st) []) "CategoriaPrompt" = false ->
   preprocess df st
   = (Ok tt,
      mkState (heap st) (figures st) (trace st ++ [printed encoder_skip_line]))) /\
  (forall column,
     getitem (nth df (heap st) []) "CategoriaPrompt" = Some column ->
     (accepted column = false ->
      exists types, preprocess df st = (Raised (TypeError types), st)) /\
     (accepted column = true ->
      exists codes,
        fit_transform column = inr codes /\
        fst (preprocess df st) = Ok tt /\
        trace (snd (preprocess df st)) = trace st /\
        nth df (heap (snd (preprocess df st))) []
        = setitem (nth df (heap st) []) "CategoriaPrompt_encoded" codes /\
        getitem (nth df (heap (snd (preprocess df st))) [])
          "CategoriaPrompt_encoded" = Some codes /\
        (forall other, (other =? "CategoriaPrompt_encoded")%string = false ->
           getitem (nth df (heap (snd (preprocess df st))) []) other
           = getitem (nth df (heap st) []) other) /\
        (has_column (nth df (heap st) []) "CategoriaPrompt_encoded" = false ->
         nth df (heap (snd (preprocess df st))) []
         = (nth df (heap st) [] ++ [("CategoriaPrompt_encoded", codes)])%list) /\
        nunique codes = nunique column /\
        (column <> Object [] ->
         exists zs, codes = Int64 zs /\ List.length zs = series_length column) /\
        (column = Object [] -> codes = Float64 []))).
Proof.
  intros Hdf. rewrite preprocess_run. split.
  - intros E. unfold encoder_error, encoding_events.
    fold DataFrame. rewrite (getitem_has_column _ _ E), E. do 2 f_equal.
    rewrite <- (update_id (heap st) df) at 2.
    apply (@update_congr DataFrame _ _ _ _ ([] : DataFrame)).
    unfold encoded. now rewrite (getitem_has_column _ _ E).
  - intros column E. rewrite (encoder_error_accepted _ column E). split.
    + intros ->. eauto.
    + intros Ha. rewrite Ha. cbn [fst snd heap trace].
      destruct (fit_transform_accepted column Ha) as [codes F].
      exists codes.
      assert (Ea : nth df (update (heap st) df encoded) []
                   = setitem (nth df (heap st) []) "CategoriaPrompt_encoded" codes).
      { rewrite (update_nth (heap st) df encoded []) by exact Hdf.
        now apply encoded_accepted with (column := column). }
      rewrite Ea.
      split; [exact F|]. split; [reflexivity|].
      split.
      { unfold encoding_events.
        rewrite (getitem_Some_has_column _ _ _ E). apply app_nil_r. }
      split; [reflexivity|].
      split; [apply getitem_setitem|].
      split; [intros other Ho; now apply getitem_setitem_other|].
      split; [intros Hn; unfold setitem; now rewrite Hn|].
      split; [now apply fit_transform_nunique|].
      destruct (fit_transform_dtype column codes F). auto.
Qed.

Lemma C5_encoder_assigns_codes_witness :
  exists codes,
    fit_transform (Object [PyStr "tecnico"; PyStr "criativo"; PyStr "tecnico"])
    = inr codes /\
    fst (preprocess 0%nat (mkState [sample] [] [])) = Ok tt /\
    trace (snd (preprocess 0%nat (mkState [sample] [] []))) = [] /\
    nth 0 (heap (snd (preprocess 0%nat (mkState [sample] [] [])))) []
    = setitem sample "CategoriaPrompt_encoded" codes /\
    getitem (nth 0 (heap (snd (preprocess 0%nat (mkState [sample] [] [])))) [])
      "CategoriaPrompt_encoded" = Some codes /\
    (forall other, (other =? "CategoriaPrompt_encoded")%string = false ->
       getitem (nth 0 (heap (snd (preprocess 0%nat (mkState [sample] [] [])))) [])
         other
       = getitem sample other) /\
    (has_column sample "CategoriaPrompt_encoded" = false ->
     nth 0 (heap (snd (preprocess 0%nat (mkState [sample] [] [])))) []
     = (sample ++ [("CategoriaPrompt_encoded", codes)])%list) /\
    nunique codes
    = nunique (Object [PyStr "tecnico"; PyStr "criativo"; PyStr "tecnico"]) /\
    (Object [PyStr "tecnico"; PyStr "criativo"; PyStr "tecnico"] <> Object [] ->
     exists zs,
       codes = Int64 zs /\
       List.length zs
       = series_length (Object [PyStr "tecnico"; PyStr "criativo"; PyStr "tecnico"])) /\
    (Object [PyStr "tecnico"; PyStr "criativo"; PyStr "tecnico"] = Object [] ->
     codes = Float64 []).
Proof.
  refine (proj2 (proj2 (C5_encoder_assigns_codes 0%nat (mkState [sample] [] []) _)
                   (Object [PyStr "tecnico"; PyStr "criativo"; PyStr "tecnico"]) _)
            _).
  - cbn. lia.
  - reflexivity.
  - reflexivity.
Defined.

(** ** C6: the correlation heatmap *)




(** ** C7: what changes the dataset *)

Ltac frame :=
  intros;
  cbv [generate_boxplot generate_histogram generate_scatterplot
       generate_heatmap generate_violinplot create_figure save_fig sns deref
       bind ret raise emit plt_figure plt_title plt_xticks plt_savefig
       plt_close draw os_makedirs];
  repeat (cbn [heap figures trace fst snd];
          match goal with
          | |- context [match ?h with Some _ => _ | None => _ end] => destruct h
          | |- context [lib_raises ?L ?c] => destruct (lib_raises L c)
          end);
  reflexivity.

Lemma generate_boxplot_frame L df x y title filename hue st :
  heap (snd (generate_boxplot L df x y title filename hue st)) = heap st.
Proof. frame. Qed.

Lemma generate_histogram_frame L df column title filename bins kde st :
  heap (snd (generate_histogram L df column title filename bins kde st)) = heap st.
Proof. frame. Qed.

Lemma generate_scatterplot_frame L df x y title filename hue style st :
  heap (snd (generate_scatterplot L df x y title filename hue style st)) = heap st.
Proof. frame. Qed.

Lemma generate_heatmap_frame L df title filename annot st :
  heap (snd (generate_heatmap L df title filename annot st)) = heap st.
Proof. frame. Qed.

Lemma generate_violinplot_frame L df x y title filename hue split st :
  heap (snd (generate_violinplot L df x y title filename hue split st)) = heap st.
Proof. frame. Qed.

Lemma run_heap L :
  heap (snd (run L))
  = match acquire L DATASET_URL with
    | inl _ => []
    | inr df => [encoded df]
    end.
Proof.
  destruct (acquire L DATASET_URL) as [e|df] eqn:E.
  - now rewrite (run_failed L e E).
  - apply (run_loaded L df E).
Qed.

Lemma encoded_cases d :
  encoded d = d \/
  exists column codes,
    getitem d "CategoriaPrompt" = Some column /\
    fit_transform column = inr codes /\
    encoded d = setitem d "CategoriaPrompt_encoded" codes.
Proof.
  unfold encoded. destruct (getitem d "CategoriaPrompt") as [column|]; auto.
  destruct (fit_transform column) as [types|codes] eqn:F; eauto 6.
Qed.

Lemma encoded_other d other :
  (other =? "CategoriaPrompt_encoded")%string = false ->
  getitem (encoded d) other = getitem d other.
Proof.
  intros E. unfold encoded. destruct (getitem d "CategoriaPrompt"); trivial.
  destruct (fit_transform s); trivial.
  now apply getitem_setitem_other.
Qed.

Lemma analyses_frame L df st : heap (snd (analyses L df st)) = heap st.
Proof. apply (analyses_emits L df (nth df (heap st) []) st eq_refl). Qed.

(** C7, as stated, fails when the loaded dataset already has a column named
    ['CategoriaPrompt_encoded']: the encoding stage then changes the cells of
    that existing column and adds no column. *)
Lemma C7_overwritten_column_counterexample :
  acquire (serving 200 "x" (inr sample_with_codes)) DATASET_URL
  = inr sample_with_codes /\
  getitem sample_with_codes "CategoriaPrompt_encoded" = Some (Int64 [7; 7]) /\
  heap (snd (run (serving 200 "x" (inr sample_with_codes))))
  = [ [ ("CategoriaPrompt", Object [PyStr "b"; PyStr "a"]);
        ("CategoriaPrompt_encoded", Int64 [1; 0]) ] ].
Proof. vm_compute. repeat split. Qed.

(** C7 (amended): in every run the dataset object is changed at most once,
    by the encoding stage, whose single assignment sets the derived column
    ['CategoriaPrompt_encoded'] (adding it, or replacing the column of that
    name) and leaves every other column as loaded; the analysis steps leave
    it as it is, and no chart function ([generate_histogram],
    [generate_boxplot], [generate_scatterplot], [generate_violinplot],
    [generate_heatmap]) modifies any DataFrame object. *)
Theorem C7_dataset_changed_only_by_encoder :
  (forall L,
     heap (snd (run L))
     = match acquire L DATASET_URL with
       | inl _ => []
       | inr df => [encoded df]
       end) /\
  (forall d,
     encoded d = d \/
     exists column codes,
       getitem d "CategoriaPrompt" = Some column /\
       fit_transform column = inr codes /\
       encoded d = setitem d "CategoriaPrompt_encoded" codes) /\
  (forall d other,
     (other =? "CategoriaPrompt_encoded")%string = false ->
     getitem (encoded d) other = getitem d other) /\
  (forall L df st, heap (snd (analyses L df st)) = heap st) /\
  (forall L df column title filename bins kde st,
     heap (snd (generate_histogram L df column title filename bins kde st)) = heap st) /\
  (forall L df x y title filename hue st,
     heap (snd (generate_boxplot L df x y title filename hue st)) = heap st) /\
  (forall L df x y title filename hue style st,
     heap (snd (generate_scatterplot L df x y title filename hue style st)) = heap st) /\
  (forall L df x y title filename hue split st,
     heap (snd (generate_violinplot L df x y title filename hue split st)) = heap st) /\
  (forall L df title filename annot st,
     heap (snd (generate_heatmap L df title filename annot st)) = heap st).
Proof.
  repeat split.
  - apply run_heap.
  - apply encoded_cases.
  - apply encoded_other.
  - apply analyses_frame.
  - apply generate_histogram_frame.
  - apply generate_boxplot_frame.
  - apply generate_scatterplot_frame.
  - apply generate_violinplot_frame.
  - apply generate_heatmap_frame.
Qed.

Lemma C7_dataset_changed_only_by_encoder_witness :
  getitem (encoded sample) "BLEU" = getitem sample "BLEU".
Proof.
  destruct C7_dataset_changed_only_by_encoder as (_ & _ & H & _).
  apply H. reflexivity.
Defined.

(** ** C8: the order of the codes *)

(** C8, as stated, fails twice.  The order of the codes is lexicographic for
    text only: on a category column of the numbers 10, 9 and 100 the codes
    are 1, 0 and 2, the numeric order, where the lexicographic order of the
    values as written gives 0, 2 and 1.  And a present column does not
    always get its codes: when its cells mix text and numbers, the run has
    no derived column at all. *)
Lemma C8_numeric_order_counterexample :
  getitem sample_numbered "CategoriaPrompt" = Some (Int64 [10; 9; 100]) /\
  getitem (nth 0 (heap (snd (run (serving 200 "x" (inr sample_numbered))))) [])
    "CategoriaPrompt_encoded"
  = Some (Int64 [1; 0; 2]) /\
  LabelEncoder.fit_transform ["10"; "9"; "100"] = [0; 2; 1] /\
  has_column sample_mixed "CategoriaPrompt" = true /\
  fst (run (serving 200 "x" (inr sample_mixed)))
  = Raised (TypeError ["int"; "str"]) /\
  getitem (nth 0 (heap (snd (run (serving 200 "x" (inr sample_mixed))))) [])
    "CategoriaPrompt_encoded"
  = None.
Proof. vm_compute. repeat split. Qed.

(** The dataset of a run whose category column the encoder accepts. *)
Lemma run_codes L df column :
  acquire L DATASET_URL = inr df ->
  getitem df "CategoriaPrompt" = Some column ->
  accepted column = true ->
  exists codes,
    fit_transform column = inr codes /\
    heap (snd (run L)) = [setitem df "CategoriaPrompt_encoded" codes] /\
    getitem (setitem df "CategoriaPrompt_encoded" codes) "CategoriaPrompt"
    = Some column /\
    getitem (setitem df "CategoriaPrompt_encoded" codes) "CategoriaPrompt_encoded"
    = Some codes.
Proof.
  intros E Hc Ha. destruct (fit_transform_accepted column Ha) as [codes F].
  exists codes. split; [exact F|].
  rewrite run_heap, E, (encoded_accepted df column codes Hc F).
  split; [reflexivity|]. split; [|apply getitem_setitem].
  now rewrite getitem_setitem_other.
Qed.

(** C8 (amended): when the dataset of a run has the column
    ['CategoriaPrompt'] and the label encoder accepts it (its cells do not
    mix text and numbers), the run leaves the dataset with the derived
    column ['CategoriaPrompt_encoded'], in which the code of each row is the
    rank of the row's value among the distinct values of the column in
    ascending order: the lexicographic order of the code points for text,
    the numeric order for numbers, a missing value last.  So the code of a
    value depends on the set of values only -- sorted order, not order of
    first appearance: in two runs whose category columns hold the same
    values, in any order and any number of times, each value has the same
    code. *)
Theorem C8_codes_in_sorted_order (L : Libs) (df : DataFrame) (column : Series) :
  acquire L DATASET_URL = inr df ->
  getitem df "CategoriaPrompt" = Some column ->
  accepted column = true ->
  exists d codes,
    heap (snd (run L)) = [d] /\
    getitem d "CategoriaPrompt" = Some column /\
    getitem d "CategoriaPrompt_encoded" = Some codes /\
    ranked_series column codes /\
    forall L' df' column' d' codes',
      acquire L' DATASET_URL = inr df' ->
      getitem df' "CategoriaPrompt" = Some column' ->
      accepted column' = true ->
      heap (snd (run L')) = [d'] ->
      getitem d' "CategoriaPrompt_encoded" = Some codes' ->
      (forall k, In k (cell_keys column) <-> In k (cell_keys column')) ->
      forall i j k,
        nth_error (cell_keys column) i = Some k ->
        nth_error (cell_keys column') j = Some k ->
        exists z,
          nth_error (code_list codes) i = Some z /\
          nth_error (code_list codes') j = Some z.
Proof.
  intros E Hc Ha.
  destruct (run_codes L df column E Hc Ha) as (codes & F & Hh & Hcol & Hcodes).
  exists (setitem df "CategoriaPrompt_encoded" codes), codes.
  repeat (split; [assumption|]).
  split; [now apply fit_transform_ranked_series|].
  intros L' df' column' d' codes' E' Hc' Ha' Hh' Hd' Hext.
  destruct (run_codes L' df' column' E' Hc' Ha') as (c' & F' & Hh2 & _ & Hcodes').
  assert (d' = setitem df' "CategoriaPrompt_encoded" c') by congruence. subst d'.
  assert (codes' = c') by congruence. subst c'.
  apply ranked_deterministic; trivial; now apply fit_transform_ranked_series.
Qed.

Lemma C8_codes_in_sorted_order_witness :
  exists d codes,
    heap (snd (run (serving 200 "x" (inr sample)))) = [d] /\
    getitem d "CategoriaPrompt"
    = Some (Object [PyStr "tecnico"; PyStr "criativo"; PyStr "tecnico"]) /\
    getitem d "CategoriaPrompt_encoded" = Some codes /\
    ranked_series (Object [PyStr "tecnico"; PyStr "criativo"; PyStr "tecnico"])
      codes /\
    forall L' df' column' d' codes',
      acquire L' DATASET_URL = inr df' ->
      getitem df' "CategoriaPrompt" = Some column' ->
      accepted column' = true ->
      heap (snd (run L')) = [d'] ->
      getitem d' "CategoriaPrompt_encoded" = Some codes' ->
      (forall k,
         In k (cell_keys (Object [PyStr "tecnico"; PyStr "criativo"; PyStr "tecnico"]))
         <-> In k (cell_keys column')) ->
      forall i j k,
        nth_error
          (cell_keys (Object [PyStr "tecnico"; PyStr "criativo"; PyStr "tecnico"]))
          i = Some k ->
        nth_error (cell_keys column') j = Some k ->
        exists z,
          nth_error (code_list codes) i = Some z /\
          nth_error (code_list codes') j = Some z.
Proof.
  refine (C8_codes_in_sorted_order (serving 200 "x" (inr sample)) sample
            (Object [PyStr "tecnico"; PyStr "criativo"; PyStr "tecnico"]) _ _ _).
  - reflexivity.
  - reflexivity.
  - reflexivity.
Defined.

(** ** C9: the scatterplot steps *)

Lemma scatter_charts_in L c : In c scatter_charts -> In c (charts L).
Proof.
  intros [<-|[<-|[<-|[<-|[]]]]].
  - now apply (nth_error_In _ 8).
  - now apply (nth_error_In _ 11).
  - now apply (nth_error_In _ 13).
  - now apply (nth_error_In _ 16).
Qed.

(** C9, as stated, fails: the two columns of a scatterplot step may exist
    and the step still not write its file, because the run does not reach
    it.  On the sample dataset, when the histogram calls raise, the run
    stops in step 1; with a category column that mixes text and numbers the
    run stops in the label encoder, although no plotting call raises.  In
    both runs ['BLEU'] and ['ROUGE'] exist and the scatterplot of step 3 is
    not written. *)
Lemma C9_unreached_scatterplot_counterexample :
  enabled sample chart3 = true /\
  produced (trace (snd (run (raising is_histplot sample)))) chart3 = false /\
  enabled sample_mixed chart3 = true /\
  produced (trace (snd (run (serving 200 "x" (inr sample_mixed))))) chart3 = false.
Proof. vm_compute. repeat split. Qed.

(** C9 (amended): in a run that reaches the end of the main sequence, each
    scatterplot step (3, 6, 8 and 11) whose two columns exist writes its
    image file, whether or not ['CategoriaPrompt'] exists: its guard tests
    those two columns only, and its call passes as hue
    ['CategoriaPrompt_encoded'] when the dataset has a column of that name
    at that point and [None] otherwise. *)
Theorem C9_scatterplots_need_two_columns (L : Libs) (df : DataFrame) (c : Chart) :
  acquire L DATASET_URL = inr df ->
  fst (run L) = Ok tt ->
  In c scatter_charts ->
  enabled df c = true ->
  produced (trace (snd (run L))) c = true /\
  In (call c (encoded df)) (calls (trace (snd (run L)))) /\
  tests c "CategoriaPrompt" = false /\
  exists x y,
    needs c = [x; y] /\
    call c (encoded df)
    = sns_scatterplot x y (encoded df) (7 # 10)
        (if has_column (encoded df) "CategoriaPrompt_encoded"
         then Some "CategoriaPrompt_encoded" else None)
        None DEFAULT_PALETTE.
Proof.
  intros E Hok Hc He.
  assert (Hin : In c (charts L)) by now apply scatter_charts_in.
  destruct (chart_outcome L df c E Hok Hin) as [Hyes _].
  destruct (Hyes He) as [Hcall Hprod].
  repeat split; trivial.
  - now destruct Hc as [<-|[<-|[<-|[<-|[]]]]].
  - destruct Hc as [<-|[<-|[<-|[<-|[]]]]]; eexists _, _; split; reflexivity.
Qed.

Lemma C9_scatterplots_need_two_columns_witness :
  produced
    (trace (snd (run (serving 200 "x" (inr (drop "CategoriaPrompt" sample))))))
    chart11 = true.
Proof.
  refine (proj1 (C9_scatterplots_need_two_columns
                   (serving 200 "x" (inr (drop "CategoriaPrompt" sample)))
                   (drop "CategoriaPrompt" sample) chart11 _ _ _ _)).
  - reflexivity.
  - vm_compute. reflexivity.
  - do 3 right. now left.
  - reflexivity.
Defined.

(** ** C10: the directories *)

(** Every file written by a run, complete or not, is the file of a chart. *)
Lemma run_artifacts_charts L :
  incl (artifacts (trace (snd (run L)))) (map chart_path (charts L)).
Proof.
  destruct (acquire L DATASET_URL) as [e|df] eqn:E.
  - rewrite (run_failed L e E). cbn. apply incl_nil_l.
  - eapply incl_tran; [apply (run_artifacts_enabled L df E)|].
    apply incl_map. intros c Hc. now apply filter_In in Hc.
Qed.

Lemma chart_paths_in_graphics L :
  forallb in_graphics_only (map chart_path (charts L)) = true.
Proof. reflexivity. Qed.

Lemma run_starts L : exists rest, trace (snd (run L)) = (startup ++ rest)%list.
Proof.
  destruct (acquire L DATASET_URL) as [e|df] eqn:E.
  - rewrite (run_failed L e E). cbn [snd trace]. eauto.
  - destruct (run_loaded L df E) as [_ Ht].
    destruct (fst (run L)) as [[]|e].
    + destruct Ht as (_ & _ & Ht).
      rewrite Ht. unfold preamble. rewrite <- !app_assoc. eauto.
    + destruct Ht as [[_ Ht]|(_ & c & pre & _ & _ & _ & _ & _ & Ht)];
        rewrite Ht; unfold preamble; rewrite <- ?app_assoc; eauto.
Qed.

(** C10: every run begins by mounting the drive and creating the graphics
    directory and the summaries directory, and never writes a file into the
    summaries directory: every file a run writes is the image file of a
    chart, saved by [save_fig] directly in the graphics directory. *)
Theorem C10_summaries_directory_stays_empty (L : Libs) :
  firstn 3 (trace (snd (run L)))
  = [ drive_mounted DRIVE_MOUNT_PATH true; makedirs GRAPHPATH;
      makedirs SUMMARYPATH ] /\
  In (makedirs SUMMARYPATH) (trace (snd (run L))) /\
  SUMMARYPATH = "/content/drive/MyDrive/sumarios" /\
  Forall (fun filepath =>
            In filepath (map chart_path (charts L)) /\
            os_path.dirname filepath = GRAPHPATH /\
            inside GRAPHPATH filepath = true /\
            inside SUMMARYPATH filepath = false)
    (artifacts (trace (snd (run L)))).
Proof.
  destruct (run_starts L) as [rest Hr].
  split; [now rewrite Hr|].
  split; [rewrite Hr; cbn; tauto|].
  split; [reflexivity|].
  apply Forall_forall. intros p Hp. apply run_artifacts_charts in Hp.
  split; [exact Hp|].
  pose proof (chart_paths_in_graphics L) as H. rewrite forallb_forall in H.
  specialize (H p Hp). unfold in_graphics_only in H.
  apply andb_prop in H as [H H3]. apply andb_prop in H as [H1 H2].
  apply String.eqb_eq in H1. apply negb_true_iff in H3. auto.
Qed.

(** * Further properties of the program *)

(** ** The chart functions *)

Ltac run_generator :=
  cbv [generate generate_boxplot generate_histogram generate_scatterplot
       generate_heatmap generate_violinplot create_figure save_fig sns deref
       bind ret raise emit plt_figure plt_title plt_xticks plt_savefig
       plt_close draw os_makedirs generator_call generator_decoration
       generator_filename generator_title];
  cbn [heap figures trace fst snd].

(** X1: a chart function whose plotting call does not raise issues that one
    call, creates the directory of its file and writes one file: the figure
    saved holds its own plot, its title and, for boxplots and violin plots,
    the rotated tick labels, and nothing of the figures that were open
    before; it closes the figure it opened, so the open figures and the
    DataFrame objects are afterwards what they were. *)
Theorem X1_chart_function_writes_one_clean_figure (L : Libs) (g : Generator)
    (df : Ref) (st : State) :
  lib_raises L (generator_call L g (nth df (heap st) [])) = false ->
  generate L g df st =
  (Ok tt,
   mkState (heap st) (figures st)
     (trace st ++
      [ seaborn (generator_call L g (nth df (heap st) []));
        makedirs (os_path.dirname (os_path.join GRAPHPATH (generator_filename g)));
        savefig (os_path.join GRAPHPATH (generator_filename g))
          (mkFigure FIGSIZE
             (Plot (generator_call L g (nth df (heap st) []))
              :: generator_decoration g))
          300 "tight" ])).
Proof.
  destruct g as [c t f b k|x y t f [h|]|x y t f h s|t f a|x y t f h s];
    run_generator; intros ->;
    cbn [heap figures trace fst snd hd tl artists figsize app];
    now rewrite <- !app_assoc.
Qed.

Lemma X1_chart_function_writes_one_clean_figure_witness :
  artifacts
    (trace (snd (generate offline (heatmap "t" "7_heatmap.png" true) 0%nat
                   (mkState [small_table] [mkFigure (1 # 1, 1 # 1) [Title "old"]] []))))
  = [os_path.join GRAPHPATH "7_heatmap.png"].
Proof.
  rewrite (X1_chart_function_writes_one_clean_figure offline
             (heatmap "t" "7_heatmap.png" true) 0%nat
             (mkState [small_table] [mkFigure (1 # 1, 1 # 1) [Title "old"]] [])).
  - reflexivity.
  - reflexivity.
Defined.

(** X2: a chart function whose plotting call raises propagates the
    exception right after the call: it writes no file, creates no directory,
    changes no DataFrame object, and leaves the figure it opened, still
    empty, as the current figure. *)
Theorem X2_chart_function_failure_leaves_figure_open (L : Libs) (g : Generator)
    (df : Ref) (st : State) :
  lib_raises L (generator_call L g (nth df (heap st) [])) = true ->
  generate L g df st =
  (Raised (PlotError (generator_call L g (nth df (heap st) []))),
   mkState (heap st) (mkFigure FIGSIZE [] :: figures st)
     (trace st ++ [seaborn (generator_call L g (nth df (heap st) []))])).
Proof.
  destruct g as [c t f b k|x y t f [h|]|x y t f h s|t f a|x y t f h s];
    run_generator; intros ->; reflexivity.
Qed.

Lemma X2_chart_function_failure_leaves_figure_open_witness :
  figures (snd (generate failing (histogram "BLEU" "t" "f.png" 20 true) 0%nat
                  (mkState [sample] [] [])))
  = [mkFigure FIGSIZE []].
Proof.
  rewrite (X2_chart_function_failure_leaves_figure_open failing
             (histogram "BLEU" "t" "f.png" 20 true) 0%nat (mkState [sample] [] [])).
  - reflexivity.
  - reflexivity.
Defined.

(** ** Paths of the files *)

Lemma rfind_sep_plain f : plain_name f = true -> os_path.rfind_sep f = None.
Proof.
  induction f as [|c f IH]; cbn; [reflexivity|].
  intros H. apply andb_prop in H as [Hc Hf]. rewrite (IH Hf).
  apply negb_true_iff in Hc. now rewrite Hc.
Qed.

Lemma rfind_sep_app p f :
  plain_name f = true ->
  os_path.rfind_sep (p ++ "/" ++ f) = Some (S (String.length p)).
Proof.
  intros Hf. induction p as [|c p IH]; cbn.
  - now rewrite (rfind_sep_plain f Hf).
  - cbn in IH. now rewrite IH.
Qed.

Lemma substring_prefix p q : substring 0 (String.length p) (p ++ q) = p.
Proof.
  induction p as [|c p IH]; cbn.
  - now destruct q.
  - now rewrite IH.
Qed.

(** For a name without ['/'], the directory of [dir/name] is [dir], provided
    [dir] has a character other than ['/'] and does not end with one. *)
Lemma dirname_join_plain dir f :
  plain_name f = true ->
  os_path.is_abs f = false ->
  (dir =? "")%string || os_path.ends_with_sep dir = false ->
  os_path.all_sep (dir ++ "/") = false ->
  os_path.rstrip_sep (dir ++ "/") = dir ->
  os_path.join dir f = dir ++ "/" ++ f /\
  os_path.dirname (os_path.join dir f) = dir.
Proof.
  intros Hf Ha Hd Hs Hr. unfold os_path.join. rewrite Ha, Hd.
  split; [reflexivity|]. unfold os_path.dirname.
  rewrite (rfind_sep_app dir f Hf).
  replace (S (String.length dir)) with (String.length (dir ++ "/")).
  - replace (dir ++ "/" ++ f) with ((dir ++ "/") ++ f).
    + rewrite substring_prefix, Hs. exact Hr.
    + clear. induction dir as [|c d IH]; cbn; [reflexivity|]. now rewrite IH.
  - clear. induction dir as [|c d IH]; cbn; [reflexivity|]. now rewrite IH.
Qed.

Lemma plain_name_not_abs f : plain_name f = true -> os_path.is_abs f = false.
Proof.
  destruct f as [|c f]; cbn; [reflexivity|].
  intros H. apply andb_prop in H as [H _]. now apply negb_true_iff in H.
Qed.

Lemma graphics_file f :
  plain_name f = true ->
  os_path.join GRAPHPATH f = GRAPHPATH ++ "/" ++ f /\
  os_path.dirname (os_path.join GRAPHPATH f) = GRAPHPATH.
Proof.
  intros Hf. apply dirname_join_plain; trivial.
  now apply plain_name_not_abs.
Qed.

(** ** [save_fig] *)

(** X3: for every file name without ['/'], [save_fig] creates the graphics
    directory, writes the current figure to [GRAPHPATH/filename] at 300 dpi
    with a tight bounding box, and closes that figure. *)
Theorem X3_save_fig_writes_in_graphics_directory (filename : string)
    (fig : Figure) (st : State) :
  plain_name filename = true ->
  hd_error (figures st) = Some fig ->
  save_fig filename st =
  (Ok tt,
   mkState (heap st) (tl (figures st))
     (trace st ++
      [ makedirs GRAPHPATH;
        savefig (GRAPHPATH ++ "/" ++ filename) fig 300 "tight" ])).
Proof.
  intros Hf Hfig. destruct (graphics_file filename Hf) as [Hj Hd].
  cbv [save_fig bind os_makedirs emit plt_savefig plt_close].
  cbn [heap figures trace]. rewrite Hd, Hj.
  destruct (figures st) as [|f fs]; [discriminate|].
  injection Hfig as ->. cbn. now rewrite <- app_assoc.
Qed.

Lemma X3_save_fig_writes_in_graphics_directory_witness :
  artifacts
    (trace (snd (save_fig "7_heatmap.png" (mkState [] [mkFigure FIGSIZE []] []))))
  = ["/content/drive/MyDrive/graficos/7_heatmap.png"].
Proof.
  rewrite (X3_save_fig_writes_in_graphics_directory "7_heatmap.png"
             (mkFigure FIGSIZE []) (mkState [] [mkFigure FIGSIZE []] [])).
  - reflexivity.
  - reflexivity.
  - reflexivity.
Defined.

Lemma directories_app a b :
  directories (a ++ b) = (directories a ++ directories b)%list.
Proof. induction a as [|[] a IH]; cbn; congruence. Qed.

Lemma requests_app a b : requests (a ++ b) = (requests a ++ requests b)%list.
Proof. induction a as [|[] a IH]; cbn; congruence. Qed.

(** X4: a file name that starts with ['/'] is not placed in the graphics
    directory: [save_fig] writes the figure to that absolute path and creates
    the directory of that path instead. *)
Theorem X4_save_fig_absolute_name_escapes (filename : string) (st : State) :
  os_path.is_abs filename = true ->
  fst (save_fig filename st) = Ok tt /\
  artifacts (trace (snd (save_fig filename st)))
  = (artifacts (trace st) ++ [filename])%list /\
  directories (trace (snd (save_fig filename st)))
  = (directories (trace st) ++ [os_path.dirname filename])%list.
Proof.
  intros Ha.
  cbv [save_fig bind os_makedirs emit plt_savefig plt_close os_path.join].
  rewrite Ha. cbn [heap figures trace fst snd].
  rewrite !artifacts_app, !directories_app. cbn.
  now rewrite !app_nil_r.
Qed.

Lemma X4_save_fig_absolute_name_escapes_witness :
  artifacts (trace (snd (save_fig "/tmp/x.png" initial))) = ["/tmp/x.png"].
Proof.
  refine (proj1 (proj2 (X4_save_fig_absolute_name_escapes "/tmp/x.png" initial _))).
  reflexivity.
Defined.


(** ** The loader *)

Lemma acquire_fails L url e :
  acquire L url = inl e -> acquisition_fails L url.
Proof.
  unfold acquire. destruct (lib_get L url) as [msg|response] eqn:E.
  - intros _. now apply (network_error L url msg).
  - destruct ((400 <=? status_code response) && (status_code response <? 600)) eqn:Es.
    + intros _. apply andb_prop in Es as [H1 H2].
      apply Z.leb_le in H1. apply Z.ltb_lt in H2.
      apply (error_status L url response); trivial. lia.
    + destruct (utf8_valid (content response)) eqn:Ev.
      * destruct (lib_read_csv L _) as [msg|df] eqn:Ep; [|discriminate].
        intros _. now apply (parse_failure L url response msg).
      * intros _. now apply (decode_failure L url response).
Qed.

(** X5: when the server answers with a status that is not an error status,
    the body is well-formed UTF-8 and the parser accepts it, the loader
    returns a reference to a new DataFrame object holding the parsed
    dataset; it has sent one request, printed nothing, and the objects that
    existed before are untouched. *)
Theorem X5_loader_returns_fresh_dataset (L : Libs) (url : string) (st : State)
    (response : Response) (df : DataFrame) :
  lib_get L url = inr response ->
  status_code response < 400 \/ 600 <= status_code response ->
  utf8_valid (content response) = true ->
  lib_read_csv L (string_of_list_byte (content response)) = inr df ->
  load_data_from_url L url st =
  (Ok (Some (List.length (heap st))),
   mkState (heap st ++ [df]) (figures st) (trace st ++ [http_get url])) /\
  nth (List.length (heap st)) (heap st ++ [df]) [] = df /\
  forall r, (r < List.length (heap st))%nat ->
    nth r (heap st ++ [df]) [] = nth r (heap st) [].
Proof.
  intros Eg Hs Ev Ep. split; [|split].
  - rewrite load_data_from_url_run. unfold acquire. rewrite Eg.
    assert ((400 <=? status_code response) && (status_code response <? 600) = false)
      as ->.
    { apply andb_false_iff. destruct Hs; [left; apply Z.leb_gt|right; apply Z.ltb_ge]; lia. }
    now rewrite Ev, Ep.
  - rewrite app_nth2 by lia. now rewrite Nat.sub_diag.
  - intros r Hr. now apply app_nth1.
Qed.

Lemma X5_loader_returns_fresh_dataset_witness :
  load_data_from_url (serving 200 "x" (inr sample)) DATASET_URL initial
  = (Ok (Some 0%nat), mkState [sample] [] [http_get DATASET_URL]).
Proof.
  refine (proj1 (X5_loader_returns_fresh_dataset (serving 200 "x" (inr sample))
                   DATASET_URL initial
                   (mkResponse 200 (list_byte_of_string "x")) sample _ _ _ _)).
  - reflexivity.
  - left. cbn. lia.
  - reflexivity.
  - reflexivity.
Defined.

(** X6: the loader never raises, whatever the libraries answer: it always
    returns, and it returns the no-dataset signal exactly when the request,
    the status check, the decoding or the parsing fails.  It sends exactly
    one request (no retry), writes no file and issues no plotting call. *)
Theorem X6_loader_never_raises (L : Libs) (url : string) (st : State) :
  (exists r, fst (load_data_from_url L url st) = Ok r) /\
  (fst (load_data_from_url L url st) = Ok None <-> acquisition_fails L url) /\
  requests (trace (snd (load_data_from_url L url st)))
  = (requests (trace st) ++ [url])%list /\
  artifacts (trace (snd (load_data_from_url L url st))) = artifacts (trace st) /\
  calls (trace (snd (load_data_from_url L url st))) = calls (trace st).
Proof.
  rewrite load_data_from_url_run.
  destruct (acquire L url) as [e|df] eqn:E; cbn [fst snd trace];
    rewrite requests_app, artifacts_app, calls_app; cbn;
    rewrite ?app_nil_r; repeat split; eauto.
  - intros _. now apply (acquire_fails L url e).
  - discriminate.
  - intros Hf. apply acquisition_fails_acquire in Hf as [e He]. congruence.
Qed.

Lemma X6_loader_never_raises_witness :
  fst (load_data_from_url offline DATASET_URL initial) = Ok None.
Proof.
  apply (proj1 (proj2 (X6_loader_never_raises offline DATASET_URL initial))).
  apply (network_error offline DATASET_URL "connection refused"). reflexivity.
Defined.

(** ** How a run ends *)

Lemma fit_transform_inl s types :
  fit_transform s = inl types <->
  exists cells,
    s = Object cells /\ mixed cells = true /\
    types = LabelEncoder.classes (map type_name cells).
Proof.
  split.
  - destruct s as [v|v|v|[|a v]]; cbn [fit_transform]; try discriminate.
    destruct (mixed (a :: v)) eqn:Hm; [|discriminate].
    intros [= <-]. eauto.
  - intros (cells & -> & Hm & ->). destruct cells as [|a v]; [discriminate|].
    cbn [fit_transform]. now rewrite Hm.
Qed.

(** X7: the two ways a run ends before the first analysis step.  It exits
    through [exit()] exactly when the acquisition fails.  It ends with the
    label encoder's [TypeError] exactly when a dataset is loaded whose
    column ['CategoriaPrompt'] mixes text and numbers; the exception names
    the types of the cells, and since the download nothing was assigned,
    printed, plotted or written. *)
Theorem X7_exit_iff_acquisition_fails (L : Libs) :
  (fst (run L) = Raised SystemExit <-> acquisition_fails L DATASET_URL) /\
  (forall types,
     fst (run L) = Raised (TypeError types) <->
     exists df cells,
       acquire L DATASET_URL = inr df /\
       getitem df "CategoriaPrompt" = Some (Object cells) /\
       mixed cells = true /\
       types = LabelEncoder.classes (map type_name cells)) /\
  (forall types,
     fst (run L) = Raised (TypeError types) ->
     exists df,
       acquire L DATASET_URL = inr df /\
       snd (run L) = mkState [df] [] (startup ++ [http_get DATASET_URL])).
Proof.
  assert (Henc : forall df types,
            encoder_error df = Some (TypeError types) <->
            exists cells,
              getitem df "CategoriaPrompt" = Some (Object cells) /\
              mixed cells = true /\
              types = LabelEncoder.classes (map type_name cells)).
  { intros df types. unfold encoder_error.
    destruct (getitem df "CategoriaPrompt") as [s|].
    - destruct (fit_transform s) as [ts|codes] eqn:F.
      + apply fit_transform_inl in F as (cells & -> & Hm & ->). split.
        * intros [= <-]. eauto.
        * intros (cells' & [= <-] & _ & ->). reflexivity.
      + split; [discriminate|]. intros (cells & [= ->] & Hm & _).
        assert (C : fit_transform (Object cells) = inl (LabelEncoder.classes (map type_name cells)))
          by (apply fit_transform_inl; eauto).
        congruence.
    - split; [discriminate|]. intros (cells & C & _). discriminate C. }
  destruct (acquire L DATASET_URL) as [e|df] eqn:E.
  - rewrite (run_failed L e E). cbn [fst snd]. split; [|split].
    + split; [intros _; now apply (acquire_fails L _ e)|reflexivity].
    + intros types. split; [discriminate|]. intros (df & cells & C & _).
      discriminate C.
    + discriminate.
  - assert (Hn : ~ acquisition_fails L DATASET_URL).
    { intros Hf. apply acquisition_fails_acquire in Hf as [e He]. congruence. }
    destruct (encoder_error df) as [e|] eqn:He.
    + rewrite (run_rejected L df e E He). cbn [fst snd].
      assert (He' := He). unfold encoder_error in He'.
      destruct (getitem df "CategoriaPrompt") as [s|]; [|discriminate].
      destruct (fit_transform s) as [ts|codes]; [|discriminate].
      injection He' as <-.
      split; [split; [discriminate|tauto]|]. split.
      * intros types. split.
        -- intros [= <-]. exists df.
           destruct (proj1 (Henc df ts) He) as (cells & H). eauto.
        -- intros (df' & cells & [= <-] & H). f_equal.
           assert (C : encoder_error df = Some (TypeError types))
             by (apply Henc; eauto).
           congruence.
      * intros types _. exists df. split; [reflexivity|].
        unfold preamble, encoding_events.
        now rewrite (encoder_error_column df _ He).
    + rewrite (run_result L), E, He. unfold result_of.
      destruct (first_raising L _).
      * split; [split; [discriminate|tauto]|]. split.
        -- intros types. split; [discriminate|].
           intros (df' & cells & [= <-] & H).
           assert (C : encoder_error df = Some (TypeError types))
             by (apply Henc; eauto).
           congruence.
        -- discriminate.
      * split; [split; [discriminate|tauto]|]. split.
        -- intros types. split; [discriminate|].
           intros (df' & cells & [= <-] & H).
           assert (C : encoder_error df = Some (TypeError types))
             by (apply Henc; eauto).
           congruence.
        -- discriminate.
Qed.

Lemma X7_exit_iff_acquisition_fails_witness :
  fst (run offline) = Raised SystemExit.
Proof.
  apply (proj1 (X7_exit_iff_acquisition_fails offline)).
  apply (network_error offline DATASET_URL "connection refused"). reflexivity.
Defined.

Lemma diagnostics_prefix pre tr :
  is_prefix pre tr -> incl (diagnostics pre) (diagnostics tr).
Proof. intros [rest ->]. rewrite diagnostics_app. now apply incl_appl. Qed.

Lemma skip_messages_not_done L :
  existsb (String.eqb done_line) (map skip_message (charts L)) = false.
Proof. reflexivity. Qed.

Lemma done_not_in_plan L d : ~ In done_line (diagnostics (plan L d)).
Proof.
  unfold plan. rewrite diagnostics_plan. intros Hin.
  apply in_map_iff in Hin as (c & Ec & Hc). apply filter_In in Hc as [Hc _].
  pose proof (skip_messages_not_done L) as H.
  apply not_true_iff_false in H. apply H, existsb_eqb_In.
  rewrite <- Ec. now apply in_map.
Qed.

Lemma done_not_in_preamble df : ~ In done_line (diagnostics (preamble df)).
Proof.
  unfold preamble, encoding_events.
  destruct (has_column df _); cbn; [tauto|]. intros [H|[]]. discriminate H.
Qed.

(** X8: the closing success line is printed exactly by the runs that
    complete: a run that exits for want of data, or that stops at a plotting
    call that raised, does not print it. *)
Theorem X8_success_line_iff_completed (L : Libs) :
  In done_line (diagnostics (trace (snd (run L)))) <-> fst (run L) = Ok tt.
Proof.
  destruct (acquire L DATASET_URL) as [e|df] eqn:E.
  - rewrite (run_failed L e E). cbn. split; [|discriminate].
    unfold load_error_line. intros [H|[H|[]]]; discriminate H.
  - destruct (run_loaded L df E) as [_ Ht].
    destruct (fst (run L)) as [[]|e].
    + destruct Ht as (_ & _ & Ht).
      split; [reflexivity|]. intros _. rewrite Ht, !diagnostics_app.
      apply in_or_app. right. apply in_or_app. right. now left.
    + split; [|discriminate]. intros Hin. exfalso.
      destruct Ht as [[_ Ht]|(_ & c & pre & _ & _ & _ & _ & Hp & Ht)].
      * rewrite Ht in Hin. now apply done_not_in_preamble in Hin.
      * rewrite Ht, diagnostics_app in Hin. apply in_app_or in Hin as [Hin|Hin].
        -- now apply done_not_in_preamble in Hin.
        -- apply (diagnostics_prefix _ _ Hp) in Hin.
           now apply done_not_in_plan in Hin.
Qed.

Lemma X8_success_line_iff_completed_witness :
  In done_line (diagnostics (trace (snd (run (serving 200 "x" (inr sample)))))).
Proof.
  apply (proj2 (X8_success_line_iff_completed (serving 200 "x" (inr sample)))).
  vm_compute. reflexivity.
Defined.

(** The plotting calls of the charts to draw are the calls of the plan. *)
Lemma chart_call_in_plan L df c :
  In c (charts L) -> enabled df c = true ->
  In (call c (encoded df)) (calls (plan L (encoded df))).
Proof.
  intros Hc He. unfold plan. rewrite calls_plan.
  apply (in_map (fun c => call c (encoded df))), filter_In.
  now rewrite (enabled_encoded L).
Qed.

(** X9: a plotting call that raises ends the run there.  When a dataset is
    loaded and gets past the label encoder, and the plotting call of one of
    the charts to draw raises, the run does not reach the end of the
    sequence: it ends with the exception of the first plotting call that
    raises, which is the last event of its trace; every call issued before
    it returned, the closing line is not printed and the dataset stays as
    encoded.  Conversely a run ends with the exception of a plotting call
    only in this way. *)
Theorem X9_raising_plot_ends_the_run (L : Libs) (df : DataFrame) (ch : Chart) :
  acquire L DATASET_URL = inr df ->
  encoder_error df = None ->
  In ch (charts L) ->
  enabled df ch = true ->
  lib_raises L (call ch (encoded df)) = true ->
  (exists c pre,
     first_raising L (plan L (encoded df)) = Some c /\
     fst (run L) = Raised (PlotError c) /\
     lib_raises L c = true /\
     trace (snd (run L)) = (preamble df ++ pre ++ [seaborn c])%list /\
     is_prefix (pre ++ [seaborn c]) (plan L (encoded df)) /\
     (forall k, In k (calls pre) -> lib_raises L k = false) /\
     ~ In done_line (diagnostics (trace (snd (run L)))) /\
     heap (snd (run L)) = [encoded df]) /\
  (forall c,
     fst (run L) = Raised (PlotError c) <->
     first_raising L (plan L (encoded df)) = Some c).
Proof.
  intros E He Hch Hen Hr. split.
  - destruct (first_raising L (plan L (encoded df))) as [c|] eqn:F.
    + destruct (run_loaded L df E) as [Hh Ht].
      destruct (run_exact L df E He) as (_ & _ & Hres).
      unfold result_of in Hres. rewrite F in Hres. rewrite Hres in Ht.
      destruct Ht as [[C _]|(_ & c' & pre & [= <-] & Hc & _ & Hn & Hp & Ht)];
        [congruence|].
      exists c, pre. repeat (split; [assumption || reflexivity|]).
      split; [now apply first_raising_None|]. split; [|exact Hh].
      rewrite Ht, diagnostics_app. intros Hin.
      apply in_app_or in Hin as [Hin|Hin].
      * now apply done_not_in_preamble in Hin.
      * apply (diagnostics_prefix _ _ Hp) in Hin.
        now apply done_not_in_plan in Hin.
    + exfalso. rewrite first_raising_None in F.
      rewrite (F _ (chart_call_in_plan L df ch Hch Hen)) in Hr. discriminate.
  - intros c. rewrite (run_result L), E, He. unfold result_of.
    destruct (first_raising L (plan L (encoded df))); split; congruence.
Qed.

Lemma X9_raising_plot_ends_the_run_witness :
  fst (run failing) = Raised (PlotError (call chart3 (encoded sample))) <->
  first_raising failing (plan failing (encoded sample))
  = Some (call chart3 (encoded sample)).
Proof.
  refine (proj2 (X9_raising_plot_ends_the_run failing sample chart3 _ _ _ _ _)
            (call chart3 (encoded sample))).
  - reflexivity.
  - reflexivity.
  - now apply (nth_error_In _ 8).
  - reflexivity.
  - reflexivity.
Defined.

(** ** What a run writes *)

(** X10: in a run that reaches its end, every chart of the main sequence is
    accounted for, by its file or by its diagnostic line: the files written
    and the lines printed number eighteen together (the seventeen charts and
    the closing line), and one more when the label encoding was skipped. *)
Theorem X10_every_chart_written_or_reported (L : Libs) (df : DataFrame) :
  acquire L DATASET_URL = inr df ->
  fst (run L) = Ok tt ->
  (List.length (artifacts (trace (snd (run L))))
   + List.length (diagnostics (trace (snd (run L)))))%nat
  = if has_column df "CategoriaPrompt" then 18%nat else 19%nat.
Proof.
  intros E Hok. destruct (run_completed L df E Hok) as (_ & _ & _ & ->).
  rewrite !artifacts_app, !diagnostics_app, artifacts_preamble.
  unfold plan. rewrite artifacts_plan, diagnostics_plan.
  change (artifacts [printed done_line]) with (@nil string).
  change (diagnostics [printed done_line]) with [done_line].
  rewrite !length_app, !length_map. cbn [List.length app].
  pose proof (filter_length (enabled (encoded df)) (charts L)) as Hl.
  change (List.length (charts L)) with 17%nat in Hl.
  unfold preamble, encoding_events.
  destruct (has_column df "CategoriaPrompt"); cbn [diagnostics List.length app startup];
    lia.
Qed.

Lemma X10_every_chart_written_or_reported_witness :
  (List.length (artifacts (trace (snd (run (serving 200 "x" (inr small_table))))))
   + List.length (diagnostics (trace (snd (run (serving 200 "x" (inr small_table)))))))%nat
  = if has_column small_table "CategoriaPrompt" then 18%nat else 19%nat.
Proof.
  refine (X10_every_chart_written_or_reported (serving 200 "x" (inr small_table))
            small_table _ _).
  - reflexivity.
  - vm_compute. reflexivity.
Defined.

Lemma subsequence_filter {A} (f : A -> bool) (l : list A) :
  subsequence (filter f l) l.
Proof.
  induction l as [|x l IH]; cbn; [constructor|].
  destruct (f x); [now apply subsequence_take|now apply subsequence_skip].
Qed.

Lemma subsequence_map {A B} (f : A -> B) (l1 l2 : list A) :
  subsequence l1 l2 -> subsequence (map f l1) (map f l2).
Proof.
  induction 1; cbn;
    [apply subsequence_nil|now apply subsequence_skip|now apply subsequence_take].
Qed.

Lemma subsequence_app_inv {A} (a b l : list A) :
  subsequence (a ++ b) l -> subsequence a l.
Proof.
  revert a. induction l as [|x l IH]; intros a H.
  - inversion H as [l' E| |]. destruct a; [constructor|discriminate].
  - destruct a as [|y a]; [constructor|].
    inversion H as [|x' l1 l2 H'|x' l1 l2 H']; subst.
    + apply subsequence_skip. now apply IH.
    + apply subsequence_take. now apply IH.
Qed.

Lemma subsequence_In {A} (l1 l2 : list A) x :
  subsequence l1 l2 -> In x l1 -> In x l2.
Proof.
  induction 1 as [l|y l1 l2 _ IH|y l1 l2 _ IH]; cbn; [tauto| |]; intuition.
Qed.

Lemma subsequence_NoDup {A} (l1 l2 : list A) :
  subsequence l1 l2 -> NoDup l2 -> NoDup l1.
Proof.
  induction 1 as [l|y l1 l2 _ IH|y l1 l2 Hs IH]; intros Hnd.
  - constructor.
  - inversion Hnd; auto.
  - inversion Hnd as [|? ? Hnot Hnd']; subst. constructor; auto.
    intros Hin. apply Hnot. eapply subsequence_In; eassumption.
Qed.

Lemma plan_artifacts_subsequence L d :
  subsequence (artifacts (plan L d)) (map chart_path (charts L)).
Proof.
  unfold plan. rewrite artifacts_plan.
  apply subsequence_map, subsequence_filter.
Qed.

(** X11: in every run, complete or not, the files written are files of the
    fixed list of seventeen, in the order of that list and each at most
    once: no run writes a file twice or out of order. *)
Theorem X11_files_in_fixed_order_without_repeats (L : Libs) :
  subsequence (artifacts (trace (snd (run L)))) (map chart_path (charts L)) /\
  NoDup (artifacts (trace (snd (run L)))) /\
  (List.length (artifacts (trace (snd (run L)))) <= 17)%nat.
Proof.
  assert (Hs : subsequence (artifacts (trace (snd (run L))))
                 (map chart_path (charts L))).
  { destruct (acquire L DATASET_URL) as [e|df] eqn:E.
    - rewrite (run_failed L e E). cbn. constructor.
    - destruct (run_loaded L df E) as [_ Ht].
      destruct (fst (run L)) as [[]|e].
      + destruct Ht as (_ & _ & Ht).
        rewrite Ht, !artifacts_app, artifacts_preamble.
        change (artifacts [printed done_line]) with (@nil string).
        rewrite app_nil_r. apply plan_artifacts_subsequence.
      + destruct Ht as [[_ Ht]|(_ & c & pre & _ & _ & _ & _ & [rest Hp] & Ht)].
        * rewrite Ht, artifacts_preamble. constructor.
        * rewrite Ht, artifacts_app, artifacts_preamble. cbn [app].
          apply subsequence_app_inv with (b := artifacts rest).
          rewrite <- artifacts_app, <- Hp. apply plan_artifacts_subsequence. }
  split; [exact Hs|]. split.
  - eapply subsequence_NoDup; [exact Hs|apply chart_paths_NoDup].
  - assert (Hn : NoDup (artifacts (trace (snd (run L)))))
      by (eapply subsequence_NoDup; [exact Hs|apply chart_paths_NoDup]).
    change 17%nat with (List.length (map chart_path (charts L))).
    apply NoDup_incl_length; trivial.
    intros p. now apply subsequence_In.
Qed.

Lemma chart_guards_any L :
  map (fun c => (chart_path c, needs c)) (charts L) = chart_guards.
Proof. reflexivity. Qed.

Lemma enabled_charts_guards L d :
  map chart_path (filter (enabled d) (charts L))
  = map fst (filter (fun g => has_columns d (snd g)) chart_guards).
Proof.
  rewrite <- (chart_guards_any L). unfold enabled.
  generalize (charts L) as cs.
  induction cs as [|c cs IH]; cbn [map filter fst snd]; [reflexivity|].
  destruct (has_columns d (needs c)); cbn [map filter fst snd]; now rewrite IH.
Qed.

Lemma chart_guards_expected :
  forallb (fun g => forallb (fun n => existsb (String.eqb n) expected_columns) (snd g))
    chart_guards = true.
Proof. reflexivity. Qed.

Lemma guard_expected g n :
  In g chart_guards -> In n (snd g) -> In n expected_columns.
Proof.
  intros Hg Hn. pose proof chart_guards_expected as H.
  rewrite forallb_forall in H. specialize (H g Hg).
  rewrite forallb_forall in H. apply existsb_eqb_In. now apply H.
Qed.

(** X12: which files a run that reaches its end writes depends only on
    which of the expected columns the dataset has, not on its rows, its
    other columns or the libraries: two such runs on datasets with the same
    expected columns write the same files in the same order. *)
Theorem X12_files_depend_on_column_presence_only (L L' : Libs) (df df' : DataFrame) :
  acquire L DATASET_URL = inr df -> fst (run L) = Ok tt ->
  acquire L' DATASET_URL = inr df' -> fst (run L') = Ok tt ->
  same_presence df df' ->
  artifacts (trace (snd (run L))) = artifacts (trace (snd (run L'))).
Proof.
  intros E Hok E' Hok' Hsame.
  rewrite (run_artifacts L df E Hok), (run_artifacts L' df' E' Hok').
  rewrite !enabled_charts_guards. f_equal.
  apply filter_ext_in. intros g Hg. unfold has_columns.
  assert (Hn : forall n, In n (snd g) -> In n expected_columns)
    by (intros n; now apply guard_expected).
  induction (snd g) as [|n ns IH]; cbn; [reflexivity|].
  rewrite (Hsame n) by (apply Hn; now left).
  rewrite IH; [reflexivity|]. intros m Hm. apply Hn. now right.
Qed.

(** X13: a dataset with more columns never yields fewer charts: if every
    column of one dataset is a column of the other, every file written by a
    run on the first is written by a run on the second, for runs that reach
    their end. *)
Theorem X13_more_columns_never_fewer_files (L L' : Libs) (df df' : DataFrame) :
  acquire L DATASET_URL = inr df -> fst (run L) = Ok tt ->
  acquire L' DATASET_URL = inr df' -> fst (run L') = Ok tt ->
  (forall n, has_column df n = true -> has_column df' n = true) ->
  incl (artifacts (trace (snd (run L)))) (artifacts (trace (snd (run L')))).
Proof.
  intros E Hok E' Hok' Hmore p.
  rewrite (run_artifacts L df E Hok), (run_artifacts L' df' E' Hok').
  rewrite !enabled_charts_guards, !in_map_iff.
  intros (g & Eg & Hg). exists g. split; [exact Eg|].
  apply filter_In in Hg as [Hg Hc]. apply filter_In. split; [exact Hg|].
  unfold has_columns in *. rewrite forallb_forall in *. auto.
Qed.

Lemma X12_files_depend_on_column_presence_only_witness :
  artifacts (trace (snd (run (serving 200 "x" (inr sample)))))
  = artifacts (trace (snd (run (serving 200 "y" (inr sample_extended))))).
Proof.
  refine (X12_files_depend_on_column_presence_only
            (serving 200 "x" (inr sample)) (serving 200 "y" (inr sample_extended))
            sample sample_extended _ _ _ _ _).
  - reflexivity.
  - vm_compute. reflexivity.
  - reflexivity.
  - vm_compute. reflexivity.
  - intros n Hn.
    repeat (destruct Hn as [<-|Hn]; [reflexivity|]). destruct Hn.
Defined.

Lemma X13_more_columns_never_fewer_files_witness :
  incl (artifacts (trace (snd (run (serving 200 "x" (inr (drop "BLEU" sample)))))))
    (artifacts (trace (snd (run (serving 200 "x" (inr sample)))))).
Proof.
  refine (X13_more_columns_never_fewer_files
            (serving 200 "x" (inr (drop "BLEU" sample)))
            (serving 200 "x" (inr sample)) (drop "BLEU" sample) sample _ _ _ _ _).
  - reflexivity.
  - vm_compute. reflexivity.
  - reflexivity.
  - vm_compute. reflexivity.
  - intros n Hn. apply existsb_eqb_In in Hn.
    repeat (destruct Hn as [<-|Hn]; [reflexivity|]). destruct Hn.
Defined.

(** ** Requests and directories *)

Lemma requests_plan d cs : requests (flat_map (chart_events d) cs) = [].
Proof.
  induction cs as [|c cs IH]; cbn; [reflexivity|].
  rewrite requests_app, IH. unfold chart_events. now destruct (enabled d c).
Qed.

Lemma requests_preamble df : requests (preamble df) = [DATASET_URL].
Proof. unfold preamble, encoding_events. now destruct (has_column df _). Qed.

(** X14: every run sends exactly one request, to the dataset URL, after the
    drive is mounted and the two directories are created and before
    anything else: there is no retry and no second download. *)
Theorem X14_one_request_per_run (L : Libs) :
  requests (trace (snd (run L))) = [DATASET_URL] /\
  nth_error (trace (snd (run L))) 3 = Some (http_get DATASET_URL).
Proof.
  destruct (acquire L DATASET_URL) as [e|df] eqn:E.
  - rewrite (run_failed L e E). split; reflexivity.
  - destruct (run_loaded L df E) as [_ Ht].
    destruct (fst (run L)) as [[]|e].
    + destruct Ht as (_ & _ & Ht).
      rewrite Ht, !requests_app, requests_preamble. unfold plan.
      rewrite requests_plan. split; reflexivity.
    + destruct Ht as [[_ Ht]|(_ & c & pre & _ & _ & _ & _ & [rest Hp] & Ht)].
      * rewrite Ht, requests_preamble. split; reflexivity.
      * rewrite Ht, requests_app, requests_preamble.
        split; [|reflexivity].
        assert (H : requests ((pre ++ [seaborn c]) ++ rest) = [])
          by (rewrite <- Hp; apply requests_plan).
        rewrite requests_app in H. apply app_eq_nil in H as [H _].
        now rewrite H.
Qed.

Lemma directories_plan d cs :
  directories (flat_map (chart_events d) cs)
  = map (fun c => os_path.dirname (chart_path c)) (filter (enabled d) cs).
Proof.
  induction cs as [|c cs IH]; cbn; [reflexivity|].
  rewrite directories_app, IH. unfold chart_events. now destruct (enabled d c).
Qed.

Lemma chart_directories L :
  forallb (fun c => (os_path.dirname (chart_path c) =? GRAPHPATH)%string) (charts L)
  = true.
Proof. reflexivity. Qed.

Lemma directories_preamble df : directories (preamble df) = [GRAPHPATH; SUMMARYPATH].
Proof. unfold preamble, encoding_events. now destruct (has_column df _). Qed.

(** X15: in a run that reaches its end, the graphics directory is created once at
    startup and once more before each file is written, the summaries
    directory once at startup, and no other directory is ever created. *)
Theorem X15_directories_created (L : Libs) (df : DataFrame) :
  acquire L DATASET_URL = inr df ->
  fst (run L) = Ok tt ->
  directories (trace (snd (run L)))
  = (GRAPHPATH :: SUMMARYPATH
     :: repeat GRAPHPATH (List.length (artifacts (trace (snd (run L))))))%list.
Proof.
  intros E Hok. rewrite (run_artifacts L df E Hok).
  destruct (run_completed L df E Hok) as (_ & _ & _ & ->).
  rewrite !directories_app, directories_preamble. unfold plan.
  rewrite directories_plan, filter_enabled_encoded.
  change (directories [printed done_line]) with (@nil string).
  rewrite app_nil_r, length_map. cbn [app]. do 2 f_equal.
  pose proof (chart_directories L) as H. rewrite forallb_forall in H.
  assert (Hf : forall c, In c (filter (enabled df) (charts L)) ->
                         os_path.dirname (chart_path c) = GRAPHPATH).
  { intros c Hc. apply filter_In in Hc as [Hc _]. now apply String.eqb_eq, H. }
  induction (filter (enabled df) (charts L)) as [|c cs IH]; cbn; [reflexivity|].
  rewrite Hf by now left. f_equal. apply IH. intros c' Hc'. apply Hf. now right.
Qed.

Lemma X15_directories_created_witness :
  directories (trace (snd (run (serving 200 "x" (inr small_table)))))
  = (GRAPHPATH :: SUMMARYPATH
     :: repeat GRAPHPATH
          (List.length
             (artifacts (trace (snd (run (serving 200 "x" (inr small_table))))))))%list.
Proof.
  refine (X15_directories_created (serving 200 "x" (inr small_table)) small_table _ _).
  - reflexivity.
  - vm_compute. reflexivity.
Defined.

(** ** The encoding stage and the charts that use it *)

Lemma getitem_In d name s : getitem d name = Some s -> In (name, s) d.
Proof.
  induction d as [|[n x] d IH]; cbn; [discriminate|].
  destruct (String.eqb_spec n name) as [->|]; [|auto].
  intros [= ->]. now left.
Qed.

Lemma has_column_encoded_derived df :
  encoder_error df = None ->
  has_column (encoded df) "CategoriaPrompt_encoded"
  = has_column df "CategoriaPrompt" || has_column df "CategoriaPrompt_encoded".
Proof.
  unfold encoder_error, encoded.
  destruct (has_column df "CategoriaPrompt") eqn:E.
  - apply has_column_getitem in E as [s ->].
    destruct (fit_transform s); [discriminate|]. intros _.
    rewrite has_column_setitem, String.eqb_refl. now rewrite orb_true_r.
  - now rewrite (getitem_has_column _ _ E).
Qed.

(** The derived column is a numeric column. *)
Lemma fit_transform_numeric s codes :
  fit_transform s = inr codes -> is_numeric codes = true.
Proof.
  destruct s as [v|v|v|[|a v]]; cbn [fit_transform]; try destruct (mixed _);
    now intros [= <-].
Qed.

(** X16: the derived column takes part in the correlations: in a run that
    reaches its end on a dataset that has ['CategoriaPrompt'], the matrix
    drawn by the heatmap of step 7 has ['CategoriaPrompt_encoded'] among its
    rows and among its columns. *)
Theorem X16_heatmap_includes_derived_column (L : Libs) (df : DataFrame) :
  acquire L DATASET_URL = inr df ->
  fst (run L) = Ok tt ->
  has_column df "CategoriaPrompt" = true ->
  exists m,
    In (sns_heatmap m true DEFAULT_PALETTE ".2f" (1 # 2))
      (calls (trace (snd (run L)))) /\
    In "CategoriaPrompt_encoded" (corr_index m) /\
    In "CategoriaPrompt_encoded" (corr_columns m).
Proof.
  intros E Hok Hc.
  exists (corr L (select_dtypes_number (encoded df))).
  assert (Hin : In (chart7 L) (charts L)) by now apply (nth_error_In _ 12).
  destruct (chart_outcome L df (chart7 L) E Hok Hin) as [Hyes _].
  destruct (Hyes eq_refl) as [Hcall _]. split; [exact Hcall|].
  assert (Hn : In "CategoriaPrompt_encoded" (columns (select_dtypes_number (encoded df)))).
  { apply has_column_getitem in Hc as [s Es].
    destruct (run_completed L df E Hok) as (Henc & _).
    unfold encoder_error in Henc. rewrite Es in Henc.
    destruct (fit_transform s) as [types|codes] eqn:F; [discriminate|].
    apply (in_map fst _ ("CategoriaPrompt_encoded", codes)).
    apply filter_In. split; [|exact (fit_transform_numeric s codes F)].
    apply getitem_In. rewrite (encoded_accepted df s codes Es F).
    apply getitem_setitem. }
  split; exact Hn.
Qed.

Lemma X16_heatmap_includes_derived_column_witness :
  exists m,
    In (sns_heatmap m true DEFAULT_PALETTE ".2f" (1 # 2))
      (calls (trace (snd (run (serving 200 "x" (inr sample)))))) /\
    In "CategoriaPrompt_encoded" (corr_index m) /\
    In "CategoriaPrompt_encoded" (corr_columns m).
Proof.
  refine (X16_heatmap_includes_derived_column (serving 200 "x" (inr sample)) sample _ _ _).
  - reflexivity.
  - vm_compute. reflexivity.
  - reflexivity.
Defined.

(** X17: in a run that reaches its end, every scatterplot that is drawn is coloured by
    ['CategoriaPrompt_encoded'] exactly when the loaded dataset has
    ['CategoriaPrompt'] (so that the encoding stage derived the column) or
    already had a column of the derived name; otherwise it is drawn without
    hue. *)
Theorem X17_scatterplots_coloured_by_category (L : Libs) (df : DataFrame) (c : Chart) :
  acquire L DATASET_URL = inr df ->
  fst (run L) = Ok tt ->
  In c scatter_charts ->
  enabled df c = true ->
  exists x y,
    needs c = [x; y] /\
    In (sns_scatterplot x y (encoded df) (7 # 10)
          (if has_column df "CategoriaPrompt"
              || has_column df "CategoriaPrompt_encoded"
           then Some "CategoriaPrompt_encoded" else None)
          None DEFAULT_PALETTE)
      (calls (trace (snd (run L)))).
Proof.
  intros E Hok Hc He.
  destruct (chart_outcome L df c E Hok (scatter_charts_in L c Hc)) as [Hyes _].
  destruct (Hyes He) as [Hcall _].
  rewrite <- (has_column_encoded_derived df)
    by now destruct (run_completed L df E Hok).
  destruct Hc as [<-|[<-|[<-|[<-|[]]]]]; eexists _, _; (split; [reflexivity|exact Hcall]).
Qed.

Lemma X17_scatterplots_coloured_by_category_witness :
  exists x y,
    needs chart3 = [x; y] /\
    In (sns_scatterplot x y (encoded (drop "CategoriaPrompt" sample)) (7 # 10)
          (if has_column (drop "CategoriaPrompt" sample) "CategoriaPrompt"
              || has_column (drop "CategoriaPrompt" sample) "CategoriaPrompt_encoded"
           then Some "CategoriaPrompt_encoded" else None)
          None DEFAULT_PALETTE)
      (calls (trace (snd (run (serving 200 "x" (inr (drop "CategoriaPrompt" sample))))))).
Proof.
  refine (X17_scatterplots_coloured_by_category
            (serving 200 "x" (inr (drop "CategoriaPrompt" sample)))
            (drop "CategoriaPrompt" sample) chart3 _ _ _ _).
  - reflexivity.
  - vm_compute. reflexivity.
  - now left.
  - reflexivity.
Defined.

Lemma setitem_setitem d name s s' :
  setitem (setitem d name s) name s' = setitem d name s'.
Proof.
  unfold setitem at 1 3.
  rewrite has_column_setitem, String.eqb_refl, orb_true_r.
  unfold setitem. destruct (has_column d name) eqn:E.
  - rewrite map_map. apply map_ext. intros [n x]. cbn.
    destruct (String.eqb_spec n name); cbn; [now rewrite String.eqb_refl|].
    now destruct (String.eqb_spec n name).
  - rewrite map_app. cbn. rewrite String.eqb_refl. f_equal.
    unfold has_column, columns in E.
    induction d as [|[n x] d IH]; cbn in *; [reflexivity|].
    rewrite (String.eqb_sym name n) in E.
    destruct (n =? name)%string; cbn in *; [discriminate|]. now rewrite IH.
Qed.

Lemma encoded_idempotent d : encoded (encoded d) = encoded d.
Proof.
  unfold encoded at 1. rewrite encoded_other by reflexivity.
  unfold encoded. destruct (getitem d "CategoriaPrompt") as [s|]; [|reflexivity].
  destruct (fit_transform s); [reflexivity|]. apply setitem_setitem.
Qed.

Lemma encoder_error_encoded_again d : encoder_error (encoded d) = encoder_error d.
Proof. unfold encoder_error. now rewrite encoded_other. Qed.

Lemma update_update {A} (l : list A) i f g :
  update (update l i f) i g = update l i (fun x => g (f x)).
Proof.
  revert i. induction l as [|x l IH]; intros [|i]; cbn; trivial.
  now rewrite IH.
Qed.

(** X18: the encoding stage can be run again without harm: executed a
    second time on the same dataset object (as when the notebook cell is
    re-run), it ends as the first execution did -- returning, or raising the
    encoder's exception -- and leaves the dataset exactly as the first
    execution left it. *)
Theorem X18_encoding_stage_idempotent (df : Ref) (st : State) :
  (df < List.length (heap st))%nat ->
  fst ((preprocess df ;; preprocess df)%prog st) = fst (preprocess df st) /\
  heap (snd ((preprocess df ;; preprocess df)%prog st))
  = heap (snd (preprocess df st)).
Proof.
  intros Hdf. unfold bind. rewrite (preprocess_run df st).
  destruct (encoder_error (nth df (heap st) [])) as [e|] eqn:He;
    [split; reflexivity|].
  rewrite preprocess_run. cbn [fst snd heap].
  rewrite (update_nth (heap st) df encoded []) by exact Hdf.
  rewrite encoder_error_encoded_again, He. cbn [fst snd heap].
  split; [reflexivity|].
  rewrite update_update.
  apply (@update_congr DataFrame _ _ _ _ ([] : DataFrame)).
  apply encoded_idempotent.
Qed.

Lemma X18_encoding_stage_idempotent_witness :
  heap (snd ((preprocess 0%nat ;; preprocess 0%nat)%prog
               (mkState [sample_with_codes] [] [])))
  = heap (snd (preprocess 0%nat (mkState [sample_with_codes] [] []))).
Proof.
  refine (proj2 (X18_encoding_stage_idempotent 0%nat
                   (mkState [sample_with_codes] [] []) _)).
  cbn. lia.
Defined.

(** The codes are as many as the rows. *)
Lemma length_fit_transform s codes :
  fit_transform s = inr codes -> series_length codes = series_length s.
Proof.
  intros F. destruct (fit_transform_dtype s codes F) as [H0 H1].
  destruct s as [v|v|v|[|a v]];
    try (destruct H1 as (zs & -> & Hl); [discriminate|exact Hl]).
  now rewrite H0.
Qed.

Lemma setitem_Forall (P : string * Series -> Prop) d name s :
  Forall P d -> P (name, s) -> Forall P (setitem d name s).
Proof.
  intros Hd Hs. unfold setitem. destruct (has_column d name).
  - induction Hd as [|c d Hc Hd IH]; cbn; constructor; trivial.
    now destruct (fst c =? name)%string.
  - apply Forall_app. auto.
Qed.

(** X19: the encoding stage keeps the dataset rectangular: if every column
    of the dataset has [n] rows, so has every column afterwards, the derived
    column included (one code per row). *)
Theorem X19_encoding_keeps_row_count (df : Ref) (st : State) (n : nat) :
  (df < List.length (heap st))%nat ->
  rectangular n (nth df (heap st) []) ->
  rectangular n (nth df (heap (snd (preprocess df st))) []).
Proof.
  intros Hdf Hr. rewrite preprocess_run.
  destruct (encoder_error (nth df (heap st) [])); [exact Hr|]. cbn [snd heap].
  rewrite (update_nth (heap st) df encoded []) by exact Hdf.
  unfold encoded. destruct (getitem _ "CategoriaPrompt") as [s|] eqn:E; [|exact Hr].
  destruct (fit_transform s) as [types|codes] eqn:F; [exact Hr|].
  apply setitem_Forall; [exact Hr|]. cbn [snd].
  rewrite (length_fit_transform s codes F).
  apply getitem_In in E. unfold rectangular in Hr. rewrite Forall_forall in Hr.
  apply (Hr _ E).
Qed.

Lemma X19_encoding_keeps_row_count_witness :
  rectangular 3 (nth 0 (heap (snd (preprocess 0%nat (mkState [sample] [] [])))) []).
Proof.
  refine (X19_encoding_keeps_row_count 0%nat (mkState [sample] [] []) 3 _ _).
  - cbn. lia.
  - repeat constructor.
Defined.

(** ** The codes of the label encoder *)

Section CodeOrder.
Context {A : Type} `{OrdLaws A}.
Import LabelEncoder.

Lemma distinct_In (x : A) (l : list A) : In x (distinct l) <-> In x l.
Proof.
  induction l as [|a l IH]; cbn; [tauto|].
  destruct (existsb (same a) l) eqn:E; cbn; rewrite IH; [|tauto].
  apply existsb_same_In in E. split; [tauto|]. intros [<-|]; tauto.
Qed.

Lemma distinct_NoDup (l : list A) : NoDup (distinct l).
Proof.
  induction l as [|a l IH]; cbn; [constructor|].
  destruct (existsb (same a) l) eqn:E; trivial.
  constructor; trivial. rewrite distinct_In. intros Hin.
  apply existsb_same_In in Hin. congruence.
Qed.

Lemma classes_length (y : list A) :
  List.length (classes y) = List.length (distinct y).
Proof.
  apply Permutation_length, NoDup_Permutation.
  - apply sorted_NoDup, classes_sorted.
  - apply distinct_NoDup.
  - intros x. now rewrite classes_In, distinct_In.
Qed.

Lemma index_bound (x : A) (cls : list A) :
  In x cls -> (index x cls < List.length cls)%nat.
Proof.
  induction cls as [|c cls IH]; cbn; [tauto|].
  destruct (same x c) eqn:E; [lia|].
  intros [->|Hin]; [|apply IH in Hin; lia].
  assert (same x x = true) by (apply (proj2 (same_iff _ _)); reflexivity).
  congruence.
Qed.

Lemma ltb_asym (x y : A) : ltb x y = true -> ltb y x = false.
Proof.
  intros Hxy. destruct (ltb y x) eqn:Hyx; trivial.
  pose proof (ltb_trans _ _ _ Hxy Hyx) as C. now rewrite ltb_irrefl in C.
Qed.

(** In an ascending list, a value is below another exactly when it stands
    before it. *)
Lemma index_monotone (cls : list A) (x y : A) :
  StronglySorted lt cls -> In x cls -> In y cls ->
  (ltb x y = true <-> (index x cls < index y cls)%nat).
Proof.
  induction 1 as [|c cls Hs IH Hc]; cbn [index In]; [tauto|].
  rewrite Forall_forall in Hc. intros Hx Hy.
  destruct (same x c) eqn:Ex, (same y c) eqn:Ey.
  - apply (proj1 (same_iff _ _)) in Ex. apply (proj1 (same_iff _ _)) in Ey. subst. rewrite ltb_irrefl. split; [discriminate|lia].
  - apply (proj1 (same_iff _ _)) in Ex. subst x.
    destruct Hy as [->|Hy].
    + assert (same y y = true) by (apply (proj2 (same_iff _ _)); reflexivity). congruence.
    + split; [lia|]. intros _. now apply Hc.
  - apply (proj1 (same_iff _ _)) in Ey. subst y.
    destruct Hx as [->|Hx].
    + assert (same x x = true) by (apply (proj2 (same_iff _ _)); reflexivity). congruence.
    + apply Hc in Hx. unfold lt in Hx. rewrite (ltb_asym _ _ Hx).
      split; [discriminate|lia].
  - destruct Hx as [->|Hx];
      [assert (same x x = true) by (apply (proj2 (same_iff _ _)); reflexivity); congruence|].
    destruct Hy as [->|Hy];
      [assert (same y y = true) by (apply (proj2 (same_iff _ _)); reflexivity); congruence|].
    rewrite (IH Hx Hy). lia.
Qed.

(** X20: the codes order the rows as the values do.  For any two rows of
    the encoded column, the code of one is smaller than the code of the
    other exactly when its value is smaller, the codes are equal exactly
    when the values are equal, and every code lies between 0 and the number
    of distinct values. *)
Theorem X20_codes_preserve_order (y : list A) (i j : nat) (vi vj : A) (ci cj : Z) :
  nth_error y i = Some vi ->
  nth_error y j = Some vj ->
  nth_error (fit_transform y) i = Some ci ->
  nth_error (fit_transform y) j = Some cj ->
  (ci < cj <-> ltb vi vj = true) /\
  (ci = cj <-> vi = vj) /\
  0 <= ci < Z.of_nat (List.length (distinct y)).
Proof.
  intros Hi Hj Hci Hcj. unfold fit_transform, transform in Hci, Hcj.
  rewrite nth_error_map, Hi in Hci. rewrite nth_error_map, Hj in Hcj.
  cbn in Hci, Hcj. injection Hci as <-. injection Hcj as <-.
  assert (Hvi : In vi (classes y)) by (apply classes_In; eapply nth_error_In; eauto).
  assert (Hvj : In vj (classes y)) by (apply classes_In; eapply nth_error_In; eauto).
  split; [|split].
  - rewrite (index_monotone (classes y) vi vj (classes_sorted y) Hvi Hvj). lia.
  - split.
    + intros E. apply Nat2Z.inj in E. now apply (index_inj (classes y)).
    + now intros ->.
  - pose proof (index_bound vi (classes y) Hvi) as Hb.
    rewrite classes_length in Hb. lia.
Qed.

End CodeOrder.

Lemma X20_codes_preserve_order_witness :
  (1 < 2 <-> ltb (Some "b") (Some "c") = true) /\
  (1 = 2 <-> Some "b" = Some "c") /\
  0 <= 1 < Z.of_nat (List.length (distinct [Some "c"; Some "b"; None; Some "a"; Some "b"])).
Proof.
  refine (X20_codes_preserve_order [Some "c"; Some "b"; None; Some "a"; Some "b"]
            1 0 (Some "b") (Some "c") 1 2 _ _ _ _); reflexivity.
Defined.
